(** * nexus3_exporter: a shallow embedding of the exporter script

    The script [nexus3_exporter.py] walks the paginated asset listing of a
    Nexus 3 repository and downloads every asset, verifying its SHA-1.
    This development embeds the script's functions ([main], [abort],
    [fetch_asset_listing], [download_assets], [download_single_asset],
    [sha1]) as state-passing functions over an explicit [world] (file system,
    remote server, console) and proves properties of them.

    Conventions of the embedding:
    - a Python [str] is a [string]; every character stands for the code point
      of the same number (0..255);
    - a value decoded from JSON is a [pyobj]; JSON numbers are integers;
    - [bytes] are [list byte];
    - exceptions are the [Exc] outcome of the monad [M]; [IOError] is an alias
      of [OSError] in Python 3 and the exceptions of [requests] derive from it;
      what [r.json()] raises on a body that is not JSON comes with the
      reply (see [response]);
    - the library functions the script calls ([hashlib.sha1], [os.path.join],
      [os.path.dirname], [os.makedirs], [urljoin], [str.lstrip], [repr]) are
      written after CPython's;
    - the [while] loop of [fetch_asset_listing] is unbounded in the source and
      runs on fuel here; [OutOfFuel] is the outcome of a run that needs more;
    - tqdm progress bars are presentation on stderr and are left out; what
      [print] and [tqdm.write] put on stdout is part of the trace. *)

From Stdlib Require Import ZArith String Ascii.
From Stdlib.Strings Require Import Byte.
From stdpp Require Import gmap strings list pretty.

Local Open Scope Z_scope.
Set Default Proof Using "Type".

(** ** Strings, the way Python's [str] methods see them *)

Module Str.

Definition chr (n : N) : ascii := ascii_of_N n.
Definition ord (c : ascii) : N := N_of_ascii c.

(** [c in s] for a one-character [c]. *)
Fixpoint mem (c : ascii) (s : string) : bool :=
  match s with
  | EmptyString => false
  | String d s' => Ascii.eqb c d || mem c s'
  end.

(** [s.startswith(p)] *)
Fixpoint startswith (p s : string) : bool :=
  match p, s with
  | EmptyString, _ => true
  | String _ _, EmptyString => false
  | String a p', String b s' => Ascii.eqb a b && startswith p' s'
  end.

(** [sub in s] *)
Fixpoint contains (sub s : string) : bool :=
  startswith sub s ||
  match s with
  | EmptyString => false
  | String _ s' => contains sub s'
  end.

(** [s.endswith(c)] for a one-character [c]. *)
Fixpoint endswith (c : ascii) (s : string) : bool :=
  match s with
  | EmptyString => false
  | String d EmptyString => Ascii.eqb c d
  | String _ s' => endswith c s'
  end.

(** [s.lstrip(chars)]: drop leading characters that occur in [chars]. *)
Fixpoint lstrip (chars s : string) : string :=
  match s with
  | EmptyString => EmptyString
  | String c s' => if mem c chars then lstrip chars s' else s
  end.

(** [s.rstrip(chars)] *)
Fixpoint rstrip (chars s : string) : string :=
  match s with
  | EmptyString => EmptyString
  | String c s' =>
      match rstrip chars s' with
      | EmptyString => if mem c chars then EmptyString else String c EmptyString
      | r => String c r
      end
  end.

(** [s.split(c)]: never empty, one more piece than occurrences of [c]. *)
Fixpoint split (c : ascii) (s : string) : list string :=
  match s with
  | EmptyString => [EmptyString]
  | String d s' =>
      match split c s' with
      | [] => [EmptyString]
      | p :: ps => if Ascii.eqb c d then EmptyString :: p :: ps
                   else String d p :: ps
      end
  end.

(** [s.split(c, 1)] as a pair: the text before the first [c] and the text
    after it, [None] when [c] does not occur. *)
Fixpoint split1 (c : ascii) (s : string) : option (string * string) :=
  match s with
  | EmptyString => None
  | String d s' =>
      if Ascii.eqb c d then Some (EmptyString, s')
      else match split1 c s' with
           | Some (a, b) => Some (String d a, b)
           | None => None
           end
  end.

(** [sep.join(l)] *)
Fixpoint join (sep : string) (l : list string) : string :=
  match l with
  | [] => EmptyString
  | [x] => x
  | x :: l' => x +:+ sep +:+ join sep l'
  end.

(** [s.replace(c, empty)]: every occurrence of [c] removed. *)
Fixpoint remove (c : ascii) (s : string) : string :=
  match s with
  | EmptyString => EmptyString
  | String d s' => if Ascii.eqb c d then remove c s' else String d (remove c s')
  end.

(** [s.lower()] on the letters A..Z. *)
Definition lower_char (c : ascii) : ascii :=
  let n := ord c in
  if ((65 <=? n) && (n <=? 90))%N then chr (n + 32) else c.

Fixpoint lower (s : string) : string :=
  match s with
  | EmptyString => EmptyString
  | String c s' => String (lower_char c) (lower s')
  end.

(** One lowercase hexadecimal digit. *)
Definition hexdigit (n : Z) : ascii :=
  match n mod 16 with
  | 0 => "0" | 1 => "1" | 2 => "2" | 3 => "3" | 4 => "4" | 5 => "5"
  | 6 => "6" | 7 => "7" | 8 => "8" | 9 => "9" | 10 => "a" | 11 => "b"
  | 12 => "c" | 13 => "d" | 14 => "e" | _ => "f"
  end%char.

Definition of_char (c : ascii) : string := String c EmptyString.

End Str.

(** ** Python objects decoded from JSON *)

#[warnings="-register-all"]
Inductive pyobj :=
  | PyNone
  | PyBool (b : bool)
  | PyInt (n : Z)
  | PyStr (s : string)
  | PyList (l : list pyobj)
  | PyDict (m : list (string * pyobj)).

(** The exceptions the script can meet.  [OSError] carries its [errno], when
    it has one, and [str(e)]; [FileExistsError] is the one with [EEXIST]. *)
Inductive errno := ENOENT | EEXIST | ENOTDIR | EISDIR.

Inductive exn :=
  | KeyError (key : string)
  | TypeError
  | AttributeError
  | ValueError
  | OSError (code : option errno) (msg : string)
  | JSONDecodeError
  | SystemExit (code : Z).

Inductive outcome (A : Type) :=
  | Ret (a : A)
  | Exc (e : exn)
  | OutOfFuel.
Arguments Ret {A} a.
Arguments Exc {A} e.
Arguments OutOfFuel {A}.

Module Py.

(** [bool(v)] *)
Definition truthy (v : pyobj) : bool :=
  match v with
  | PyNone => false
  | PyBool b => b
  | PyInt n => negb (n =? 0)
  | PyStr s => negb (String.eqb s EmptyString)
  | PyList l => match l with [] => false | _ => true end
  | PyDict m => match m with [] => false | _ => true end
  end.

(** [v == n] for an int [n]; [True == 1] and [False == 0] in Python. *)
Definition eq_int (v : pyobj) (n : Z) : bool :=
  match v with
  | PyInt m => m =? n
  | PyBool b => (if b then 1 else 0) =? n
  | _ => false
  end.

(** [v == s] for a str [s]. *)
Definition eq_str (v : pyobj) (s : string) : bool :=
  match v with
  | PyStr t => String.eqb t s
  | _ => false
  end.

(** A dict keeps its keys in insertion order, each key once. *)
Fixpoint dict_get (m : list (string * pyobj)) (k : string) : option pyobj :=
  match m with
  | [] => None
  | (k', v) :: m' => if String.eqb k' k then Some v else dict_get m' k
  end.

(** [v[k]] for a str key [k]. *)
Definition getitem (v : pyobj) (k : string) : outcome pyobj :=
  match v with
  | PyDict m =>
      match dict_get m k with
      | Some x => Ret x
      | None => Exc (KeyError k)
      end
  | _ => Exc TypeError
  end.

(** What [lst += v] appends: the elements [v] iterates over. *)
Definition iterate (v : pyobj) : outcome (list pyobj) :=
  match v with
  | PyList l => Ret l
  | PyStr s => Ret ((fun c => PyStr (Str.of_char c)) <$> list_ascii_of_string s)
  | PyDict m => Ret ((fun kv => PyStr (fst kv)) <$> m)
  | _ => Exc TypeError
  end.

(** [repr(s)] of a str. *)
Definition printable (c : ascii) : bool :=
  let n := Str.ord c in
  ((32 <=? n) && (n <? 127) || (161 <=? n) && negb (n =? 173))%N.

Definition backslash : ascii := "092".
Definition dquote : ascii := "034".

Definition repr_char (quote c : ascii) : string :=
  if Ascii.eqb c quote || Ascii.eqb c backslash
  then String backslash (Str.of_char c)
  else if Ascii.eqb c "009" then String backslash "t"
  else if Ascii.eqb c "010" then String backslash "n"
  else if Ascii.eqb c "013" then String backslash "r"
  else if printable c then Str.of_char c
  else let n := Z.of_N (Str.ord c) in
       String backslash (String "x" (String (Str.hexdigit (n / 16))
                                      (Str.of_char (Str.hexdigit n)))).

Fixpoint repr_chars (quote : ascii) (s : string) : string :=
  match s with
  | EmptyString => EmptyString
  | String c s' => repr_char quote c +:+ repr_chars quote s'
  end.

Definition repr_str (s : string) : string :=
  let quote : ascii :=
    if Str.mem "'" s && negb (Str.mem dquote s) then dquote else "'"%char in
  String quote (repr_chars quote s) +:+ Str.of_char quote.

(** [repr(v)] *)
Fixpoint repr (v : pyobj) : string :=
  match v with
  | PyNone => "None"
  | PyBool true => "True"
  | PyBool false => "False"
  | PyInt n => pretty n
  | PyStr s => repr_str s
  | PyList l =>
      "[" +:+
      (fix items (l : list pyobj) : string :=
         match l with
         | [] => EmptyString
         | x :: l' =>
             match l' with
             | [] => repr x
             | _ => repr x +:+ ", " +:+ items l'
             end
         end) l +:+ "]"
  | PyDict m =>
      "{" +:+
      (fix items (m : list (string * pyobj)) : string :=
         match m with
         | [] => EmptyString
         | (k, x) :: m' =>
             match m' with
             | [] => repr_str k +:+ ": " +:+ repr x
             | _ => repr_str k +:+ ": " +:+ repr x +:+ ", " +:+ items m'
             end
         end) m +:+ "}"
  end.

(** [str(v)], which is what an f-string field formats. *)
Definition str (v : pyobj) : string :=
  match v with
  | PyStr s => s
  | _ => repr v
  end.

(** [range(a, b)] *)
Definition range (a b : Z) : list Z := (fun i => a + Z.of_nat i) <$> seq 0 (Z.to_nat (b - a)).

End Py.

(** ** hashlib.sha1 (FIPS 180-4), on 32-bit words held in [Z] *)

Module hashlib.

Definition mask32 : Z := 0xFFFFFFFF.

Definition add32 (a b : Z) : Z := (a + b) mod 2 ^ 32.

Definition rotl32 (n x : Z) : Z :=
  Z.lor (Z.land (Z.shiftl x n) mask32) (Z.shiftr x (32 - n)).

Definition not32 (x : Z) : Z := Z.lxor x mask32.

(** Big-endian bytes of the low [n] bytes of [x]. *)
Fixpoint be_bytes (n : nat) (x : Z) : list Z :=
  match n with
  | O => []
  | S n' => be_bytes n' (Z.shiftr x 8) ++ [Z.land x 0xFF]
  end.

(** Message padding: 0x80, zeros up to 56 mod 64, the bit length on 8 bytes. *)
Definition pad (msg : list Z) : list Z :=
  let len := Z.of_nat (length msg) in
  let zeros := Z.to_nat ((55 - len) mod 64) in
  msg ++ [0x80] ++ replicate zeros 0 ++ be_bytes 8 (8 * len).

Fixpoint words (fuel : nat) (bs : list Z) : list Z :=
  match fuel, bs with
  | S fuel', b0 :: b1 :: b2 :: b3 :: bs' =>
      (((b0 * 256 + b1) * 256 + b2) * 256 + b3) :: words fuel' bs'
  | _, _ => []
  end.

(** The message schedule: 16 words extended to 80. *)
Fixpoint schedule (n : nat) (w : list Z) : list Z :=
  match n with
  | O => w
  | S n' =>
      let t := length w in
      let at_ (k : nat) := nth (t - k) w 0 in
      schedule n' (w ++ [rotl32 1 (Z.lxor (Z.lxor (at_ 3%nat) (at_ 8%nat))
                                         (Z.lxor (at_ 14%nat) (at_ 16%nat)))])
  end.

Definition f (t : nat) (b c d : Z) : Z :=
  if (t <? 20)%nat then Z.lor (Z.land b c) (Z.land (not32 b) d)
  else if (t <? 40)%nat then Z.lxor (Z.lxor b c) d
  else if (t <? 60)%nat then Z.lor (Z.lor (Z.land b c) (Z.land b d)) (Z.land c d)
  else Z.lxor (Z.lxor b c) d.

Definition K (t : nat) : Z :=
  if (t <? 20)%nat then 0x5A827999
  else if (t <? 40)%nat then 0x6ED9EBA1
  else if (t <? 60)%nat then 0x8F1BBCDC
  else 0xCA62C1D6.

Definition state : Type := Z * Z * Z * Z * Z.

Fixpoint rounds (t : nat) (w : list Z) (s : state) : state :=
  match w with
  | [] => s
  | wt :: w' =>
      let '(a, b, c, d, e) := s in
      let temp := add32 (add32 (add32 (add32 (rotl32 5 a) (f t b c d)) e) (K t)) wt in
      rounds (S t) w' (temp, a, rotl32 30 b, c, d)
  end.

Definition compress (h : state) (block : list Z) : state :=
  let '(h0, h1, h2, h3, h4) := h in
  let '(a, b, c, d, e) := rounds 0 (schedule 64 (words 16 block)) h in
  (add32 h0 a, add32 h1 b, add32 h2 c, add32 h3 d, add32 h4 e).

Fixpoint blocks (fuel : nat) (bs : list Z) (h : state) : state :=
  match fuel with
  | O => h
  | S fuel' =>
      match bs with
      | [] => h
      | _ => blocks fuel' (drop 64 bs) (compress h (take 64 bs))
      end
  end.

Definition init : state :=
  (0x67452301, 0xEFCDAB89, 0x98BADCFE, 0x10325476, 0xC3D2E1F0).

Definition digest (data : list byte) : state :=
  let bs := pad ((fun b => Z.of_N (Byte.to_N b)) <$> data) in
  blocks (length bs) bs init.

Fixpoint hex (n : nat) (x : Z) : string :=
  match n with
  | O => EmptyString
  | S n' => hex n' (x / 16) +:+ Str.of_char (Str.hexdigit x)
  end.

(** [hashlib.sha1(data).hexdigest()] *)
Definition sha1_hexdigest (data : list byte) : string :=
  let '(h0, h1, h2, h3, h4) := digest data in
  hex 8 h0 +:+ hex 8 h1 +:+ hex 8 h2 +:+ hex 8 h3 +:+ hex 8 h4.

End hashlib.

(** ** posixpath *)

Module posixpath.

(** [p[:p.rfind(c) + 1]] *)
Fixpoint upto_last (c : ascii) (p : string) : string :=
  match p with
  | EmptyString => EmptyString
  | String d p' =>
      match upto_last c p' with
      | EmptyString => if Ascii.eqb c d then Str.of_char d else EmptyString
      | r => String d r
      end
  end.

(** [p[p.rfind(c) + 1:]] *)
Fixpoint after_last (c : ascii) (p : string) : string :=
  match p with
  | EmptyString => EmptyString
  | String d p' =>
      if Str.mem c p' then after_last c p'
      else if Ascii.eqb c d then p' else p
  end.

(** [head and head != sep * len(head)], then [head.rstrip(sep)]. *)
Definition strip_head (head : string) : string :=
  if negb (String.eqb head EmptyString)
     && negb (String.eqb (Str.lstrip "/" head) EmptyString)
  then Str.rstrip "/" head else head.

Definition split (p : string) : string * string :=
  (strip_head (upto_last "/" p), after_last "/" p).

Definition dirname (p : string) : string := strip_head (upto_last "/" p).

Definition basename (p : string) : string := after_last "/" p.

(** [os.path.join(a, b)] *)
Definition join (a b : string) : string :=
  if Str.startswith "/" b then b
  else if String.eqb a EmptyString || Str.endswith "/" a then a +:+ b
  else a +:+ "/" +:+ b.

End posixpath.

(** ** urllib.parse: [urlsplit], [urlparse], [urlunparse], [urljoin]

    Written after CPython's [urllib/parse.py].  Two checks of [urlsplit] have
    no counterpart here: [_checknetloc] looks for characters whose NFKC form
    contains one of [/?#@:], and no code point below 256 has such a form;
    the host between brackets is not validated (CPython validates it from
    3.11.4 on).  [allow_fragments] is [True], as [urljoin] passes it. *)

Module urllib.

Definition uses_relative : list string :=
  [EmptyString; "ftp"; "http"; "gopher"; "nntp"; "imap"; "wais"; "file";
   "https"; "shttp"; "mms"; "prospero"; "rtsp"; "rtspu"; "sftp"; "svn";
   "svn+ssh"; "ws"; "wss"].

Definition uses_netloc : list string :=
  [EmptyString; "ftp"; "http"; "gopher"; "nntp"; "telnet"; "imap"; "wais";
   "file"; "mms"; "https"; "shttp"; "snews"; "prospero"; "rtsp"; "rtspu";
   "rsync"; "svn"; "svn+ssh"; "sftp"; "nfs"; "git"; "git+ssh"; "ws"; "wss"].

Definition uses_params : list string :=
  [EmptyString; "ftp"; "hdl"; "prospero"; "http"; "imap"; "https"; "shttp";
   "rtsp"; "rtspu"; "sip"; "sips"; "mms"; "sftp"; "tel"].

Definition scheme_chars : string :=
  "abcdefghijklmnopqrstuvwxyzABCDEFGHIJKLMNOPQRSTUVWXYZ0123456789+-.".

Definition str_in (s : string) (l : list string) : bool :=
  existsb (String.eqb s) l.

(** The code points 0..32. *)
Definition _WHATWG_C0_CONTROL_OR_SPACE : string :=
  string_of_list_ascii ((fun n => Str.chr (N.of_nat n)) <$> seq 0 33).

Definition _UNSAFE_URL_BYTES_TO_REMOVE : list ascii :=
  ["009"; "013"; "010"]%char.

Definition remove_unsafe (s : string) : string :=
  foldl (fun acc b => Str.remove b acc) s _UNSAFE_URL_BYTES_TO_REMOVE.

Definition isalpha_ascii (c : ascii) : bool :=
  let n := Str.ord c in
  ((65 <=? n) && (n <=? 90) || (97 <=? n) && (n <=? 122))%N.

Fixpoint all_in (chars s : string) : bool :=
  match s with
  | EmptyString => true
  | String c s' => Str.mem c chars && all_in chars s'
  end.

(** The longest prefix free of the characters of [delims], and the rest. *)
Fixpoint span_until (delims s : string) : string * string :=
  match s with
  | EmptyString => (EmptyString, EmptyString)
  | String c s' =>
      if Str.mem c delims then (EmptyString, s)
      else let '(a, b) := span_until delims s' in (String c a, b)
  end.

Record SplitResult := mkSplit
  { s_scheme : string; s_netloc : string; s_path : string;
    s_query : string; s_fragment : string }.

Record ParseResult := mkParse
  { scheme : string; netloc : string; path : string; params : string;
    query : string; fragment : string }.

Definition urlsplit (url scheme : string) : outcome SplitResult :=
  let url := Str.lstrip _WHATWG_C0_CONTROL_OR_SPACE url in
  let scheme :=
    Str.rstrip _WHATWG_C0_CONTROL_OR_SPACE
      (Str.lstrip _WHATWG_C0_CONTROL_OR_SPACE scheme) in
  let url := remove_unsafe url in
  let scheme := remove_unsafe scheme in
  let '(scheme, url) :=
    match Str.split1 ":" url with
    | Some (String c0 rest as before, after) =>
        if isalpha_ascii c0 && all_in scheme_chars before
        then (Str.lower before, after)
        else (scheme, url)
    | _ => (scheme, url)
    end in
  let with_netloc :=
    match url with
    | String "/" (String "/" rest) =>
        let '(netloc, url') := span_until "/?#" rest in
        if Str.mem "[" netloc && negb (Str.mem "]" netloc)
           || Str.mem "]" netloc && negb (Str.mem "[" netloc)
        then Exc ValueError
        else Ret (netloc, url')
    | _ => Ret (EmptyString, url)
    end in
  match with_netloc with
  | Ret (netloc, url) =>
      let '(url, fragment) :=
        match Str.split1 "#" url with
        | Some (a, b) => (a, b)
        | None => (url, EmptyString)
        end in
      let '(url, query) :=
        match Str.split1 "?" url with
        | Some (a, b) => (a, b)
        | None => (url, EmptyString)
        end in
      Ret (mkSplit scheme netloc url query fragment)
  | Exc e => Exc e
  | OutOfFuel => OutOfFuel
  end.

Definition _splitparams (url : string) : string * string :=
  match Str.split1 ";" (posixpath.after_last "/" url) with
  | Some (a, b) => (posixpath.upto_last "/" url +:+ a, b)
  | None => (url, EmptyString)
  end.

Definition urlparse (url scheme : string) : outcome ParseResult :=
  match urlsplit url scheme with
  | Ret r =>
      let '(url, params) :=
        if str_in (s_scheme r) uses_params && Str.mem ";" (s_path r)
        then _splitparams (s_path r)
        else (s_path r, EmptyString) in
      Ret (mkParse (s_scheme r) (s_netloc r) url params (s_query r) (s_fragment r))
  | Exc e => Exc e
  | OutOfFuel => OutOfFuel
  end.

Definition nonempty (s : string) : bool := negb (String.eqb s EmptyString).

Definition urlunsplit (scheme netloc url query fragment : string) : string :=
  let url :=
    if nonempty netloc
       || nonempty scheme && str_in scheme uses_netloc
          && negb (Str.startswith "//" url)
    then "//" +:+ netloc +:+
         (if nonempty url && negb (Str.startswith "/" url) then "/" +:+ url else url)
    else url in
  let url := if nonempty scheme then scheme +:+ ":" +:+ url else url in
  let url := if nonempty query then url +:+ "?" +:+ query else url in
  if nonempty fragment then url +:+ "#" +:+ fragment else url.

Definition urlunparse (p : ParseResult) : string :=
  let url := if nonempty (params p) then path p +:+ ";" +:+ params p else path p in
  urlunsplit (scheme p) (netloc p) url (query p) (fragment p).

(** [l[1:-1] = filter(None, l[1:-1])]: empty strings leave the middle. *)
Fixpoint filter_init (l : list string) : list string :=
  match l with
  | [] => []
  | y :: l' =>
      match l' with
      | [] => [y]
      | _ => if nonempty y then y :: filter_init l' else filter_init l'
      end
  end.

Definition filter_middle (l : list string) : list string :=
  match l with
  | [] => []
  | x :: l' => x :: filter_init l'
  end.

(** The loop over [segments]; [resolved] is the stack, top first. *)
Fixpoint resolve (segments resolved : list string) : list string :=
  match segments with
  | [] => reverse resolved
  | seg :: segments' =>
      if String.eqb seg ".." then resolve segments' (tail resolved)
      else if String.eqb seg "." then resolve segments' resolved
      else resolve segments' (seg :: resolved)
  end.

Definition urljoin (base url : string) : outcome string :=
  if negb (nonempty base) then Ret url
  else if negb (nonempty url) then Ret base
  else
    match urlparse base EmptyString with
    | Ret b =>
        match urlparse url (scheme b) with
        | Ret u =>
            if negb (String.eqb (scheme u) (scheme b))
               || negb (str_in (scheme u) uses_relative)
            then Ret url
            else if str_in (scheme u) uses_netloc && nonempty (netloc u)
            then Ret (urlunparse u)
            else
              let netloc' :=
                if str_in (scheme u) uses_netloc then netloc b else netloc u in
              if negb (nonempty (path u)) && negb (nonempty (params u))
              then Ret (urlunparse
                          (mkParse (scheme u) netloc' (path b) (params b)
                             (if nonempty (query u) then query u else query b)
                             (fragment u)))
              else
                let base_parts := Str.split "/" (path b) in
                let base_parts :=
                  if nonempty (List.last base_parts EmptyString)
                  then removelast base_parts else base_parts in
                let segments :=
                  if Str.startswith "/" (path u) then Str.split "/" (path u)
                  else filter_middle (base_parts ++ Str.split "/" (path u)) in
                let resolved_path := resolve segments [] in
                let resolved_path :=
                  if str_in (List.last segments EmptyString) ["."; ".."]
                  then resolved_path ++ [EmptyString] else resolved_path in
                let joined := Str.join "/" resolved_path in
                Ret (urlunparse
                       (mkParse (scheme u) netloc'
                          (if nonempty joined then joined else "/")
                          (params u) (query u) (fragment u)))
        | Exc e => Exc e
        | OutOfFuel => OutOfFuel
        end
    | Exc e => Exc e
    | OutOfFuel => OutOfFuel
    end.

End urllib.

(** ** The world the script runs in *)

(** The file system maps names to entries.  A name is looked up as it is
    spelled, but for the root and for separators at its end ([os.lookup]):
    [.] and [..] components, doubled separators and links are not resolved,
    so [a//b] and [a/b] are two names here.  The script forms the name of an
    asset's file once ([download_assets]) and uses that spelling for every
    access to it. *)
Inductive node :=
  | File (data : list byte)
  | Dir.

(** What [requests.get] hands back: [.content], and what [.json()] does with
    it: return the decoded value, or raise.  On a body that is not JSON
    [requests] before 2.27 raises [JSONDecodeError]; from 2.27 on it raises a
    subclass of it that is an [IOError] as well, which an [except IOError]
    placed first takes: [OSError] stands for that one. *)
Record response := mkResponse
  { content : list byte;
    json : exn + pyobj }.

Inductive reply :=
  | ConnectionError (msg : string)
  | Response (r : response).

Definition credentials : Type := option (string * string).

Inductive event :=
  | GET (auth : credentials) (url : string)
  | Stdout (line : string)
  | Getpass
  | Makedirs (name : string)
  | OpenWrite (name : string)
  | OpenRead (name : string).

(** [remote n auth url] is the server's reply to the request number [n]
    (counting from 0) of the run. *)
Record world := mkWorld
  { fs : gmap string node;
    trace : list event;
    remote : nat -> credentials -> string -> reply;
    NEXUS_PASSWORD : option string;
    tty : string }.

Definition set_fs (f : gmap string node) (w : world) : world :=
  mkWorld f (trace w) (remote w) (NEXUS_PASSWORD w) (tty w).

Definition log (e : event) (w : world) : world :=
  mkWorld (fs w) (trace w ++ [e]) (remote w) (NEXUS_PASSWORD w) (tty w).

Definition get_url (e : event) : option string :=
  match e with
  | GET _ url => Some url
  | _ => None
  end.

(** The URLs requested so far, oldest first. *)
Definition requests_of (w : world) : list string := omap get_url (trace w).

Definition stdout_line (e : event) : option string :=
  match e with
  | Stdout l => Some l
  | _ => None
  end.

Definition stdout_of (w : world) : list string := omap stdout_line (trace w).

(** ** The monad of the script: a world in, an outcome and a world out *)

Definition M (A : Type) : Type := world -> outcome A * world.

Definition ret {A} (a : A) : M A := fun w => (Ret a, w).

Definition raise {A} (e : exn) : M A := fun w => (Exc e, w).

Definition bind {A B} (c : M A) (k : A -> M B) : M B :=
  fun w =>
    match c w with
    | (Ret a, w') => k a w'
    | (Exc e, w') => (Exc e, w')
    | (OutOfFuel, w') => (OutOfFuel, w')
    end.

Definition lift {A} (o : outcome A) : M A := fun w => (o, w).

Definition emit (e : event) : M unit := fun w => (Ret tt, log e w).

(** [try: body  except IOError as e: handler(str(e))] *)
Definition try_except_IOError {A} (body : M A) (handler : string -> M A) : M A :=
  fun w =>
    match body w with
    | (Exc (OSError _ msg), w') => handler msg w'
    | r => r
    end.

(** [try: body  except JSONDecodeError: handler] *)
Definition try_except_JSONDecodeError {A} (body : M A) (handler : M A) : M A :=
  fun w =>
    match body w with
    | (Exc JSONDecodeError, w') => handler w'
    | r => r
    end.

Declare Scope py_scope.
Delimit Scope py_scope with py.
Notation "'let*' x ':=' c 'in' k" := (bind c (fun x => k))
  (at level 10, x name, c at level 100, k at level 200) : py_scope.
Notation "c '>>' k" := (bind c (fun _ => k))
  (at level 100, k at level 200, right associativity) : py_scope.
Local Open Scope py_scope.

Definition when (b : bool) (c : M unit) : M unit := if b then c else ret tt.

(** ** os, os.path, open, print, requests *)

(** The [OSError] for [code] at [name]. *)
Definition os_error (code : errno) (name : string) : exn :=
  OSError (Some code)
    ((match code with
      | ENOENT => "[Errno 2] No such file or directory: "
      | EEXIST => "[Errno 17] File exists: "
      | ENOTDIR => "[Errno 20] Not a directory: "
      | EISDIR => "[Errno 21] Is a directory: "
      end) +:+ Py.repr_str name).

Module os.

(** The entry a name resolves to: none for the empty name, the root
    directory for a name made of separators, the directory of the name
    without them for a name that ends with separators. *)
Definition lookup (f : gmap string node) (name : string) : option node :=
  if String.eqb name EmptyString then None
  else if String.eqb (Str.lstrip "/" name) EmptyString then Some Dir
  else if Str.endswith "/" name then
    match f !! Str.rstrip "/" name with
    | Some Dir => Some Dir
    | _ => None
    end
  else f !! name.

Definition exists_ (f : gmap string node) (name : string) : bool :=
  match lookup f name with Some _ => true | None => false end.

Definition isdir (f : gmap string node) (name : string) : bool :=
  match lookup f name with Some Dir => true | _ => false end.

Definition isfile (f : gmap string node) (name : string) : bool :=
  match lookup f name with Some (File _) => true | _ => false end.

(** The directory an entry [name] would live in: the current directory when
    [name] has no directory part, else what that part resolves to. *)
Definition parent (f : gmap string node) (name : string) : errno + unit :=
  let d := posixpath.dirname name in
  if String.eqb d EmptyString then inr tt
  else match lookup f d with
       | Some Dir => inr tt
       | Some (File _) => inl ENOTDIR
       | None => inl ENOENT
       end.

(** A last component that names a directory rather than an entry in one. *)
Definition names_directory (name : string) : bool :=
  let b := posixpath.basename name in
  String.eqb b EmptyString || String.eqb b "." || String.eqb b "..".

(** [os.mkdir(name)] *)
Definition mkdir (f : gmap string node) (name : string) : errno + gmap string node :=
  if String.eqb name EmptyString then inl ENOENT
  else match parent f name with
       | inl e => inl e
       | inr _ =>
           if exists_ f name || names_directory name then inl EEXIST
           else inr (<[name := Dir]> f)
       end.

(** [os.makedirs(name, exist_ok=True)], recursing on the head of [name].
    As [lookup] takes names as they are spelled, a name whose last component
    is [.] or [..] is reported as existing by [mkdir] and is looked up as
    spelled by [isdir]: for such names, which the system would resolve, this
    function may raise where [os.makedirs] returns. *)
Fixpoint makedirs_rec (fuel : nat) (name : string) (f : gmap string node)
  : outcome unit * gmap string node :=
  match fuel with
  | O => (OutOfFuel, f)
  | S fuel' =>
      let '(head, tail) := posixpath.split name in
      let '(head, tail) :=
        if String.eqb tail EmptyString then posixpath.split head else (head, tail) in
      let make (f : gmap string node) : outcome unit * gmap string node :=
        match mkdir f name with
        | inr f' => (Ret tt, f')
        | inl e => if isdir f name then (Ret tt, f) else (Exc (os_error e name), f)
        end in
      if negb (String.eqb head EmptyString) && negb (String.eqb tail EmptyString)
         && negb (exists_ f head)
      then
        match makedirs_rec fuel' head f with
        | (Ret _, f') | (Exc (OSError (Some EEXIST) _), f') =>
            if String.eqb tail "." then (Ret tt, f') else make f'
        | r => r
        end
      else make f
  end.

Definition makedirs (name : string) : M unit :=
  fun w =>
    let w := log (Makedirs name) w in
    let '(r, f') := makedirs_rec (S (String.length name)) name (fs w) in
    (r, set_fs f' w).

End os.

(** [with open(name, "wb") as f: f.write(data)] *)
Definition write_file (name : string) (data : list byte) : M unit :=
  fun w =>
    let w := log (OpenWrite name) w in
    if String.eqb name EmptyString then (Exc (os_error ENOENT name), w)
    else match os.parent (fs w) name with
         | inl e => (Exc (os_error e name), w)
         | inr _ =>
             if os.isdir (fs w) name || os.names_directory name
             then (Exc (os_error EISDIR name), w)
             else (Ret tt, set_fs (<[name := File data]> (fs w)) w)
         end.

(** [with open(name, "rb") as f: f.read()] *)
Definition read_file (name : string) : M (list byte) :=
  fun w =>
    let w := log (OpenRead name) w in
    match os.lookup (fs w) name with
    | Some (File data) => (Ret data, w)
    | Some Dir => (Exc (os_error EISDIR name), w)
    | None => (Exc (os_error ENOENT name), w)
    end.

Definition print (line : string) : M unit := emit (Stdout line).

(** [tqdm.write] prints above the progress bar, on stdout. *)
Definition tqdm_write (line : string) : M unit := emit (Stdout line).

(** [requests.get(url, auth=auth, verify=False)]; a failure of [requests] is
    an [IOError]. *)
Definition requests_get (url : string) (auth : credentials) : M response :=
  fun w =>
    let n := length (requests_of w) in
    let w' := log (GET auth url) w in
    match remote w n auth url with
    | ConnectionError msg => (Exc (OSError None msg), w')
    | Response r => (Ret r, w')
    end.

(** [r.json()] *)
Definition response_json (r : response) : M pyobj :=
  match json r with
  | inr v => ret v
  | inl e => raise e
  end.

(** ** The script *)

(** [abort(code)]: [exit] raises [SystemExit]. *)
Definition abort {A} (code : Z) : M A :=
  print "Aborting script!" >> raise (SystemExit code).

(** The URL of one listing request (lines 82-85); [-1] marks the first one. *)
Definition query_url (asset_api_url : string) (continuation_token : pyobj) : string :=
  if Py.eq_int continuation_token (-1) then asset_api_url
  else asset_api_url +:+ "&continuationToken=" +:+ Py.str continuation_token.

(** The [while continuation_token:] loop (lines 81-102). *)
Fixpoint fetch_loop (fuel : nat) (auth : credentials) (server_url repo_name : string)
    (asset_api_url : string) (continuation_token : pyobj)
    (asset_listing : list pyobj) : M (list pyobj) :=
  if negb (Py.truthy continuation_token) then ret asset_listing
  else
    match fuel with
    | O => fun w => (OutOfFuel, w)
    | S fuel' =>
        let* resp :=
          try_except_JSONDecodeError
            (try_except_IOError
               (let* r := requests_get (query_url asset_api_url continuation_token) auth in
                response_json r)
               (fun e => print ("IO error: " +:+ e) >> abort 2))
            (print ("Cannot decode JSON response. Are you sure that the server URL "
                    +:+ server_url +:+ " is correct and the repository '"
                    +:+ repo_name +:+ "' actually exists?") >>
             abort 3) in
        let* continuation_token := lift (Py.getitem resp "continuationToken") in
        let* items := lift (Py.getitem resp "items") in
        let* more := lift (Py.iterate items) in
        fetch_loop fuel' auth server_url repo_name asset_api_url
          continuation_token (asset_listing ++ more)
    end.

Definition fetch_asset_listing (fuel : nat) (quiet : bool) (auth : credentials)
    (server_url repo_name : string) : M (list pyobj) :=
  let* asset_api_url :=
    lift (urllib.urljoin server_url ("service/rest/v1/assets?repository=" +:+ repo_name)) in
  fetch_loop fuel auth server_url repo_name asset_api_url (PyInt (-1)) [].

(** [sha1(file_path)] *)
Definition sha1 (file_path : string) : M string :=
  let* data := read_file file_path in
  ret (hashlib.sha1_hexdigest data).

(** One turn of [for tryy in range(1, 11)] (lines 127-142): [Some v] when the
    turn executes [return v], [None] when the loop goes on. *)
Definition attempt (quiet : bool) (auth : credentials) (file_path : string)
    (no_verify : bool) (asset : pyobj) (tryy : Z) : M (option pyobj) :=
  let* failed :=
    try_except_IOError
      (let* url := lift (Py.getitem asset "downloadUrl") in
       let* r := requests_get (Py.str url) auth in
       write_file file_path (content r) >>
       ret None)
      (fun e => ret (Some (PyStr ("IO error: " +:+ e)))) in
  match failed with
  | Some error => ret (Some error)
  | None =>
      if no_verify then
        when (negb quiet)
          (tqdm_write ("Downloaded '" +:+ file_path +:+ "' (not verified!)")) >>
        ret (Some (PyBool false))
      else
        let* checksum := lift (Py.getitem asset "checksum") in
        let* expected := lift (Py.getitem checksum "sha1") in
        let* actual := sha1 file_path in
        if Py.eq_str expected actual then
          when (negb quiet)
            (tqdm_write ("Downloaded and verified '" +:+ file_path +:+ "' (try "
                         +:+ pretty tryy +:+ ")")) >>
          ret (Some (PyBool false))
        else
          tqdm_write ("SHA-1 verification failed on '" +:+ file_path +:+ "' (try "
                      +:+ pretty tryy +:+ "); retrying...") >>
          ret None
  end.

Fixpoint try_loop (quiet : bool) (auth : credentials) (file_path : string)
    (no_verify : bool) (asset : pyobj) (tries : list Z) : M pyobj :=
  match tries with
  | [] => ret (PyStr "Repeated SHA-1 verification failure")
  | tryy :: tries' =>
      let* returned := attempt quiet auth file_path no_verify asset tryy in
      match returned with
      | Some v => ret v
      | None => try_loop quiet auth file_path no_verify asset tries'
      end
  end.

(** Returns [False] when the asset is in place, else the error as a str. *)
Definition download_single_asset (quiet : bool) (auth : credentials)
    (file_path : string) (no_verify : bool) (asset : pyobj) : M pyobj :=
  os.makedirs (posixpath.dirname file_path) >>
  try_loop quiet auth file_path no_verify asset (Py.range 1 11).

(** [v.lstrip("/")]: only a str has the method. *)
Definition method_lstrip (v : pyobj) (chars : string) : outcome string :=
  match v with
  | PyStr s => Ret (Str.lstrip chars s)
  | _ => Exc AttributeError
  end.

(** [os.stat(file_path).st_size].  Line 112 asks for it after [isfile] only;
    the size of a directory entry is left at 0. *)
Definition st_size (file_path : string) : M Z :=
  fun w =>
    match os.lookup (fs w) file_path with
    | Some (File data) => (Ret (Z.of_nat (length data)), w)
    | Some Dir => (Ret 0, w)
    | None => (Exc (os_error ENOENT file_path), w)
    end.

Definition isfile (file_path : string) : M bool :=
  fun w => (Ret (os.isfile (fs w) file_path), w).

(** The condition of line 112, [and] evaluating left to right. *)
Definition already_downloaded (mirror : bool) (file_path : string) (asset : pyobj)
  : M bool :=
  if mirror then
    let* present := isfile file_path in
    if present then
      let* size := st_size file_path in
      let* file_size := lift (Py.getitem asset "fileSize") in
      ret (Py.eq_int file_size size)
    else ret false
  else ret false.

Fixpoint download_assets (quiet : bool) (auth : credentials) (output_dir : string)
    (no_verify : bool) (asset_listing : list pyobj) (mirror : bool) : M unit :=
  match asset_listing with
  | [] => ret tt
  | asset :: rest =>
      let* path := lift (Py.getitem asset "path") in
      let* relative_path := lift (method_lstrip path "/") in
      let file_path := posixpath.join output_dir relative_path in
      let* skip := already_downloaded mirror file_path asset in
      if skip then download_assets quiet auth output_dir no_verify rest mirror
      else
        let* error := download_single_asset quiet auth file_path no_verify asset in
        if Py.truthy error then
          print ("Failed downloading '" +:+ file_path
                 +:+ "' due to the following error:") >>
          print (Py.str error) >>
          abort 4
        else download_assets quiet auth output_dir no_verify rest mirror
  end.

(** What [argparse] hands to [main]. *)
Record args := mkArgs
  { server : string;
    repo : string;
    output_dir : option string;
    username : option string;
    no_verify : bool;
    mirror : bool;
    quiet : bool }.

(** [x or y] on an optional str: [None] and the empty str are falsy. *)
Definition falsy (o : option string) : bool :=
  match o with
  | Some s => String.eqb s EmptyString
  | None => true
  end.

Definition getpass : M string := fun w => (Ret (tty w), log Getpass w).

Definition getenv_NEXUS_PASSWORD : M (option string) :=
  fun w => (Ret (NEXUS_PASSWORD w), w).

Definition path_exists (name : string) : M bool :=
  fun w => (Ret (os.exists_ (fs w) name), w).

(** Lines 49-50: [if not output_dir: output_dir = repo_name]. *)
Definition resolve_output_dir (a : args) : string :=
  if falsy (output_dir a) then repo a else default (repo a) (output_dir a).

Definition main (fuel : nat) (a : args) : M unit :=
  let server_url := server a in
  let repo_name := repo a in
  let output_dir := resolve_output_dir a in
  let* found := path_exists output_dir in
  (if found && negb (mirror a) then
     when (negb (quiet a))
       (print ("Output directory '" +:+ output_dir
               +:+ "' already exists. Please delete it and then re-run the script.")) >>
     abort 1
   else ret tt) >>
  let* auth :=
    (if falsy (username a) then ret None
     else
       let* env := getenv_NEXUS_PASSWORD in
       let* password := (if falsy env then getpass else ret (default EmptyString env)) in
       ret (Some (default EmptyString (username a), password))) in
  let server_url :=
    if negb (Str.contains "://" server_url) then "http://" +:+ server_url else server_url in
  when (negb (quiet a)) (print "Fetching asset listing...") >>
  let* asset_listing := fetch_asset_listing fuel (quiet a) auth server_url repo_name in
  when (negb (quiet a)) (print "Done!") >>
  when (negb (quiet a)) (print "Downloading and verifying assets...") >>
  download_assets (quiet a) auth output_dir (no_verify a) asset_listing (mirror a) >>
  when (negb (quiet a)) (print "Done!").

(** The exit status of the process: 0 at the end of [main], the code of
    [exit], 1 after an exception nobody caught. *)
Definition exit_status {A} (r : outcome A) : option Z :=
  match r with
  | Ret _ => Some 0
  | Exc (SystemExit code) => Some code
  | Exc _ => Some 1
  | OutOfFuel => None
  end.

(** ** Vocabulary of the statements *)

(** [open(name, "wb")] succeeds: the checks of [write_file]. *)
Definition writable (f : gmap string node) (name : string) : bool :=
  negb (String.eqb name EmptyString)
  && match os.parent f name with inr _ => true | inl _ => false end
  && negb (os.isdir f name || os.names_directory name).

(** The world after one GET of [url] whose body [r] went to [file_path] and
    was read back for hashing. *)
Definition downloaded (auth : credentials) (url file_path : string) (r : response)
    (w : world) : world :=
  log (OpenRead file_path)
    (set_fs (<[file_path := File (content r)]> (fs w))
       (log (OpenWrite file_path) (log (GET auth url) w))).

Definition failed_notice (file_path : string) (tryy : Z) : event :=
  Stdout ("SHA-1 verification failed on '" +:+ file_path +:+ "' (try "
          +:+ pretty tryy +:+ "); retrying...").

Definition verified_notice (file_path : string) (tryy : Z) : event :=
  Stdout ("Downloaded and verified '" +:+ file_path +:+ "' (try "
          +:+ pretty tryy +:+ ")").

(** The world after the turns [tries], all of them mismatches; the turn
    number [i] of the loop got the body [body i]. *)
Fixpoint after_mismatches (auth : credentials) (url file_path : string)
    (body : nat -> response) (i : nat) (tries : list Z) (w : world) : world :=
  match tries with
  | [] => w
  | tryy :: tries' =>
      after_mismatches auth url file_path body (S i) tries'
        (log (failed_notice file_path tryy)
           (downloaded auth url file_path (body i) w))
  end.

Definition opened_for_write (e : event) : option string :=
  match e with
  | OpenWrite name => Some name
  | _ => None
  end.

(** The files opened for writing so far, oldest first. *)
Definition writes_of (w : world) : list string := omap opened_for_write (trace w).

(** The URL [requests.get] is given for an asset (line 128): [requests]
    takes [str(url)]. *)
Definition download_url (asset : pyobj) : string :=
  match Py.getitem asset "downloadUrl" with
  | Ret url => Py.str url
  | _ => EmptyString
  end.

Definition exhausted : pyobj := PyStr "Repeated SHA-1 verification failure".

(** One page of the listing as the loop sees it: the value under
    [continuationToken] and the elements under [items]. *)
Record page := mkPage
  { page_token : pyobj;
    page_items : list pyobj }.

(** The request number [n], for [url], is answered with a JSON object that
    holds the page [p]. *)
Definition serves (srv : nat -> credentials -> string -> reply) (n : nat)
    (auth : credentials) (url : string) (p : page) : Prop :=
  exists r resp,
    srv n auth url = Response r
    /\ json r = inr resp
    /\ Py.getitem resp "continuationToken" = Ret (page_token p)
    /\ Py.getitem resp "items" = Ret (PyList (page_items p)).

(** The URLs the loop asks for while it walks the pages [ps], holding
    [token] when it starts. *)
Fixpoint listing_urls (asset_api_url : string) (token : pyobj) (ps : list page)
  : list string :=
  match ps with
  | [] => []
  | p :: ps' => query_url asset_api_url token :: listing_urls asset_api_url (page_token p) ps'
  end.

(** The server returns the pages [ps], in this order, to the requests of the
    loop, the first of them being the request number [n]. *)
Fixpoint listing_served (srv : nat -> credentials -> string -> reply)
    (auth : credentials) (asset_api_url : string)
    (n : nat) (token : pyobj) (ps : list page) : Prop :=
  match ps with
  | [] => True
  | p :: ps' =>
      serves srv n auth (query_url asset_api_url token) p
      /\ listing_served srv auth asset_api_url (S n) (page_token p) ps'
  end.

(** Every page but the last carries a token that is true for [while], the
    last one a token that is false ([None], or an empty str). *)
Fixpoint only_last_ends (ps : list page) : bool :=
  match ps with
  | [] => false
  | p :: ps' =>
      match ps' with
      | [] => negb (Py.truthy (page_token p))
      | _ => Py.truthy (page_token p) && only_last_ends ps'
      end
  end.

(** The world after GETs of [urls], in this order, and nothing else. *)
Definition after_requests (auth : credentials) (urls : list string) (w : world) : world :=
  foldl (fun w url => log (GET auth url) w) w urls.

(** A continuation token as the listing documents it: a str or [None]. *)
Definition is_token (v : pyobj) : bool :=
  match v with
  | PyNone | PyStr _ => true
  | _ => false
  end.

(** ** Base URLs of the shape [scheme://netloc], [scheme://netloc/d1/.../dk/last] *)

(** No character of [s] is one of [delims]. *)
Fixpoint free_of (delims s : string) : bool :=
  match s with
  | EmptyString => true
  | String c s' => negb (Str.mem c delims) && free_of delims s'
  end.

(** Tab, line feed and carriage return, which [urlsplit] removes. *)
Definition unsafe : string := String "009" (String "010" (String "013" EmptyString)).

(** The characters that end or structure a component of a URL. *)
Definition reserved : string := unsafe +:+ "/?#;[]".

(** [d1/d2/.../dk/] *)
Fixpoint dir_path (dirs : list string) : string :=
  match dirs with
  | [] => EmptyString
  | d :: dirs' => d +:+ "/" +:+ dir_path dirs'
  end.

(** A directory of the path: not empty, not a dot segment. *)
Definition segment_ok (d : string) : bool :=
  urllib.nonempty d && free_of reserved d
  && negb (String.eqb d ".") && negb (String.eqb d "..").

(** The path of a base URL: none, or directories and what follows the last
    separator (empty for a path that ends with the separator). *)
Definition base_path : Type := option (list string * string).

Definition path_string (path : base_path) : string :=
  match path with
  | None => EmptyString
  | Some (dirs, last) => "/" +:+ dir_path dirs +:+ last
  end.

Definition http_base (scheme netloc : string) (path : base_path) : string :=
  scheme +:+ "://" +:+ netloc +:+ path_string path.

Definition path_ok (path : base_path) : bool :=
  match path with
  | None => true
  | Some (dirs, last) => forallb segment_ok dirs && free_of reserved last
  end.

Definition base_ok (scheme netloc : string) (path : base_path) : bool :=
  (String.eqb scheme "http" || String.eqb scheme "https")
  && urllib.nonempty netloc && free_of reserved netloc
  && path_ok path.

Definition dirs_of (path : base_path) : list string :=
  match path with
  | None => []
  | Some (dirs, _) => dirs
  end.

(** The base URL up to and with the last separator of its path. *)
Definition listing_base (scheme netloc : string) (path : base_path) : string :=
  scheme +:+ "://" +:+ netloc +:+ "/" +:+ dir_path (dirs_of path).

Definition repo_ok (repo_name : string) : bool := free_of (unsafe +:+ "#") repo_name.

(** ** Sample assets, servers and worlds *)

Module Sample.

Definition jar_url : string :=
  "http://host/repository/maven-releases/com/example/lib-1.0.jar".

(** The descriptor of an asset whose content is the three bytes [abc],
    with [checksum] as the SHA-1 the listing declares. *)
Definition asset (checksum : string) : pyobj :=
  PyDict [("downloadUrl", PyStr jar_url);
          ("path", PyStr "/com/example/lib-1.0.jar");
          ("fileSize", PyInt 3);
          ("checksum", PyDict [("sha1", PyStr checksum)])].

Definition abc : list byte := list_byte_of_string "abc".
Definition sha1_abc : string := "a9993e364706816aba3e25717850c26c9cd0d89d".

(** A server that answers the request number [n] with the body [bodies n]. *)
Definition serving (bodies : nat -> list byte) : nat -> credentials -> string -> reply :=
  fun n _ _ => Response (mkResponse (bodies n) (inl JSONDecodeError)).

(** Nine corrupted bodies, then the right one. *)
Definition flaky : nat -> list byte :=
  fun n => if (n =? 9)%nat then abc else list_byte_of_string "abd".

Definition corrupt : nat -> list byte := fun _ => list_byte_of_string "abd".

(** An empty directory, nothing on the console yet. *)
Definition fresh (srv : nat -> credentials -> string -> reply) : world :=
  mkWorld ∅ [] srv None EmptyString.

(** A directory that holds the asset above from an earlier run. *)
Definition mirrored (srv : nat -> credentials -> string -> reply) : world :=
  mkWorld (<["out/com/example/lib-1.0.jar" := File abc]>
             (<["out/com/example" := Dir]>
                (<["out/com" := Dir]> (<["out" := Dir]> ∅))))
          [] srv None EmptyString.

Definition out_args (mirror : bool) : args :=
  mkArgs "http://host" "maven-releases" (Some "out") None false mirror false.

Definition listing_response (v : pyobj) : reply := Response (mkResponse [] (inr v)).

Definition token1 : pyobj := PyStr "88491cd1d185dd136f143f20c4e7d50c".

(** Two pages: two assets and a token, then two assets, one of them met on
    the first page already, and [null]. *)
Definition page1 : page := mkPage token1 [asset sha1_abc; asset "00"].
Definition page2 : page := mkPage PyNone [asset "01"; asset sha1_abc].

Definition page_response (p : page) : reply :=
  listing_response
    (PyDict [("items", PyList (page_items p)); ("continuationToken", page_token p)]).

Definition two_pages : nat -> credentials -> string -> reply :=
  fun n _ _ =>
    match n with
    | O => page_response page1
    | _ => page_response page2
    end.

(** A page without the key [continuationToken]. *)
Definition no_token : nat -> credentials -> string -> reply :=
  fun _ _ _ => listing_response (PyDict [("items", PyList [asset sha1_abc])]).




End Sample.

(** ** Further servers and worlds *)

Module Scenes.

(** Two corrupted bodies, then the right one. *)
Definition third_time : nat -> list byte :=
  fun n => if (n =? 2)%nat then Sample.abc else list_byte_of_string "abd".

(** A server nobody can connect to. *)
Definition unreachable : nat -> credentials -> string -> reply :=
  fun _ _ _ => ConnectionError "Connection refused".

(** A server that answers every request with the right body. *)
Definition sound : nat -> credentials -> string -> reply :=
  Sample.serving (fun _ => Sample.abc).

(** A directory that holds a truncated copy of the asset. *)
Definition stale (srv : nat -> credentials -> string -> reply) : world :=
  mkWorld (<["out/com/example/lib-1.0.jar" := File (list_byte_of_string "ab")]>
             (<["out/com/example" := Dir]>
                (<["out/com" := Dir]> (<["out" := Dir]> ∅))))
          [] srv None EmptyString.

(** A server whose listing never ends: every page carries a token. *)
Definition endless : nat -> credentials -> string -> reply :=
  fun _ _ _ => Sample.page_response Sample.page1.

(** A first page, then the connection breaks. *)
Definition broken_after_one : nat -> credentials -> string -> reply :=
  fun n _ _ =>
    match n with
    | O => Sample.page_response Sample.page1
    | _ => ConnectionError "Connection reset by peer"
    end.

(** An output directory where a file stands in the way of a directory. *)
Definition blocked (srv : nat -> credentials -> string -> reply) : world :=
  mkWorld (<["out/com" := File Sample.abc]> (<["out" := Dir]> ∅))
          [] srv None EmptyString.

End Scenes.

(** ** Vocabulary of the invariants of a run *)

(** [f'] holds every entry of [f], as an entry of the same kind: a directory
    of [f] is one in [f'], a file of [f] is one in [f']. *)
Definition fs_grows (f f' : gmap string node) : Prop :=
  forall name,
    (f !! name = Some Dir -> f' !! name = Some Dir)
    /\ (forall data, f !! name = Some (File data) ->
                     exists data', f' !! name = Some (File data')).

(** [f'] is [f] with new directories: nothing removed, no file changed. *)
Definition fs_kept (f f' : gmap string node) : Prop :=
  fs_grows f f'
  /\ forall name data, f !! name = Some (File data) -> f' !! name = Some (File data).

(** The events that leave the file system alone. *)
Definition leaves_fs (e : event) : Prop :=
  match e with
  | Makedirs _ | OpenWrite _ => False
  | _ => True
  end.

(** What the events [new] allow between the file systems [f] and [f']: no
    change at all without a [Makedirs] or an [OpenWrite]; the content of a file
    changes only if it was opened for writing; nothing is removed. *)
Definition fs_follows (new : list event) (f f' : gmap string node) : Prop :=
  (Forall leaves_fs new -> f' = f)
  /\ (forall name data,
        f !! name = Some (File data) -> OpenWrite name ∉ new ->
        f' !! name = Some (File data))
  /\ fs_grows f f'.

(** The script went from [w] to [w'] by events that all satisfy [P]. *)
Definition advances (P : event -> Prop) (w w' : world) : Prop :=
  exists new,
    trace w' = trace w ++ new
    /\ Forall P new
    /\ fs_follows new (fs w) (fs w')
    /\ remote w' = remote w
    /\ NEXUS_PASSWORD w' = NEXUS_PASSWORD w
    /\ tty w' = tty w.

(** Whatever its outcome, [c] advances the world by events in [P]. *)
Definition keeps (P : event -> Prop) {A} (c : M A) : Prop :=
  forall w, advances P w (snd (c w)).

(** The descriptor [asset] declares the SHA-1 of [data], as a str. *)
Definition declares (asset : pyobj) (data : list byte) : Prop :=
  exists checksum,
    Py.getitem asset "checksum" = Ret checksum
    /\ Py.getitem checksum "sha1" = Ret (PyStr (hashlib.sha1_hexdigest data)).

(** The token the loop holds after the pages [ps], having started with
    [token]. *)
Definition token_after (token : pyobj) (ps : list page) : pyobj :=
  foldl (fun _ p => page_token p) token ps.

(** The asset's file is there, as a file of the size the descriptor gives
    (line 112). *)
Definition in_place (output_dir : string) (f : gmap string node) (asset : pyobj) : Prop :=
  exists path data,
    Py.getitem asset "path" = Ret (PyStr path)
    /\ os.lookup f (posixpath.join output_dir (Str.lstrip "/" path)) = Some (File data)
    /\ Py.getitem asset "fileSize" = Ret (PyInt (Z.of_nat (length data))).

(** The asset's file is there, as a file. *)
Definition has_file (output_dir : string) (f : gmap string node) (asset : pyobj) : Prop :=
  exists path data,
    Py.getitem asset "path" = Ret (PyStr path)
    /\ f !! posixpath.join output_dir (Str.lstrip "/" path) = Some (File data).

(** Lines 57-58 as a function of the arguments. *)
Definition effective_server (a : args) : string :=
  if negb (Str.contains "://" (server a)) then "http://" +:+ server a else server a.

(** The worlds differ by events that are neither requests nor changes of the
    file system. *)
Definition same_but_console (w w' : world) : Prop :=
  fs w' = fs w /\ remote w' = remote w /\ requests_of w' = requests_of w.

(** Line 55 as a function of the arguments and of the world. *)
Definition credentials_of (a : args) (w : world) : credentials :=
  if falsy (username a) then None
  else Some (default EmptyString (username a),
             if falsy (NEXUS_PASSWORD w) then tty w
             else default EmptyString (NEXUS_PASSWORD w)).

(** What [fetch_asset_listing] may do: requests with [auth], and printing. *)
Definition listing_event (auth : credentials) (e : event) : Prop :=
  match e with
  | GET auth' _ => auth' = auth
  | Stdout _ => True
  | _ => False
  end.

(** What the download of one asset to [file_path] may do. *)
Definition download_event (auth : credentials) (file_path : string) (asset : pyobj)
    (e : event) : Prop :=
  match e with
  | GET auth' url => auth' = auth /\ url = download_url asset
  | Stdout _ => True
  | Getpass => False
  | Makedirs name => name = posixpath.dirname file_path
  | OpenWrite name | OpenRead name => name = file_path
  end.

(** What a run of [main] with the arguments [a], started in [w], may do. *)
Definition main_event (a : args) (w : world) (e : event) : Prop :=
  match e with
  | GET auth _ => auth = credentials_of a w
  | Getpass => falsy (username a) = false /\ falsy (NEXUS_PASSWORD w) = true
  | OpenWrite name | OpenRead name => Str.startswith (resolve_output_dir a) name = true
  | Makedirs _ | Stdout _ => True
  end.

(** The arguments [a] with another server URL. *)
Definition with_server (server_url : string) (a : args) : args :=
  mkArgs server_url (repo a) (output_dir a) (username a) (no_verify a) (mirror a) (quiet a).

(** * Properties *)

#[local] Arguments String.append !_ _ : simpl nomatch.

(** ** SHA-1 test vectors (FIPS 180-4, appendix A) *)

Example sha1_empty :
  hashlib.sha1_hexdigest [] = "da39a3ee5e6b4b0d3255bfef95601890afd80709".
Proof. vm_compute. reflexivity. Qed.

Example sha1_abc :
  hashlib.sha1_hexdigest (list_byte_of_string "abc")
  = "a9993e364706816aba3e25717850c26c9cd0d89d".
Proof. vm_compute. reflexivity. Qed.

Example sha1_two_blocks :
  hashlib.sha1_hexdigest
    (list_byte_of_string "abcdbcdecdefdefgefghfghighijhijkijkljklmklmnlmnomnopnopq")
  = "84983e441c3bd26ebaae4aa1f95129e5e54670f1".
Proof. vm_compute. reflexivity. Qed.

(** ** Strings *)

Section StringFacts.

Implicit Types (s t p : string) (c d : ascii).

Lemma append_assoc s t p : (s +:+ t) +:+ p = s +:+ (t +:+ p).
Proof. induction s as [|c s IH]; simpl; [done | by rewrite IH]. Qed.

Lemma lstrip_not_startswith c s :
  Str.startswith (Str.of_char c) (Str.lstrip (Str.of_char c) s) = false.
Proof.
  induction s as [|d s IH]; simpl; [done |].
  rewrite orb_false_r. destruct (Ascii.eqb d c) eqn:E; [exact IH |].
  simpl. rewrite Ascii.eqb_sym, E. done.
Qed.

(** What [lstrip] removes is a run of the stripped character. *)
Lemma lstrip_decompose c s :
  exists n : nat,
    s = string_of_list_ascii (replicate n c) +:+ Str.lstrip (Str.of_char c) s.
Proof.
  induction s as [|d s [n IH]]; simpl.
  - by exists 0%nat.
  - rewrite orb_false_r. destruct (Ascii.eqb_spec d c) as [->|Hne].
    + exists (S n). simpl. by rewrite <- IH.
    + by exists 0%nat.
Qed.

(** Gluing two strings creates an occurrence of a two-character pattern
    only across the seam. *)
Lemma contains_pair_app c d s t :
  Str.contains (String c (Str.of_char d)) s = false ->
  Str.contains (String c (Str.of_char d)) t = false ->
  Str.endswith c s && Str.startswith (Str.of_char d) t = false ->
  Str.contains (String c (Str.of_char d)) (s +:+ t) = false.
Proof.
  induction s as [|a s IH]; intros Hs Ht Hseam; [exact Ht |].
  cbn [Str.contains append] in *.
  apply orb_false_elim in Hs as [Hhead Hs].
  apply orb_false_intro.
  - destruct s as [|b s]; cbn in *.
    + destruct (Ascii.eqb c a); [| done]. cbn in *.
      destruct t as [|e t]; [done |]. cbn in *.
      rewrite andb_true_r in Hseam. by rewrite Hseam.
    + exact Hhead.
  - apply IH; [exact Hs | exact Ht |].
    destruct s as [|b s]; [| exact Hseam].
    cbn in *. done.
Qed.

End StringFacts.

(** ** The world under the script's actions *)

Section WorldFacts.

Implicit Types (w : world) (e : event).

Lemma requests_of_log w e :
  requests_of (log e w) = requests_of w ++ from_option (fun u => [u]) [] (get_url e).
Proof.
  unfold requests_of, log; simpl. rewrite omap_app. simpl.
  by destruct (get_url e).
Qed.

Lemma requests_of_set_fs w f : requests_of (set_fs f w) = requests_of w.
Proof. done. Qed.

Lemma bind_lift_ret {A B} (a : A) (k : A -> M B) w : bind (lift (Ret a)) k w = k a w.
Proof. done. Qed.

End WorldFacts.

(** ** The local file of an asset (lines 110-111) *)

(** C9.  For every local root and descriptor path, the file an asset is
    downloaded to is the root joined with the path stripped of all its leading
    separators: the stripped path is what remains after a run of [/] and does
    not start with one; the join puts exactly one separator at the seam unless
    the root is empty or already ends with one; so no doubled separator arises
    that the root or the stripped path did not have; [download_assets] hands
    that name to [download_single_asset]; for the root [out] and the path
    [/com/example/lib-1.0.jar] the name is [out/com/example/lib-1.0.jar]. *)
Theorem local_file_path_join (root path : string) :
  let relative_path := Str.lstrip "/" path in
  let file_path := posixpath.join root relative_path in
  (exists n : nat,
      path = string_of_list_ascii (replicate n "/"%char) +:+ relative_path)
  /\ Str.startswith "/" relative_path = false
  /\ file_path = (if String.eqb root EmptyString || Str.endswith "/" root
                  then root +:+ relative_path
                  else root +:+ "/" +:+ relative_path)
  /\ (Str.contains "//" root = false ->
      Str.contains "//" relative_path = false ->
      Str.contains "//" file_path = false)
  /\ (forall quiet auth no_verify asset rest w,
         Py.getitem asset "path" = Ret (PyStr path) ->
         download_assets quiet auth root no_verify (asset :: rest) false w
         = (let* error := download_single_asset quiet auth file_path no_verify asset in
            if Py.truthy error then
              print ("Failed downloading '" +:+ file_path
                     +:+ "' due to the following error:") >>
              print (Py.str error) >>
              abort 4
            else download_assets quiet auth root no_verify rest false) w)
  /\ posixpath.join "out" (Str.lstrip "/" "/com/example/lib-1.0.jar")
     = "out/com/example/lib-1.0.jar".
Proof.
  intros relative_path file_path.
  assert (Hrel : Str.startswith "/" relative_path = false)
    by apply (lstrip_not_startswith "/"%char).
  assert (Hjoin : file_path = (if String.eqb root EmptyString || Str.endswith "/" root
                               then root +:+ relative_path
                               else root +:+ "/" +:+ relative_path)).
  { unfold file_path, posixpath.join. by rewrite Hrel. }
  split; [apply (lstrip_decompose "/"%char) |].
  split; [exact Hrel |].
  split; [exact Hjoin |].
  split; [| split; [| reflexivity]].
  - intros Hroot Hpath. rewrite Hjoin.
    destruct (String.eqb_spec root EmptyString) as [-> | Hne]; [exact Hpath |].
    simpl. destruct (Str.endswith "/" root) eqn:Hend.
    + apply (contains_pair_app "/" "/"); [done | done |].
      change (Str.of_char "/") with "/". by rewrite Hrel, andb_false_r.
    + apply (contains_pair_app "/" "/"); [done | | by rewrite Hend].
      change (Str.contains "//" (String "/" relative_path) = false).
      cbn [Str.contains Str.startswith]. rewrite Hpath, orb_false_r.
      destruct relative_path as [|c r]; [done |].
      cbn in Hrel |- *. by rewrite Hrel.
  - intros quiet auth no_verify asset rest w Hget.
    cbn [download_assets]. rewrite Hget. reflexivity.
Qed.

Lemma local_file_path_join_witness :
  Str.contains "//" (posixpath.join "out" (Str.lstrip "/" "///com/example/lib-1.0.jar"))
  = false.
Proof.
  apply (local_file_path_join "out" "///com/example/lib-1.0.jar"); reflexivity.
Defined.

(** ** Mirror mode (line 112) *)

(** C6.  In mirror mode an asset whose local file already exists as a regular
    file of exactly the size the descriptor gives is skipped, and skipping
    leaves the world as it was: no request, no read of the file for hashing,
    no write; the loop goes on with the next asset. *)
Theorem mirror_skips_present_asset
    (quiet : bool) (auth : credentials) (output_dir : string) (no_verify : bool)
    (asset : pyobj) (rest : list pyobj) (w : world) (path : string) (data : list byte) :
  Py.getitem asset "path" = Ret (PyStr path) ->
  os.lookup (fs w) (posixpath.join output_dir (Str.lstrip "/" path)) = Some (File data) ->
  Py.getitem asset "fileSize" = Ret (PyInt (Z.of_nat (length data))) ->
  download_assets quiet auth output_dir no_verify (asset :: rest) true w
  = download_assets quiet auth output_dir no_verify rest true w
  /\ download_assets quiet auth output_dir no_verify [asset] true w = (Ret tt, w).
Proof.
  intros Hpath Hfile Hsize.
  assert (Hstep : forall l,
    download_assets quiet auth output_dir no_verify (asset :: l) true w
    = download_assets quiet auth output_dir no_verify l true w).
  { intros l. cbn [download_assets]. rewrite Hpath.
    unfold bind at 1. cbn [lift method_lstrip].
    unfold bind at 1. cbn [lift].
    unfold bind at 1.
    unfold already_downloaded, bind, isfile, st_size, os.isfile.
    rewrite Hfile, Hsize. cbn [lift ret Py.eq_int].
    rewrite Hfile. cbn [ret]. by rewrite Z.eqb_refl. }
  split; [apply Hstep | by rewrite Hstep].
Qed.

Lemma mirror_skips_present_asset_witness :
  download_assets false None "out" false [Sample.asset Sample.sha1_abc] true
    (Sample.mirrored (Sample.serving Sample.corrupt))
  = (Ret tt, Sample.mirrored (Sample.serving Sample.corrupt)).
Proof.
  apply (mirror_skips_present_asset false None "out" false (Sample.asset Sample.sha1_abc) []
           (Sample.mirrored (Sample.serving Sample.corrupt))
           "/com/example/lib-1.0.jar" Sample.abc);
    vm_compute; reflexivity.
Defined.

(** ** The check of the output directory (lines 49-53) *)

(** C7.  With mirror mode off and the output directory (the [-o] argument, or
    the repository name without one) present, [main] exits with status 1
    having only written to stdout: no request was issued, the file system is
    unchanged, nobody was asked for a password. *)
Theorem existing_output_dir_aborts (fuel : nat) (a : args) (w : world) :
  mirror a = false ->
  os.exists_ (fs w) (resolve_output_dir a) = true ->
  exists w',
    main fuel a w = (Exc (SystemExit 1), w')
    /\ exit_status (fst (main fuel a w)) = Some 1
    /\ fs w' = fs w
    /\ requests_of w' = requests_of w
    /\ trace w' =
         trace w
         ++ (if quiet a then []
             else [Stdout ("Output directory '" +:+ resolve_output_dir a
                           +:+ "' already exists. Please delete it and then re-run the script.")])
         ++ [Stdout "Aborting script!"].
Proof.
  intros Hmirror Hexists.
  set (notice := Stdout ("Output directory '" +:+ resolve_output_dir a
                         +:+ "' already exists. Please delete it and then re-run the script.")).
  set (w' := log (Stdout "Aborting script!") (if quiet a then w else log notice w)).
  assert (Hmain : main fuel a w = (Exc (SystemExit 1), w')).
  { unfold main, bind at 1, path_exists. rewrite Hexists, Hmirror. cbn [negb andb].
    subst w'. by destruct (quiet a). }
  exists w'. rewrite Hmain. subst w'.
  destruct (quiet a); unfold requests_of; cbn -[append];
    rewrite ?omap_app; cbn -[append]; rewrite ?app_nil_r, <- ?app_assoc;
    repeat split.
Qed.

Lemma existing_output_dir_aborts_witness :
  exists w',
    main 0 (Sample.out_args false) (Sample.mirrored (Sample.serving Sample.corrupt))
    = (Exc (SystemExit 1), w')
    /\ requests_of w' = [].
Proof.
  destruct (existing_output_dir_aborts 0 (Sample.out_args false)
              (Sample.mirrored (Sample.serving Sample.corrupt)))
    as (w' & Hmain & _ & _ & Hreq & _); [reflexivity | vm_compute; reflexivity |].
  exists w'. split; [exact Hmain | exact Hreq].
Defined.

(** ** os.makedirs needs no more fuel than the length of the name *)

Section MakedirsTotal.

Implicit Types (p : string) (c : ascii).

Lemma upto_last_empty c p :
  posixpath.upto_last c p = EmptyString <-> Str.mem c p = false.
Proof.
  induction p as [|d p IH]; [done |]. cbn [posixpath.upto_last Str.mem].
  destruct (posixpath.upto_last c p) eqn:Hup.
  - rewrite (proj1 IH eq_refl), orb_false_r. by destruct (Ascii.eqb c d).
  - split; [done |]. intros [_ H]%orb_false_elim. by apply IH in H.
Qed.

Lemma length_upto_after c p :
  (String.length (posixpath.upto_last c p) + String.length (posixpath.after_last c p)
   = String.length p)%nat.
Proof.
  induction p as [|d p IH]; [done |].
  cbn [posixpath.upto_last posixpath.after_last].
  destruct (Str.mem c p) eqn:Hmem.
  - destruct (posixpath.upto_last c p) eqn:Hup.
    + apply upto_last_empty in Hup. congruence.
    + cbn [String.length] in *. lia.
  - rewrite (proj2 (upto_last_empty c p) Hmem).
    destruct (Ascii.eqb c d); cbn [String.length Str.of_char]; lia.
Qed.

Lemma length_rstrip chars p :
  (String.length (Str.rstrip chars p) <= String.length p)%nat.
Proof.
  induction p as [|d p IH]; [done |]. cbn [Str.rstrip].
  destruct (Str.rstrip chars p); [| cbn [String.length] in *; lia].
  destruct (Str.mem d chars); cbn [String.length]; lia.
Qed.

Lemma length_split_head p :
  (String.length (fst (posixpath.split p)) <= String.length p)%nat
  /\ (snd (posixpath.split p) <> EmptyString ->
      String.length (fst (posixpath.split p)) < String.length p)%nat.
Proof.
  unfold posixpath.split, posixpath.strip_head. cbn [fst snd].
  pose proof (length_upto_after "/" p) as Hsum.
  pose proof (length_rstrip "/" (posixpath.upto_last "/" p)) as Hstrip.
  assert (Htail : posixpath.after_last "/" p <> EmptyString ->
                  (0 < String.length (posixpath.after_last "/" p))%nat).
  { destruct (posixpath.after_last "/" p); [done |]. cbn; lia. }
  destruct (negb _ && negb _); split; try intros H%Htail; lia.
Qed.

Lemma makedirs_rec_total fuel : forall name f,
  (String.length name < fuel)%nat ->
  fst (os.makedirs_rec fuel name f) <> OutOfFuel.
Proof.
  induction fuel as [|fuel IH]; intros name f Hfuel; [lia |].
  cbn [os.makedirs_rec].
  assert (Hmake : forall f',
    fst (match os.mkdir f' name with
         | inr f'' => (Ret tt, f'')
         | inl e => if os.isdir f' name then (Ret tt, f')
                    else (Exc (os_error e name), f')
         end) <> OutOfFuel).
  { intros f'. destruct (os.mkdir f' name); [| done]. by destruct (os.isdir f' name). }
  destruct (posixpath.split name) as [head tail] eqn:Hsplit.
  pose proof (length_split_head name) as [Hle Hlt]. rewrite Hsplit in Hle, Hlt.
  cbn [fst snd] in Hle, Hlt.
  destruct (String.eqb_spec tail EmptyString) as [-> | Htail].
  - destruct (posixpath.split head) as [head' tail'] eqn:Hsplit'.
    pose proof (length_split_head head) as [_ Hlt']. rewrite Hsplit' in Hlt'.
    cbn [fst snd] in Hlt'.
    destruct (String.eqb_spec tail' EmptyString) as [-> | Htail'];
      [rewrite andb_false_r; apply Hmake |].
    destruct (negb (String.eqb head' EmptyString) && negb false
              && negb (os.exists_ f head')); [| apply Hmake].
    specialize (IH head' f). specialize (Hlt' Htail').
    destruct (os.makedirs_rec fuel head' f) as [[[]| e |] f'].
    + destruct (String.eqb tail' "."); [done | apply Hmake].
    + destruct e as [| | | |[[]|] msg| |]; try done;
        (destruct (String.eqb tail' "."); [done | apply Hmake]).
    + cbn in IH. destruct IH; [lia | done].
  - destruct (negb (String.eqb head EmptyString) && negb (String.eqb tail EmptyString)
              && negb (os.exists_ f head)); [| apply Hmake].
    specialize (IH head f). specialize (Hlt Htail).
    destruct (os.makedirs_rec fuel head f) as [[[]| e |] f'].
    + destruct (String.eqb tail "."); [done | apply Hmake].
    + destruct e as [| | | |[[]|] msg| |]; try done;
        (destruct (String.eqb tail "."); [done | apply Hmake]).
    + cbn in IH. destruct IH; [lia | done].
Qed.

(** [os.makedirs] returns or raises: its recursion is on a shorter name. *)
Lemma makedirs_total name w : fst (os.makedirs name w) <> OutOfFuel.
Proof.
  unfold os.makedirs.
  pose proof (makedirs_rec_total (S (String.length name)) name (fs (log (Makedirs name) w))) as H.
  destruct (os.makedirs_rec _ _ _) as [r f']. cbn in *. apply H. lia.
Qed.

End MakedirsTotal.

Lemma makedirs_world name w r w0 :
  os.makedirs name w = (r, w0) ->
  requests_of w0 = requests_of w /\ remote w0 = remote w
  /\ writes_of w0 = writes_of w.
Proof.
  unfold os.makedirs. destruct (os.makedirs_rec _ _ _) as [r' f'].
  intros [= <- <-]. unfold requests_of, writes_of. cbn. rewrite !omap_app. cbn.
  by rewrite !app_nil_r.
Qed.

(** ** One download attempt (lines 127-142) *)

Section Attempt.

Variables (quiet : bool) (auth : credentials) (file_path : string) (asset : pyobj).

Lemma write_file_ok data w :
  writable (fs w) file_path = true ->
  write_file file_path data w
  = (Ret tt, set_fs (<[file_path := File data]> (fs w)) (log (OpenWrite file_path) w)).
Proof.
  unfold writable, write_file. intros H.
  apply andb_prop in H as [H Hdir]. apply andb_prop in H as [Hne Hpar].
  cbn [log fs]. apply negb_true_iff in Hne, Hdir. rewrite Hne, Hdir.
  by destruct (os.parent (fs w) file_path).
Qed.

Lemma endswith_mem c s : Str.endswith c s = true -> Str.mem c s = true.
Proof.
  induction s as [|d s IH]; [done |]. cbn [Str.endswith Str.mem].
  destruct s as [|e s]; [intros ->; done |].
  intros H. rewrite IH by done. apply orb_true_r.
Qed.

Lemma basename_endswith p :
  posixpath.after_last "/" p <> EmptyString -> Str.endswith "/" p = false.
Proof.
  induction p as [|d p IH]; [done |]. cbn [posixpath.after_last Str.endswith].
  destruct (Str.mem "/" p) eqn:Hmem.
  - intros H. destruct p as [|e p]; [done |]. by apply IH.
  - destruct p as [|e p].
    + destruct (Ascii.eqb "/" d); done.
    + intros _. destruct (Str.endswith "/" (String e p)) eqn:Hend; [| done].
      apply endswith_mem in Hend. congruence.
Qed.

Lemma lstrip_all c s :
  Str.lstrip (Str.of_char c) s = EmptyString ->
  s = EmptyString \/ Str.endswith c s = true.
Proof.
  induction s as [|d s IH]; [by left |]. cbn [Str.lstrip Str.mem Str.of_char].
  rewrite orb_false_r. destruct (Ascii.eqb_spec d c) as [-> | Hne]; [| done].
  intros [-> | Hend]%IH; right; cbn [Str.endswith]; [apply Ascii.eqb_refl |].
  by destruct s.
Qed.

(** A name whose last component names an entry resolves as it is spelled. *)
Lemma lookup_entry f name :
  os.names_directory name = false -> os.lookup f name = f !! name.
Proof.
  unfold os.names_directory, posixpath.basename, os.lookup. intros H.
  apply orb_false_elim in H as [H _]. apply orb_false_elim in H as [H _].
  apply String.eqb_neq in H.
  pose proof (basename_endswith name H) as Hend.
  destruct (String.eqb_spec name EmptyString) as [-> | Hne]; [done |].
  destruct (String.eqb_spec (Str.lstrip "/" name) EmptyString) as [Hall | _].
  - apply (lstrip_all "/") in Hall as [-> | Hall]; [done | congruence].
  - by rewrite Hend.
Qed.

(** Writing a file over something that was no directory leaves every
    directory a directory. *)
Lemma lookup_dir_insert_file f d name data :
  os.lookup f d = Some Dir -> f !! name <> Some Dir ->
  os.lookup (<[name := File data]> f) d = Some Dir.
Proof.
  unfold os.lookup. intros Hd Hname.
  destruct (String.eqb d EmptyString); [done |].
  destruct (String.eqb (Str.lstrip "/" d) EmptyString); [done |].
  destruct (Str.endswith "/" d).
  - destruct (decide (name = Str.rstrip "/" d)) as [-> | Hne].
    + by destruct (f !! Str.rstrip "/" d) as [[]|].
    + by rewrite lookup_insert_ne.
  - destruct (decide (name = d)) as [-> | Hne]; [done |].
    by rewrite lookup_insert_ne.
Qed.

Lemma writable_entry f : writable f file_path = true -> os.names_directory file_path = false.
Proof.
  unfold writable. intros [_ H]%andb_prop.
  by apply negb_true_iff, orb_false_elim in H as [_ H].
Qed.

(** A file that could be written once can be written again. *)
Lemma writable_after_write f data :
  writable f file_path = true ->
  writable (<[file_path := File data]> f) file_path = true.
Proof.
  intros H. pose proof (writable_entry _ H) as Hentry.
  unfold writable in *.
  apply andb_prop in H as [H Hdir]. apply andb_prop in H as [Hne Hpar].
  rewrite Hne. cbn [andb].
  apply negb_true_iff, orb_false_elim in Hdir as [Hisdir Hnames].
  unfold os.isdir in *. rewrite lookup_entry in * by done.
  rewrite lookup_insert_eq, Hnames. cbn [orb negb]. rewrite andb_true_r.
  unfold os.parent in *.
  destruct (String.eqb (posixpath.dirname file_path) EmptyString); [done |].
  destruct (os.lookup f (posixpath.dirname file_path)) as [[|]|] eqn:Hd; [done | | done].
  rewrite (lookup_dir_insert_file f _ file_path data); [done | done |].
  by destruct (f !! file_path) as [[]|].
Qed.

Lemma read_file_written data f w :
  os.names_directory file_path = false ->
  read_file file_path (set_fs (<[file_path := File data]> f) w)
  = (Ret data, log (OpenRead file_path) (set_fs (<[file_path := File data]> f) w)).
Proof.
  intros Hentry. unfold read_file. cbn [log set_fs fs].
  by rewrite lookup_entry, lookup_insert_eq.
Qed.

(** An attempt whose request is answered and whose file can be written ends
    on the comparison of line 138. *)
Lemma attempt_verifying tryy w url_v r checksum expected :
  Py.getitem asset "downloadUrl" = Ret url_v ->
  Py.getitem asset "checksum" = Ret checksum ->
  Py.getitem checksum "sha1" = Ret expected ->
  remote w (length (requests_of w)) auth (Py.str url_v) = Response r ->
  writable (fs w) file_path = true ->
  attempt quiet auth file_path false asset tryy w
  = let w' := downloaded auth (Py.str url_v) file_path r w in
    if Py.eq_str expected (hashlib.sha1_hexdigest (content r))
    then (Ret (Some (PyBool false)),
          if quiet then w' else log (verified_notice file_path tryy) w')
    else (Ret None, log (failed_notice file_path tryy) w').
Proof.
  intros Hurl Hck Hsha Hremote Hw.
  unfold attempt, bind at 1, try_except_IOError.
  rewrite Hurl. unfold bind at 1. cbn [lift].
  unfold bind at 1, requests_get. rewrite Hremote.
  unfold bind at 1. rewrite write_file_ok by exact Hw.
  cbn [ret]. rewrite Hck. unfold bind at 1. cbn [lift]. rewrite Hsha.
  unfold bind at 1. cbn [lift].
  unfold bind at 1, sha1, bind at 1.
  rewrite read_file_written by (eapply writable_entry; exact Hw).
  cbn [ret]. unfold downloaded.
  destruct (Py.eq_str expected (hashlib.sha1_hexdigest (content r))); [| done].
  by destruct quiet.
Qed.

End Attempt.

(** ** The retry loop (lines 126-145) *)

Section RetryLoop.

Variables (quiet : bool) (auth : credentials) (file_path : string) (asset : pyobj).
Variables (url_v checksum expected : pyobj).
Hypothesis Hurl : Py.getitem asset "downloadUrl" = Ret url_v.
Hypothesis Hchecksum : Py.getitem asset "checksum" = Ret checksum.
Hypothesis Hsha1 : Py.getitem checksum "sha1" = Ret expected.

Let url := Py.str url_v.

Lemma requests_of_downloaded r w :
  requests_of (downloaded auth url file_path r w) = requests_of w ++ [url].
Proof.
  unfold downloaded. rewrite requests_of_log, requests_of_set_fs, !requests_of_log.
  cbn. by rewrite !app_nil_r.
Qed.

Lemma requests_of_failed tryy r w :
  requests_of (log (failed_notice file_path tryy) (downloaded auth url file_path r w))
  = requests_of w ++ [url].
Proof. rewrite requests_of_log, requests_of_downloaded. cbn. by rewrite app_nil_r. Qed.

Lemma writes_of_failed tryy r w :
  writes_of (log (failed_notice file_path tryy) (downloaded auth url file_path r w))
  = writes_of w ++ [file_path].
Proof.
  unfold writes_of, downloaded, log, set_fs; cbn.
  rewrite !omap_app; cbn. by rewrite !app_nil_r.
Qed.

Lemma after_mismatches_requests body tries : forall i w,
  requests_of (after_mismatches auth url file_path body i tries w)
  = requests_of w ++ replicate (length tries) url.
Proof.
  induction tries as [|t tries IH]; intros i w; cbn [after_mismatches length replicate].
  - by rewrite app_nil_r.
  - rewrite IH, requests_of_failed, <- app_assoc. done.
Qed.

Lemma after_mismatches_remote body tries : forall i w,
  remote (after_mismatches auth url file_path body i tries w) = remote w.
Proof.
  induction tries as [|t tries IH]; intros i w; cbn [after_mismatches]; [done |].
  by rewrite IH.
Qed.

Lemma after_mismatches_writable body tries : forall i w,
  writable (fs w) file_path = true ->
  writable (fs (after_mismatches auth url file_path body i tries w)) file_path = true.
Proof.
  induction tries as [|t tries IH]; intros i w Hw; cbn [after_mismatches]; [done |].
  apply IH. cbn. by apply writable_after_write.
Qed.

(** Turns that all mismatch are passed one after the other. *)
Lemma try_loop_mismatches body tries1 tries2 : forall i w,
  (forall j, (j < length tries1)%nat ->
     remote w (length (requests_of w) + j) auth url = Response (body (i + j)%nat)) ->
  (forall j, (j < length tries1)%nat ->
     Py.eq_str expected (hashlib.sha1_hexdigest (content (body (i + j)%nat))) = false) ->
  writable (fs w) file_path = true ->
  try_loop quiet auth file_path false asset (tries1 ++ tries2) w
  = try_loop quiet auth file_path false asset tries2
      (after_mismatches auth url file_path body i tries1 w).
Proof using Hurl Hchecksum Hsha1.
  induction tries1 as [|t tries1 IH]; intros i w Hremote Hmis Hw; [done |].
  cbn [app try_loop after_mismatches]. unfold bind at 1.
  rewrite (attempt_verifying quiet auth file_path asset t w url_v (body i) checksum expected);
    [| done | done | done | | done].
  2:{ specialize (Hremote 0%nat). rewrite !Nat.add_0_r in Hremote.
      apply Hremote. cbn. lia. }
  cbn zeta. specialize (Hmis 0%nat) as Hmis0. rewrite Nat.add_0_r in Hmis0.
  rewrite Hmis0 by (cbn; lia).
  apply IH.
  - intros j Hj. rewrite requests_of_failed, length_app. cbn [length].
    replace (length (requests_of w) + 1 + j)%nat with (length (requests_of w) + S j)%nat by lia.
    replace (S i + j)%nat with (i + S j)%nat by lia.
    apply (Hremote (S j)). cbn. lia.
  - intros j Hj. replace (S i + j)%nat with (i + S j)%nat by lia.
    apply Hmis. cbn. lia.
  - cbn. by apply writable_after_write.
Qed.

End RetryLoop.

Lemma range_1_11 : Py.range 1 11 = [1; 2; 3; 4; 5; 6; 7; 8; 9; 10].
Proof. reflexivity. Qed.

(** C1.  The retry loop makes at most ten attempts.  For an asset whose
    directory can be made and whose file can be written, and a server that
    answers the ten requests: when the bodies of attempts 1 to 9 do not hash
    to the descriptor's SHA-1 and the body of attempt 10 does,
    [download_single_asset] returns [False] (success) after exactly ten GETs,
    reporting try 10; when none of the ten bodies does, it returns the error
    [Repeated SHA-1 verification failure] after exactly ten GETs. *)
Theorem retry_loop_bounded_by_ten
    (quiet : bool) (auth : credentials) (file_path : string) (asset : pyobj)
    (url_v checksum expected : pyobj) (body : nat -> response) (w w0 : world) :
  Py.getitem asset "downloadUrl" = Ret url_v ->
  Py.getitem asset "checksum" = Ret checksum ->
  Py.getitem checksum "sha1" = Ret expected ->
  os.makedirs (posixpath.dirname file_path) w = (Ret tt, w0) ->
  writable (fs w0) file_path = true ->
  (forall i, (i < 10)%nat ->
     remote w (length (requests_of w) + i) auth (Py.str url_v) = Response (body i)) ->
  let verifies i := Py.eq_str expected (hashlib.sha1_hexdigest (content (body i))) in
  ((forall i, (i < 9)%nat -> verifies i = false) -> verifies 9%nat = true ->
   exists w',
     download_single_asset quiet auth file_path false asset w = (Ret (PyBool false), w')
     /\ requests_of w' = requests_of w ++ replicate 10 (Py.str url_v)
     /\ (quiet = false -> last (trace w') = Some (verified_notice file_path 10))
     /\ fs w' !! file_path = Some (File (content (body 9%nat))))
  /\ ((forall i, (i < 10)%nat -> verifies i = false) ->
      exists w',
        download_single_asset quiet auth file_path false asset w
        = (Ret (PyStr "Repeated SHA-1 verification failure"), w')
        /\ requests_of w' = requests_of w ++ replicate 10 (Py.str url_v)).
Proof.
  intros Hurl Hck Hsha Hmk Hw Hremote verifies.
  destruct (makedirs_world _ _ _ _ Hmk) as (Hreq0 & Hrem0 & _).
  assert (Hremote0 : forall i, (i < 10)%nat ->
            remote w0 (length (requests_of w0) + i) auth (Py.str url_v) = Response (body i)).
  { intros i Hi. rewrite Hrem0, Hreq0. by apply Hremote. }
  split.
  - intros Hmis Hmatch.
    set (w9 := after_mismatches auth (Py.str url_v) file_path body 0
                 [1; 2; 3; 4; 5; 6; 7; 8; 9] w0).
    assert (Hloop : download_single_asset quiet auth file_path false asset w
                    = try_loop quiet auth file_path false asset [10] w9).
    { unfold download_single_asset, bind at 1. rewrite Hmk, range_1_11.
      change [1; 2; 3; 4; 5; 6; 7; 8; 9; 10] with ([1; 2; 3; 4; 5; 6; 7; 8; 9] ++ [10]).
      apply (try_loop_mismatches quiet auth file_path asset url_v checksum expected
               Hurl Hck Hsha body).
      - intros j Hj. apply Hremote0. cbn in Hj. lia.
      - intros j Hj. apply Hmis. cbn in Hj. lia.
      - exact Hw. }
    assert (Hreq9 : requests_of w9 = requests_of w ++ replicate 9 (Py.str url_v)).
    { subst w9. by rewrite after_mismatches_requests, Hreq0. }
    rewrite Hloop. cbn [try_loop]. unfold bind at 1.
    rewrite (attempt_verifying quiet auth file_path asset 10 w9 url_v (body 9%nat)
               checksum expected); [| done | done | done | | ].
    + fold (verifies 9%nat). rewrite Hmatch. cbn zeta.
      eexists; split; [reflexivity |].
      split; [| split].
      * destruct quiet; rewrite ?requests_of_log, requests_of_downloaded, Hreq9;
          cbn; rewrite ?app_nil_r, <- ?app_assoc; done.
      * intros ->. cbn. by rewrite last_snoc.
      * destruct quiet; cbn; by rewrite lookup_insert_eq.
    + subst w9. rewrite after_mismatches_remote, after_mismatches_requests.
      rewrite length_app, length_replicate. cbn [length].
      apply Hremote0. lia.
    + subst w9. by apply after_mismatches_writable.
  - intros Hmis.
    eexists; split.
    + unfold download_single_asset, bind at 1. rewrite Hmk, range_1_11.
      rewrite <- (app_nil_r [1; 2; 3; 4; 5; 6; 7; 8; 9; 10]).
      rewrite (try_loop_mismatches quiet auth file_path asset url_v checksum expected
                 Hurl Hck Hsha body _ [] 0%nat w0).
      * reflexivity.
      * intros j Hj. apply Hremote0. cbn in Hj. lia.
      * intros j Hj. apply Hmis. cbn in Hj. lia.
      * exact Hw.
    + by rewrite after_mismatches_requests, Hreq0.
Qed.

Lemma retry_loop_bounded_by_ten_witness :
  (exists w',
      download_single_asset true None "out/com/example/lib-1.0.jar" false
        (Sample.asset Sample.sha1_abc) (Sample.fresh (Sample.serving Sample.flaky))
      = (Ret (PyBool false), w')
      /\ requests_of w' = replicate 10 Sample.jar_url)
  /\ (exists w',
         download_single_asset true None "out/com/example/lib-1.0.jar" false
           (Sample.asset Sample.sha1_abc) (Sample.fresh (Sample.serving Sample.corrupt))
         = (Ret (PyStr "Repeated SHA-1 verification failure"), w')
         /\ requests_of w' = replicate 10 Sample.jar_url).
Proof.
  split.
  - destruct (retry_loop_bounded_by_ten true None "out/com/example/lib-1.0.jar"
                (Sample.asset Sample.sha1_abc) (PyStr Sample.jar_url)
                (PyDict [("sha1", PyStr Sample.sha1_abc)]) (PyStr Sample.sha1_abc)
                (fun i => mkResponse (Sample.flaky i) (inl JSONDecodeError))
                (Sample.fresh (Sample.serving Sample.flaky))
                (snd (os.makedirs "out/com/example"
                        (Sample.fresh (Sample.serving Sample.flaky)))))
      as [Hflaky _]; try (vm_compute; reflexivity).
    destruct Hflaky as (w' & Hrun & Hreq & _).
    + intros i Hi. do 9 (destruct i as [|i]; [vm_compute; reflexivity |]). lia.
    + vm_compute; reflexivity.
    + exists w'. split; [exact Hrun | exact Hreq].
  - destruct (retry_loop_bounded_by_ten true None "out/com/example/lib-1.0.jar"
                (Sample.asset Sample.sha1_abc) (PyStr Sample.jar_url)
                (PyDict [("sha1", PyStr Sample.sha1_abc)]) (PyStr Sample.sha1_abc)
                (fun i => mkResponse (Sample.corrupt i) (inl JSONDecodeError))
                (Sample.fresh (Sample.serving Sample.corrupt))
                (snd (os.makedirs "out/com/example"
                        (Sample.fresh (Sample.serving Sample.corrupt)))))
      as [_ Hcorrupt]; try (vm_compute; reflexivity).
    destruct Hcorrupt as (w' & Hrun & Hreq).
    + intros i Hi. vm_compute; reflexivity.
    + exists w'. split; [exact Hrun | exact Hreq].
Defined.

(** ** What the outcome of the retry loop tells about the run *)

Section RetryLoopInversion.

Variables (quiet : bool) (auth : credentials) (file_path : string)
          (no_verify : bool) (asset : pyobj).

Lemma write_file_cases data w :
  (writable (fs w) file_path = true
   /\ write_file file_path data w
      = (Ret tt, set_fs (<[file_path := File data]> (fs w)) (log (OpenWrite file_path) w)))
  \/ (exists c, write_file file_path data w
                = (Exc (os_error c file_path), log (OpenWrite file_path) w)).
Proof.
  destruct (writable (fs w) file_path) eqn:Hw.
  - left. split; [done |]. by apply write_file_ok.
  - right. unfold write_file, writable in *. cbn [log fs].
    destruct (String.eqb file_path EmptyString); [by eexists |].
    destruct (os.parent (fs w) file_path); [by eexists |].
    cbn in Hw. apply negb_false_iff in Hw. rewrite Hw. by eexists.
Qed.

Lemma getitem_returns_or_raises v k : Py.getitem v k <> OutOfFuel.
Proof. destruct v as [| | | | |m]; try done. cbn. by destruct (Py.dict_get m k). Qed.

(** The three ways a turn of the loop can end. *)
Lemma attempt_outcome tryy w o w' :
  attempt quiet auth file_path no_verify asset tryy w = (o, w') ->
  match o with
  | Ret None =>
      exists url_v r,
        Py.getitem asset "downloadUrl" = Ret url_v
        /\ remote w (length (requests_of w)) auth (Py.str url_v) = Response r
        /\ w' = log (failed_notice file_path tryy)
                  (downloaded auth (Py.str url_v) file_path r w)
  | Ret (Some v) => v = PyBool false \/ exists e, v = PyStr ("IO error: " +:+ e)
  | Exc _ => True
  | OutOfFuel => False
  end.
Proof.
  unfold attempt, bind at 1, try_except_IOError.
  destruct (Py.getitem asset "downloadUrl") as [url_v | e |] eqn:Hurl.
  2:{ unfold bind at 1. cbn [lift].
      destruct e; intros [= <- <-]; try done. right. by eexists. }
  2:{ by apply getitem_returns_or_raises in Hurl. }
  unfold bind at 1. cbn [lift]. unfold bind at 1, requests_get.
  destruct (remote w (length (requests_of w)) auth (Py.str url_v)) as [msg | r] eqn:Hremote.
  { cbn [ret]. intros [= <- <-]. right. by eexists. }
  unfold bind at 1.
  destruct (write_file_cases (content r) (log (GET auth (Py.str url_v)) w))
    as [[Hw Hwrite] | [c Hwrite]]; rewrite Hwrite.
  2:{ cbn [os_error ret]. intros [= <- <-]. right. by eexists. }
  cbn [ret]. destruct no_verify.
  { unfold bind at 1. destruct quiet; cbn; intros [= <- <-]; by left. }
  destruct (Py.getitem asset "checksum") as [checksum | e |] eqn:Hck;
    unfold bind at 1; cbn [lift];
    [| by intros [= <- <-] | by apply getitem_returns_or_raises in Hck].
  destruct (Py.getitem checksum "sha1") as [expected | e |] eqn:Hsha;
    unfold bind at 1; cbn [lift];
    [| by intros [= <- <-] | by apply getitem_returns_or_raises in Hsha].
  unfold bind at 1, sha1, bind at 1.
  rewrite read_file_written by (eapply writable_entry; exact Hw).
  cbn [ret].
  destruct (Py.eq_str expected (hashlib.sha1_hexdigest (content r))).
  - unfold bind at 1. destruct quiet; cbn; intros [= <- <-]; by left.
  - unfold bind at 1. cbn. intros [= <- <-]. by exists url_v, r.
Qed.

(** The loop returns [exhausted] only after every turn went through a full
    download. *)
Lemma try_loop_exhausted tries : forall w w',
  try_loop quiet auth file_path no_verify asset tries w = (Ret exhausted, w') ->
  requests_of w' = requests_of w ++ replicate (length tries) (download_url asset)
  /\ writes_of w' = writes_of w ++ replicate (length tries) file_path
  /\ remote w' = remote w
  /\ (tries <> [] ->
      exists url_v r,
        Py.getitem asset "downloadUrl" = Ret url_v
        /\ remote w (length (requests_of w) + length tries - 1) auth (Py.str url_v)
           = Response r
        /\ fs w' !! file_path = Some (File (content r))).
Proof.
  induction tries as [|t tries IH]; intros w w'; cbn [try_loop length replicate].
  - intros [= <-]. by rewrite !app_nil_r.
  - unfold bind at 1.
    destruct (attempt quiet auth file_path no_verify asset t w) as [o w1] eqn:Hatt.
    apply attempt_outcome in Hatt.
    destruct o as [[v|] | e |]; [| | done..].
    + intros [= -> <-]. by destruct Hatt as [? | [e ?]].
    + destruct Hatt as (url_v & r & Hurl & Hremote & ->).
      intros Hrest. destruct (IH _ _ Hrest) as (Hreq & Hwr & Hrem & Hlast).
      assert (Hdl : download_url asset = Py.str url_v)
        by (unfold download_url; by rewrite Hurl).
      rewrite requests_of_failed in Hreq. rewrite writes_of_failed in Hwr.
      split; [by rewrite Hreq, Hdl, <- app_assoc |].
      split; [by rewrite Hwr, <- app_assoc |].
      split; [exact Hrem |].
      intros _. exists url_v.
      destruct tries as [|t' tries].
      * exists r. cbn in Hrest |- *.
        replace (length (requests_of w) + 1 - 1)%nat with (length (requests_of w)) by lia.
        split; [done |]. split; [done |].
        injection Hrest as <-. cbn. by rewrite lookup_insert_eq.
      * destruct Hlast as (url_v' & r' & Hurl' & Hremote' & Hfile); [done |].
        rewrite Hurl in Hurl'. injection Hurl' as <-.
        exists r'. split; [done |]. split; [| done].
        rewrite requests_of_failed, length_app in Hremote'. cbn [length] in Hremote' |- *.
        rewrite <- Hremote'. f_equal. lia.
Qed.

(** The loop is bounded by its list of turns: it needs no fuel. *)
Lemma try_loop_total tries : forall w,
  fst (try_loop quiet auth file_path no_verify asset tries w) <> OutOfFuel.
Proof.
  induction tries as [|t tries IH]; intros w; cbn [try_loop]; [done |].
  unfold bind at 1.
  destruct (attempt quiet auth file_path no_verify asset t w) as [o w1] eqn:Hatt.
  apply attempt_outcome in Hatt.
  destruct o as [[v|] | e |]; [done | apply IH | done | done].
Qed.

End RetryLoopInversion.

(** [download_single_asset] returns or raises: nothing in it waits for fuel. *)
Lemma download_single_asset_total quiet auth file_path no_verify asset w :
  fst (download_single_asset quiet auth file_path no_verify asset w) <> OutOfFuel.
Proof.
  unfold download_single_asset, bind at 1.
  pose proof (makedirs_total (posixpath.dirname file_path) w) as Hmk.
  destruct (os.makedirs (posixpath.dirname file_path) w) as [[[]| e |] w0];
    [apply try_loop_total | done | done].
Qed.

(** C10.  Failure leaves the last download in place.  Whenever
    [download_single_asset] returns [Repeated SHA-1 verification failure], it
    has sent ten GETs and opened the file for writing ten times, each time
    replacing its content, and the file then holds exactly the body of the
    tenth response: nothing removes or restores it. *)
Theorem exhausted_retries_keep_last_body
    (quiet : bool) (auth : credentials) (file_path : string) (no_verify : bool)
    (asset : pyobj) (w w' : world) :
  download_single_asset quiet auth file_path no_verify asset w
  = (Ret (PyStr "Repeated SHA-1 verification failure"), w') ->
  exists url_v r,
    Py.getitem asset "downloadUrl" = Ret url_v
    /\ requests_of w' = requests_of w ++ replicate 10 (Py.str url_v)
    /\ writes_of w' = writes_of w ++ replicate 10 file_path
    /\ remote w (length (requests_of w) + 9) auth (Py.str url_v) = Response r
    /\ fs w' !! file_path = Some (File (content r)).
Proof.
  unfold download_single_asset, bind at 1.
  destruct (os.makedirs (posixpath.dirname file_path) w) as [[[]| e |] w0] eqn:Hmk;
    [| done..].
  destruct (makedirs_world _ _ _ _ Hmk) as (Hreq0 & Hrem0 & Hwr0).
  rewrite range_1_11. intros Hloop.
  apply try_loop_exhausted in Hloop as (Hreq & Hwr & _ & Hlast).
  destruct Hlast as (url_v & r & Hurl & Hremote & Hfile); [done |].
  exists url_v, r. split; [exact Hurl |].
  unfold download_url in Hreq. rewrite Hurl in Hreq.
  rewrite Hreq0 in Hreq. rewrite Hwr0 in Hwr. rewrite Hrem0, Hreq0 in Hremote.
  change (length [1; 2; 3; 4; 5; 6; 7; 8; 9; 10]) with 10%nat in *.
  replace (length (requests_of w) + 10 - 1)%nat
    with (length (requests_of w) + 9)%nat in Hremote by lia.
  done.
Qed.

Lemma exhausted_retries_keep_last_body_witness :
  exists w',
    fs w' !! "out/com/example/lib-1.0.jar" = Some (File (list_byte_of_string "abd"))
    /\ length (requests_of w') = 10%nat.
Proof.
  pose (w := Sample.fresh (Sample.serving Sample.corrupt)).
  pose (run := download_single_asset true None "out/com/example/lib-1.0.jar" false
                 (Sample.asset Sample.sha1_abc) w).
  destruct (exhausted_retries_keep_last_body true None "out/com/example/lib-1.0.jar" false
              (Sample.asset Sample.sha1_abc) w (snd run))
    as (url_v & r & Hurl & Hreq & _ & Hremote & Hfile); [vm_compute; reflexivity |].
  exists (snd run). injection Hremote as <-. split; [exact Hfile |].
  rewrite Hreq. reflexivity.
Defined.

(** ** The comparison of line 138 *)

Section HexDigest.

Lemma lower_app s t : Str.lower (s +:+ t) = Str.lower s +:+ Str.lower t.
Proof. induction s as [|c s IH]; simpl; [done | by rewrite IH]. Qed.

Lemma lower_hexdigit x : Str.lower_char (Str.hexdigit x) = Str.hexdigit x.
Proof.
  unfold Str.hexdigit. destruct (x mod 16) as [|p|p]; [done | | done].
  do 4 (destruct p as [p|p|]; try done).
Qed.

Lemma lower_hex n : forall x, Str.lower (hashlib.hex n x) = hashlib.hex n x.
Proof.
  induction n as [|n IH]; intros x; cbn [hashlib.hex]; [done |].
  rewrite lower_app, IH. cbn. by rewrite lower_hexdigit.
Qed.

(** [hexdigest()] has no uppercase letter. *)
Lemma sha1_hexdigest_lower data :
  Str.lower (hashlib.sha1_hexdigest data) = hashlib.sha1_hexdigest data.
Proof.
  unfold hashlib.sha1_hexdigest.
  destruct (hashlib.digest data) as [[[[h0 h1] h2] h3] h4].
  by rewrite !lower_app, !lower_hex.
Qed.

End HexDigest.

(** C2, as the code has it.  The checksum of the descriptor and the computed
    hex digest are compared with [==], character for character: an attempt
    whose body is in place verifies exactly when the descriptor's checksum is
    the str that [hexdigest()] returns; [hexdigest()] is in lowercase, so a
    checksum with an uppercase letter is never accepted, whatever it
    lowercases to, and the attempt fails verification. *)
Theorem sha1_comparison_is_exact
    (quiet : bool) (auth : credentials) (file_path : string) (asset : pyobj)
    (tryy : Z) (w : world) (url_v checksum expected : pyobj) (r : response) :
  Py.getitem asset "downloadUrl" = Ret url_v ->
  Py.getitem asset "checksum" = Ret checksum ->
  Py.getitem checksum "sha1" = Ret expected ->
  remote w (length (requests_of w)) auth (Py.str url_v) = Response r ->
  writable (fs w) file_path = true ->
  let digest := hashlib.sha1_hexdigest (content r) in
  (fst (attempt quiet auth file_path false asset tryy w) = Ret (Some (PyBool false))
   <-> expected = PyStr digest)
  /\ Str.lower digest = digest
  /\ (forall s, expected = PyStr s -> Str.lower s <> s ->
      fst (attempt quiet auth file_path false asset tryy w) = Ret None).
Proof.
  intros Hurl Hck Hsha Hremote Hw digest.
  rewrite (attempt_verifying quiet auth file_path asset tryy w url_v r checksum expected)
    by done.
  cbn zeta. fold digest.
  split; [| split].
  - destruct expected as [| | |s| |]; cbn; try (split; [done | done]).
    destruct (String.eqb_spec s digest) as [-> | Hne]; cbn; [done |].
    split; [done | congruence].
  - apply sha1_hexdigest_lower.
  - intros s -> Hcase. cbn.
    destruct (String.eqb_spec s digest) as [-> | Hne]; [| done].
    destruct Hcase. apply sha1_hexdigest_lower.
Qed.

Lemma sha1_comparison_is_exact_witness :
  fst (attempt true None "lib-1.0.jar" false
         (Sample.asset "A9993E364706816ABA3E25717850C26C9CD0D89D") 1
         (Sample.fresh (Sample.serving (fun _ => Sample.abc))))
  = Ret None.
Proof.
  destruct (sha1_comparison_is_exact true None "lib-1.0.jar"
              (Sample.asset "A9993E364706816ABA3E25717850C26C9CD0D89D") 1
              (Sample.fresh (Sample.serving (fun _ => Sample.abc)))
              (PyStr Sample.jar_url)
              (PyDict [("sha1", PyStr "A9993E364706816ABA3E25717850C26C9CD0D89D")])
              (PyStr "A9993E364706816ABA3E25717850C26C9CD0D89D")
              (mkResponse Sample.abc (inl JSONDecodeError))
              eq_refl eq_refl eq_refl eq_refl eq_refl)
    as (_ & _ & Hupper).
  apply (Hupper "A9993E364706816ABA3E25717850C26C9CD0D89D" eq_refl).
  vm_compute. discriminate.
Defined.

(** C2 fails as stated: the descriptor's checksum below is the digest of the
    served bytes written in uppercase, it lowercases to the computed digest,
    and all ten attempts are rejected. *)
Lemma uppercase_checksum_is_rejected :
  Str.lower "A9993E364706816ABA3E25717850C26C9CD0D89D"
  = hashlib.sha1_hexdigest Sample.abc
  /\ fst (download_single_asset true None "out/com/example/lib-1.0.jar" false
            (Sample.asset "A9993E364706816ABA3E25717850C26C9CD0D89D")
            (Sample.fresh (Sample.serving (fun _ => Sample.abc))))
     = Ret (PyStr "Repeated SHA-1 verification failure")
  /\ fst (download_single_asset true None "out/com/example/lib-1.0.jar" false
            (Sample.asset "a9993e364706816aba3e25717850c26c9cd0d89d")
            (Sample.fresh (Sample.serving (fun _ => Sample.abc))))
     = Ret (PyBool false).
Proof. vm_compute. done. Qed.

(** ** The listing loop (lines 81-102) *)

Section Listing.

Variables (auth : credentials) (server_url repo_name asset_api_url : string).

Lemma requests_of_after_requests urls : forall w,
  requests_of (after_requests auth urls w) = requests_of w ++ urls.
Proof.
  induction urls as [|u urls IH]; intros w; cbn.
  - by rewrite app_nil_r.
  - unfold after_requests in IH. rewrite IH, requests_of_log. cbn.
    by rewrite <- app_assoc.
Qed.

(** A response that decodes: the loop reads the two keys. *)
Lemma fetch_loop_decoded fuel token listing w r resp :
  Py.truthy token = true ->
  remote w (length (requests_of w)) auth (query_url asset_api_url token) = Response r ->
  json r = inr resp ->
  fetch_loop (S fuel) auth server_url repo_name asset_api_url token listing w
  = (let* continuation_token := lift (Py.getitem resp "continuationToken") in
     let* items := lift (Py.getitem resp "items") in
     let* more := lift (Py.iterate items) in
     fetch_loop fuel auth server_url repo_name asset_api_url
       continuation_token (listing ++ more))
      (log (GET auth (query_url asset_api_url token)) w).
Proof.
  intros Htok Hremote Hjson. cbn [fetch_loop]. rewrite Htok. cbn [negb].
  unfold bind at 1, try_except_JSONDecodeError, try_except_IOError, bind at 1,
    requests_get, response_json.
  rewrite Hremote, Hjson. reflexivity.
Qed.

(** One page served: the loop takes its items and its token. *)
Lemma fetch_loop_page fuel token listing w p :
  Py.truthy token = true ->
  serves (remote w) (length (requests_of w)) auth (query_url asset_api_url token) p ->
  fetch_loop (S fuel) auth server_url repo_name asset_api_url token listing w
  = fetch_loop fuel auth server_url repo_name asset_api_url (page_token p)
      (listing ++ page_items p) (log (GET auth (query_url asset_api_url token)) w).
Proof.
  intros Htok (r & resp & Hremote & Hjson & Htoken & Hitems).
  rewrite (fetch_loop_decoded fuel token listing w r resp) by done.
  by rewrite Htoken, Hitems.
Qed.

(** A token that is false ends the loop, with any fuel. *)
Lemma fetch_loop_done fuel token listing w :
  Py.truthy token = false ->
  fetch_loop fuel auth server_url repo_name asset_api_url token listing w
  = (Ret listing, w).
Proof. intros Htok. destruct fuel; cbn [fetch_loop]; by rewrite Htok. Qed.

(** The loop walks the pages the server returns and stops after the first
    one whose token is false. *)
Lemma fetch_loop_pages ps : forall fuel token listing w,
  only_last_ends ps = true ->
  Py.truthy token = true ->
  listing_served (remote w) auth asset_api_url (length (requests_of w)) token ps ->
  (length ps <= fuel)%nat ->
  fetch_loop fuel auth server_url repo_name asset_api_url token listing w
  = (Ret (listing ++ concat (page_items <$> ps)),
     after_requests auth (listing_urls asset_api_url token ps) w).
Proof.
  induction ps as [|p ps IH]; intros fuel token listing w Hends Htok Hserved Hfuel;
    [done |].
  destruct fuel as [|fuel]; [cbn in Hfuel; lia |].
  destruct Hserved as [Hp Hserved].
  rewrite (fetch_loop_page fuel token listing w p) by done.
  cbn [fmap list_fmap concat listing_urls after_requests foldl].
  destruct ps as [|p' ps].
  - cbn in Hends. apply negb_true_iff in Hends.
    rewrite fetch_loop_done by done. cbn. by rewrite app_nil_r.
  - cbn [only_last_ends] in Hends. apply andb_prop in Hends as [Hp_tok Hends].
    rewrite (IH fuel (page_token p) (listing ++ page_items p)); [| done | done | | ].
    + by rewrite <- app_assoc.
    + rewrite requests_of_log, length_app. cbn [get_url from_option length].
      replace (length (requests_of w) + 1)%nat with (S (length (requests_of w))) by lia.
      exact Hserved.
    + cbn [length] in *. lia.
Qed.

End Listing.

(** The whole of [fetch_asset_listing] on a listing the server returns page
    after page. *)
Lemma fetch_asset_listing_pages fuel quiet auth server_url repo_name asset_api_url ps w :
  urllib.urljoin server_url ("service/rest/v1/assets?repository=" +:+ repo_name)
  = Ret asset_api_url ->
  only_last_ends ps = true ->
  listing_served (remote w) auth asset_api_url (length (requests_of w)) (PyInt (-1)) ps ->
  (length ps <= fuel)%nat ->
  fetch_asset_listing fuel quiet auth server_url repo_name w
  = (Ret (concat (page_items <$> ps)),
     after_requests auth (listing_urls asset_api_url (PyInt (-1)) ps) w).
Proof.
  intros Hjoin Hends Hserved Hfuel.
  unfold fetch_asset_listing. rewrite Hjoin, bind_lift_ret.
  by rewrite (fetch_loop_pages auth server_url repo_name asset_api_url ps).
Qed.

(** C3.  Pagination is lossless and keeps the order.  When the server returns
    the pages [ps] to the successive listing requests, every page but the last
    with a true token and the last with a false one, [fetch_asset_listing]
    returns the concatenation of the pages' items, page after page, each item
    once and no item merged with an equal one; it sends one request per page
    and does nothing else. *)
Theorem pagination_is_lossless
    (fuel : nat) (quiet : bool) (auth : credentials) (server_url repo_name : string)
    (asset_api_url : string) (ps : list page) (w : world) :
  urllib.urljoin server_url ("service/rest/v1/assets?repository=" +:+ repo_name)
  = Ret asset_api_url ->
  only_last_ends ps = true ->
  listing_served (remote w) auth asset_api_url (length (requests_of w)) (PyInt (-1)) ps ->
  (length ps <= fuel)%nat ->
  fetch_asset_listing fuel quiet auth server_url repo_name w
  = (Ret (concat (page_items <$> ps)),
     after_requests auth (listing_urls asset_api_url (PyInt (-1)) ps) w)
  /\ length (listing_urls asset_api_url (PyInt (-1)) ps) = length ps.
Proof.
  intros Hjoin Hends Hserved Hfuel. split.
  - by apply fetch_asset_listing_pages.
  - clear. generalize (PyInt (-1)).
    induction ps as [|p ps IH]; intros token; cbn; [done |]. by rewrite IH.
Qed.

Lemma pagination_is_lossless_witness :
  fst (fetch_asset_listing 2 false None "http://host" "maven-releases"
         (Sample.fresh Sample.two_pages))
  = Ret [Sample.asset Sample.sha1_abc; Sample.asset "00";
         Sample.asset "01"; Sample.asset Sample.sha1_abc].
Proof.
  destruct (pagination_is_lossless 2 false None "http://host" "maven-releases"
              "http://host/service/rest/v1/assets?repository=maven-releases"
              [Sample.page1; Sample.page2]
              (Sample.fresh Sample.two_pages)) as [Hrun _].
  - vm_compute; reflexivity.
  - reflexivity.
  - split; [| split; [| exact I]]; eexists _, _; repeat split; reflexivity.
  - cbn; lia.
  - rewrite Hrun. reflexivity.
Defined.

(** C4, as the code has it.  A listing response whose [continuationToken] is
    [null] ends the pagination: its items are appended once and no further
    request is sent.  A response without the key does not end it that way:
    [resp["continuationToken"]] raises [KeyError] before the items are read,
    and no listing is returned. *)
Theorem null_token_ends_pagination
    (fuel : nat) (auth : credentials) (server_url repo_name asset_api_url : string)
    (token : pyobj) (listing : list pyobj) (w : world) (r : response)
    (members : list (string * pyobj)) (items : list pyobj) :
  Py.truthy token = true ->
  remote w (length (requests_of w)) auth (query_url asset_api_url token) = Response r ->
  json r = inr (PyDict members) ->
  Py.dict_get members "items" = Some (PyList items) ->
  (Py.dict_get members "continuationToken" = Some PyNone ->
   fetch_loop (S fuel) auth server_url repo_name asset_api_url token listing w
   = (Ret (listing ++ items), log (GET auth (query_url asset_api_url token)) w))
  /\ (Py.dict_get members "continuationToken" = None ->
      fetch_loop (S fuel) auth server_url repo_name asset_api_url token listing w
      = (Exc (KeyError "continuationToken"),
         log (GET auth (query_url asset_api_url token)) w)).
Proof.
  intros Htok Hremote Hjson Hitems.
  rewrite (fetch_loop_decoded auth server_url repo_name asset_api_url fuel token listing
             w r (PyDict members)) by done.
  split; intros Hkey; cbn [Py.getitem]; rewrite Hkey; [| done].
  rewrite bind_lift_ret, Hitems, bind_lift_ret. cbn [Py.iterate].
  rewrite bind_lift_ret. by rewrite fetch_loop_done.
Qed.

Lemma null_token_ends_pagination_witness :
  fetch_loop 1 None "http://host" "maven-releases"
    "http://host/service/rest/v1/assets?repository=maven-releases"
    Sample.token1 [Sample.asset "00"]
    (Sample.fresh (fun _ _ _ =>
       Sample.listing_response
         (PyDict [("items", PyList [Sample.asset "01"]); ("continuationToken", PyNone)])))
  = (Ret [Sample.asset "00"; Sample.asset "01"],
     log (GET None ("http://host/service/rest/v1/assets?repository=maven-releases"
                    +:+ "&continuationToken=88491cd1d185dd136f143f20c4e7d50c"))
       (Sample.fresh (fun _ _ _ =>
          Sample.listing_response
            (PyDict [("items", PyList [Sample.asset "01"]); ("continuationToken", PyNone)])))).
Proof.
  apply (null_token_ends_pagination 0 None "http://host" "maven-releases"
           "http://host/service/rest/v1/assets?repository=maven-releases"
           Sample.token1 [Sample.asset "00"] _
           (mkResponse [] (inr (PyDict [("items", PyList [Sample.asset "01"]);
                                        ("continuationToken", PyNone)])))
           [("items", PyList [Sample.asset "01"]); ("continuationToken", PyNone)]
           [Sample.asset "01"]); reflexivity.
Defined.

(** C4 fails as stated for the missing key: the first response below has
    items and no [continuationToken]; the run ends on [KeyError] and returns
    no listing. *)
Lemma missing_token_raises_KeyError :
  Py.getitem (PyDict [("items", PyList [Sample.asset Sample.sha1_abc])]) "items"
  = Ret (PyList [Sample.asset Sample.sha1_abc])
  /\ fst (fetch_asset_listing 5 false None "http://host" "maven-releases"
            (Sample.fresh Sample.no_token))
     = Exc (KeyError "continuationToken").
Proof. split; reflexivity. Qed.




(** ** urljoin on base URLs of that shape *)

Section UrlFacts.

Implicit Types (s t p : string) (c d : ascii).

Lemma mem_app c s t : Str.mem c (s +:+ t) = Str.mem c s || Str.mem c t.
Proof. induction s as [|a s IH]; simpl; [done | by rewrite IH, orb_assoc]. Qed.

Lemma free_of_mem delims s c :
  free_of delims s = true -> Str.mem c delims = true -> Str.mem c s = false.
Proof.
  induction s as [|a s IH]; simpl; [done |].
  intros [Ha Hs]%andb_prop Hc. rewrite IH by done. rewrite orb_false_r.
  destruct (Ascii.eqb_spec c a) as [-> |]; [| done].
  by rewrite Hc in Ha.
Qed.

Lemma remove_absent c s : Str.mem c s = false -> Str.remove c s = s.
Proof.
  induction s as [|a s IH]; simpl; [done |].
  intros [Ha Hs]%orb_false_elim. by rewrite Ha, IH.
Qed.

Lemma split1_absent c s : Str.mem c s = false -> Str.split1 c s = None.
Proof.
  induction s as [|a s IH]; simpl; [done |].
  intros [Ha Hs]%orb_false_elim. by rewrite Ha, IH.
Qed.

Lemma span_until_app delims s t :
  free_of delims s = true ->
  match t with EmptyString => true | String c _ => Str.mem c delims end = true ->
  urllib.span_until delims (s +:+ t) = (s, t).
Proof.
  intros Hs Ht. induction s as [|a s IH]; simpl.
  - destruct t as [|c t]; simpl; [done | by rewrite Ht].
  - simpl in Hs. apply andb_prop in Hs as [Ha Hs].
    apply negb_true_iff in Ha. by rewrite Ha, IH.
Qed.

Lemma split_free c s : Str.mem c s = false -> Str.split c s = [s].
Proof.
  induction s as [|a s IH]; simpl; [done |].
  intros [Ha Hs]%orb_false_elim. by rewrite IH, Ha.
Qed.

Lemma split_nonempty c s : Str.split c s <> [].
Proof.
  induction s as [|a s IH]; simpl; [done |].
  destruct (Str.split c s); [done |]. by destruct (Ascii.eqb c a).
Qed.

Lemma split_app_sep c s t :
  Str.mem c s = false ->
  Str.split c (s +:+ String c t) = s :: Str.split c t.
Proof.
  induction s as [|a s IH]; simpl.
  - intros _. rewrite Ascii.eqb_refl.
    destruct (Str.split c t) eqn:E; [by apply split_nonempty in E | done].
  - intros [Ha Hs]%orb_false_elim. by rewrite IH, Ha.
Qed.

End UrlFacts.

Section UrlJoin.

Implicit Types (s t : string) (c : ascii) (dirs : list string).

Lemma free_of_nil s : free_of EmptyString s = true.
Proof. induction s as [|a s IH]; simpl; done. Qed.

Lemma free_of_cons c delims s :
  free_of (String c delims) s = negb (Str.mem c s) && free_of delims s.
Proof.
  induction s as [|a s IH]; simpl; [done |].
  rewrite IH, (Ascii.eqb_sym a c).
  destruct (Ascii.eqb c a), (Str.mem a delims), (Str.mem c s); done.
Qed.

Lemma lstrip_kept chars c s :
  Str.mem c chars = false -> Str.lstrip chars (String c s) = String c s.
Proof. intros H. simpl. by rewrite H. Qed.

Lemma remove_unsafe_absent s :
  Str.mem "009" s = false -> Str.mem "010" s = false -> Str.mem "013" s = false ->
  urllib.remove_unsafe s = s.
Proof.
  intros Ht Hn Hr. unfold urllib.remove_unsafe.
  cbn [foldl urllib._UNSAFE_URL_BYTES_TO_REMOVE].
  by rewrite (remove_absent "009" s), (remove_absent "013" s), (remove_absent "010" s).
Qed.

Lemma segment_ok_parts d :
  segment_ok d = true ->
  urllib.nonempty d = true /\ free_of reserved d = true
  /\ String.eqb d "." = false /\ String.eqb d ".." = false.
Proof.
  unfold segment_ok. intros H.
  apply andb_prop in H as [H Hdots]. apply andb_prop in H as [H Hdot].
  apply andb_prop in H as [Hne Hfree].
  by apply negb_true_iff in Hdot, Hdots.
Qed.

Lemma mem_dir_path c dirs :
  forallb segment_ok dirs = true ->
  Str.mem c reserved = true -> Ascii.eqb c "/" = false ->
  Str.mem c (dir_path dirs) = false.
Proof.
  intros Hdirs Hc Hsep. induction dirs as [|d dirs IH]; [done |].
  cbn [forallb] in Hdirs. apply andb_prop in Hdirs as [Hd Hdirs].
  cbn [dir_path]. rewrite !mem_app, IH by done.
  apply segment_ok_parts in Hd as (_ & Hd & _).
  rewrite (free_of_mem reserved d c) by done.
  cbn. by rewrite Hsep.
Qed.

Lemma split_base_path dirs last :
  forallb segment_ok dirs = true -> Str.mem "/" last = false ->
  Str.split "/" (dir_path dirs +:+ last) = dirs ++ [last].
Proof.
  intros Hdirs Hlast. induction dirs as [|d dirs IH]; cbn [dir_path app].
  - by apply split_free.
  - cbn [forallb] in Hdirs. apply andb_prop in Hdirs as [Hd Hdirs].
    rewrite !append_assoc.
    change ("/" +:+ dir_path dirs +:+ last) with (String "/" (dir_path dirs +:+ last)).
    rewrite split_app_sep, IH; [done | done |].
    apply segment_ok_parts in Hd as (_ & Hd & _).
    by apply (free_of_mem reserved).
Qed.

Lemma filter_init_dirs dirs tl :
  forallb segment_ok dirs = true -> tl <> [] ->
  urllib.filter_init (dirs ++ tl) = dirs ++ urllib.filter_init tl.
Proof.
  intros Hdirs Htl. induction dirs as [|d dirs IH]; [done |].
  cbn [forallb] in Hdirs. apply andb_prop in Hdirs as [Hd Hdirs].
  cbn [app urllib.filter_init].
  destruct (dirs ++ tl) eqn:E; [by destruct dirs, tl |].
  rewrite IH by done.
  apply segment_ok_parts in Hd as (Hd & _). by rewrite Hd.
Qed.

Lemma resolve_plain l : forall acc,
  forallb (fun s => negb (String.eqb s "..") && negb (String.eqb s ".")) l = true ->
  urllib.resolve l acc = reverse acc ++ l.
Proof.
  induction l as [|x l IH]; intros acc Hl; cbn [urllib.resolve].
  - by rewrite app_nil_r.
  - cbn [forallb] in Hl. apply andb_prop in Hl as [Hx Hl].
    apply andb_prop in Hx as [Hx1 Hx2].
    apply negb_true_iff in Hx1, Hx2. rewrite Hx1, Hx2, IH by done.
    by rewrite reverse_cons, <- app_assoc.
Qed.

Lemma join_dirs dirs tl :
  tl <> [] -> Str.join "/" (dirs ++ tl) = dir_path dirs +:+ Str.join "/" tl.
Proof.
  intros Htl. induction dirs as [|d dirs IH]; [done |].
  cbn [app Str.join dir_path].
  destruct (dirs ++ tl) eqn:E; [by destruct dirs, tl |].
  rewrite IH, !append_assoc. done.
Qed.

End UrlJoin.

Section UrlJoinListing.

Variable repo_name : string.
Hypothesis Hrepo : repo_ok repo_name = true.

Local Abbreviation rel := ("service/rest/v1/assets?repository=" +:+ repo_name).

Lemma repo_mem c : Str.mem c (unsafe +:+ "#") = true -> Str.mem c repo_name = false.
Proof using Hrepo. intros Hc. by apply (free_of_mem (unsafe +:+ "#")). Qed.

(** The relative reference of the script parses as a path and a query. *)
Lemma urlparse_rel scheme :
  scheme = "http" \/ scheme = "https" ->
  urllib.urlparse rel scheme
  = Ret (urllib.mkParse scheme EmptyString "service/rest/v1/assets" EmptyString
           ("repository=" +:+ repo_name) EmptyString).
Proof using Hrepo.
  intros Hscheme.
  assert (Hs : urllib.remove_unsafe
                 (Str.rstrip urllib._WHATWG_C0_CONTROL_OR_SPACE
                    (Str.lstrip urllib._WHATWG_C0_CONTROL_OR_SPACE scheme)) = scheme)
    by (destruct Hscheme as [-> | ->]; reflexivity).
  assert (Hin : urllib.str_in scheme urllib.uses_params = true)
    by (destruct Hscheme as [-> | ->]; reflexivity).
  unfold urllib.urlparse, urllib.urlsplit. rewrite Hs.
  simpl append.
  rewrite lstrip_kept by reflexivity.
  rewrite remove_unsafe_absent;
    [| simpl; apply repo_mem; reflexivity ..].
  simpl (Str.split1 ":" _).
  destruct (Str.split1 ":" repo_name) as [[a b]|] eqn:Hcolon;
    [simpl (urllib.all_in _ _); rewrite andb_false_r |];
    cbv beta iota zeta;
    simpl (Str.split1 "#" _);
    rewrite (split1_absent "#" repo_name) by (apply repo_mem; reflexivity);
    cbv beta iota zeta;
    simpl (Str.split1 "?" _); cbv beta iota zeta;
    cbn [urllib.s_path urllib.s_scheme urllib.s_netloc urllib.s_query urllib.s_fragment];
    rewrite Hin; simpl (Str.mem ";" _); cbv beta iota zeta; reflexivity.
Qed.

Lemma path_mem path c :
  path_ok path = true ->
  Str.mem c reserved = true -> Ascii.eqb c "/" = false ->
  Str.mem c (path_string path) = false.
Proof.
  destruct path as [[dirs last]|]; [| done].
  cbn [path_ok path_string]. intros [Hdirs Hlast]%andb_prop Hc Hsep.
  rewrite !mem_app, (mem_dir_path c dirs), (free_of_mem reserved last c) by done.
  cbn. by rewrite Hsep.
Qed.

Lemma path_starts_with_sep path :
  match path_string path with
  | EmptyString => true
  | String c _ => Str.mem c "/?#"
  end = true.
Proof. by destruct path as [[dirs last]|]. Qed.

Lemma base_ok_parts scheme netloc path :
  base_ok scheme netloc path = true ->
  (scheme = "http" \/ scheme = "https")
  /\ urllib.nonempty netloc = true
  /\ free_of reserved netloc = true
  /\ path_ok path = true.
Proof.
  unfold base_ok. intros H.
  apply andb_prop in H as [H Hpath]. apply andb_prop in H as [H Hnetloc].
  apply andb_prop in H as [Hscheme Hne].
  repeat split; try done.
  apply orb_prop in Hscheme as [H | H]; apply String.eqb_eq in H; auto.
Qed.

(** A base URL of the shape parses into its scheme, netloc and path. *)
Lemma urlparse_base scheme netloc path :
  base_ok scheme netloc path = true ->
  urllib.urlparse (http_base scheme netloc path) EmptyString
  = Ret (urllib.mkParse scheme netloc (path_string path)
           EmptyString EmptyString EmptyString).
Proof.
  intros (Hscheme & Hne & Hnetloc & Hpath)%base_ok_parts.
  assert (Hrest : forall c, Str.mem c reserved = true -> Ascii.eqb c "/" = false ->
                            Str.mem c (netloc +:+ path_string path) = false).
  { intros c Hc Hsep.
    by rewrite mem_app, (free_of_mem reserved netloc c), (path_mem path c). }
  assert (Hin : urllib.str_in scheme urllib.uses_params = true)
    by (destruct Hscheme as [-> | ->]; reflexivity).
  unfold urllib.urlparse, urllib.urlsplit, http_base.
  change (urllib.remove_unsafe
            (Str.rstrip urllib._WHATWG_C0_CONTROL_OR_SPACE
               (Str.lstrip urllib._WHATWG_C0_CONTROL_OR_SPACE EmptyString)))
    with EmptyString.
  destruct Hscheme as [-> | ->]; simpl append;
    rewrite lstrip_kept by reflexivity;
    (rewrite remove_unsafe_absent; [| simpl; apply Hrest; reflexivity ..]);
    simpl (Str.split1 ":" _); cbv beta iota zeta;
    [ change (urllib.isalpha_ascii "h" && urllib.all_in urllib.scheme_chars "http")
        with true;
      change (Str.lower "http") with "http"
    | change (urllib.isalpha_ascii "h" && urllib.all_in urllib.scheme_chars "https")
        with true;
      change (Str.lower "https") with "https" ];
    cbv beta iota zeta.
  all:
    rewrite (span_until_app "/?#" netloc (path_string path))
      by (try apply path_starts_with_sep;
          rewrite !free_of_cons, free_of_nil,
            !(free_of_mem reserved netloc) by done; done);
    rewrite !(free_of_mem reserved netloc) by done;
    cbn [andb orb negb]; cbv beta iota zeta;
    rewrite (split1_absent "#"), (split1_absent "?") by (by apply path_mem);
    cbv beta iota zeta;
    cbn [urllib.s_path urllib.s_scheme urllib.s_netloc urllib.s_query urllib.s_fragment];
    rewrite (path_mem path ";") by done;
    rewrite andb_false_r; reflexivity.
Qed.

Lemma path_ok_dirs path : path_ok path = true -> forallb segment_ok (dirs_of path) = true.
Proof.
  destruct path as [[dirs last]|]; [| done]. cbn. by intros [? ?]%andb_prop.
Qed.

(** The segments [urljoin] resolves: the directories of the base path, then
    the segments of the relative path. *)
Lemma segments_of_path path :
  path_ok path = true ->
  urllib.filter_middle
    ((if urllib.nonempty (List.last (Str.split "/" (path_string path)) EmptyString)
      then removelast (Str.split "/" (path_string path))
      else Str.split "/" (path_string path))
     ++ ["service"; "rest"; "v1"; "assets"])
  = EmptyString :: dirs_of path ++ ["service"; "rest"; "v1"; "assets"].
Proof.
  destruct path as [[dirs last]|]; [| done].
  cbn [path_ok path_string dirs_of]. intros [Hdirs Hlast]%andb_prop.
  assert (Hsplit : Str.split "/" ("/" +:+ dir_path dirs +:+ last)
                   = (EmptyString :: dirs) ++ [last]).
  { change ("/" +:+ dir_path dirs +:+ last)
      with (EmptyString +:+ String "/" (dir_path dirs +:+ last)).
    rewrite split_app_sep by done. rewrite split_base_path; [done | done |].
    by apply (free_of_mem reserved). }
  rewrite Hsplit, last_last, removelast_last.
  destruct (urllib.nonempty last) eqn:Hne.
  - cbn [app urllib.filter_middle]. by rewrite filter_init_dirs.
  - destruct last; [| done].
    cbn [app urllib.filter_middle]. rewrite <- app_assoc.
    by rewrite filter_init_dirs.
Qed.

Lemma join_cons x l :
  l <> [] -> Str.join "/" (x :: l) = x +:+ "/" +:+ Str.join "/" l.
Proof. by destruct l. Qed.

(** The listing URL for a base URL of the shape: the base up to the last
    separator of its path, then the relative reference. *)
Lemma urljoin_listing scheme netloc path :
  base_ok scheme netloc path = true ->
  urllib.urljoin (http_base scheme netloc path) rel
  = Ret (listing_base scheme netloc path +:+ rel).
Proof using Hrepo.
  intros Hok. pose proof (base_ok_parts _ _ _ Hok) as (Hscheme & Hne & Hnetloc & Hpath).
  assert (Hbase : urllib.nonempty (http_base scheme netloc path) = true)
    by (destruct Hscheme as [-> | ->]; reflexivity).
  assert (Hrel : urllib.nonempty rel = true) by reflexivity.
  assert (Hsch : urllib.str_in scheme urllib.uses_relative = true
                 /\ urllib.str_in scheme urllib.uses_netloc = true
                 /\ urllib.nonempty scheme = true)
    by (destruct Hscheme as [-> | ->]; repeat split; reflexivity).
  destruct Hsch as (Hrelative & Huses_netloc & Hscheme_ne).
  pose proof (path_ok_dirs path Hpath) as Hdirs.
  unfold urllib.urljoin. rewrite Hbase, Hrel. cbn [negb].
  rewrite urlparse_base by done.
  cbn [urllib.scheme urllib.netloc urllib.path urllib.params urllib.query urllib.fragment].
  rewrite urlparse_rel by done.
  cbn [urllib.scheme urllib.netloc urllib.path urllib.params urllib.query urllib.fragment].
  rewrite String.eqb_refl, Hrelative, Huses_netloc. cbn [negb orb andb].
  change (urllib.nonempty EmptyString) with false. cbn [negb orb andb].
  change (urllib.nonempty "service/rest/v1/assets") with true. cbn [negb orb andb].
  change (Str.startswith "/" "service/rest/v1/assets") with false. cbv beta iota zeta.
  change (Str.split "/" "service/rest/v1/assets") with ["service"; "rest"; "v1"; "assets"].
  rewrite segments_of_path by done.
  assert (Hlast : List.last (EmptyString :: dirs_of path
                               ++ ["service"; "rest"; "v1"; "assets"]) EmptyString
                  = "assets").
  { change ["service"; "rest"; "v1"; "assets"] with (["service"; "rest"; "v1"] ++ ["assets"]).
    rewrite app_assoc, app_comm_cons. apply last_last. }
  rewrite Hlast. change (urllib.str_in "assets" ["."; ".."]) with false.
  cbv beta iota zeta.
  rewrite resolve_plain.
  2:{ cbn [forallb]. rewrite forallb_app.
      repeat (apply andb_true_intro; split); try reflexivity.
      clear -Hdirs. induction (dirs_of path) as [|d dirs IH]; [done |].
      cbn [forallb] in *. apply andb_prop in Hdirs as [Hd Hdirs].
      rewrite IH by done. rewrite andb_true_r.
      apply segment_ok_parts in Hd as (_ & _ & Hdot & Hdots). by rewrite Hdot, Hdots. }
  rewrite reverse_nil, app_nil_l, join_cons by (by destruct (dirs_of path)).
  rewrite join_dirs by done.
  change (Str.join "/" ["service"; "rest"; "v1"; "assets"]) with "service/rest/v1/assets".
  change (EmptyString +:+ "/" +:+ dir_path (dirs_of path) +:+ "service/rest/v1/assets")
    with (String "/" (dir_path (dirs_of path) +:+ "service/rest/v1/assets")).
  change (urllib.nonempty (String "/" (dir_path (dirs_of path) +:+ "service/rest/v1/assets")))
    with true.
  cbv beta iota zeta.
  unfold urllib.urlunparse, urllib.urlunsplit.
  cbn [urllib.scheme urllib.netloc urllib.path urllib.params urllib.query urllib.fragment].
  change (urllib.nonempty EmptyString) with false. cbv beta iota zeta.
  rewrite Hne, Hscheme_ne. cbn [orb].
  change (urllib.nonempty ("repository=" +:+ repo_name)) with true.
  change (Str.startswith "/" (String "/" (dir_path (dirs_of path) +:+ "service/rest/v1/assets")))
    with true.
  cbn [negb andb]. rewrite andb_false_r. unfold listing_base.
  f_equal. rewrite !append_assoc.
  change ("/" +:+ dir_path (dirs_of path) +:+ rel)
    with (String "/" (dir_path (dirs_of path) +:+ rel)).
  change ("//" +:+ netloc
          +:+ String "/" (dir_path (dirs_of path) +:+ "service/rest/v1/assets")
          +:+ "?" +:+ "repository=" +:+ repo_name)
    with ("//" +:+ netloc
          +:+ String "/" ((dir_path (dirs_of path) +:+ "service/rest/v1/assets")
          +:+ "?" +:+ "repository=" +:+ repo_name)).
  by rewrite !append_assoc.
Qed.

End UrlJoinListing.

(** ** The URLs of the listing requests (lines 75, 82-88) *)

Lemma listing_urls_tokens asset_api_url ps : forall token,
  forallb (fun p => is_token (page_token p)) ps = true ->
  ps <> [] ->
  listing_urls asset_api_url token ps
  = query_url asset_api_url token
    :: ((fun p => asset_api_url +:+ "&continuationToken=" +:+ Py.str (page_token p))
          <$> removelast ps).
Proof.
  induction ps as [|p ps IH]; intros token Htokens Hne; [done |].
  cbn [forallb] in Htokens. apply andb_prop in Htokens as [Hp Htokens].
  cbn [listing_urls]. destruct ps as [|p' ps]; [done |].
  rewrite IH by done.
  change (removelast (p :: p' :: ps)) with (p :: removelast (p' :: ps)).
  cbn [fmap list_fmap]. do 2 f_equal.
  unfold query_url. by destruct (page_token p).
Qed.

(** C8, as the code has it.  The listing URL is not the base URL with the
    service path appended but [urljoin] of the two.  With [asset_api_url] its
    result, the first request goes to [asset_api_url] and every later one to
    [asset_api_url] followed by [&continuationToken=] and the token of the
    page before.  For a base URL [scheme://netloc] or
    [scheme://netloc/d1/.../dk/last], [asset_api_url] is the base URL up to and
    with the last separator of its path, followed by
    [service/rest/v1/assets?repository=<name>]: the path of the base URL is
    kept when it is empty or ends with the separator, and loses what follows
    its last separator otherwise. *)
Theorem listing_request_urls (repo_name : string) :
  (forall fuel quiet auth server_url asset_api_url ps w,
      urllib.urljoin server_url ("service/rest/v1/assets?repository=" +:+ repo_name)
      = Ret asset_api_url ->
      only_last_ends ps = true ->
      forallb (fun p => is_token (page_token p)) ps = true ->
      listing_served (remote w) auth asset_api_url (length (requests_of w))
        (PyInt (-1)) ps ->
      (length ps <= fuel)%nat ->
      requests_of (snd (fetch_asset_listing fuel quiet auth server_url repo_name w))
      = requests_of w
        ++ asset_api_url
           :: ((fun p => asset_api_url +:+ "&continuationToken=" +:+ Py.str (page_token p))
                 <$> removelast ps))
  /\ (forall scheme netloc path,
         repo_ok repo_name = true ->
         base_ok scheme netloc path = true ->
         urllib.urljoin (http_base scheme netloc path)
           ("service/rest/v1/assets?repository=" +:+ repo_name)
         = Ret (listing_base scheme netloc path
                +:+ "service/rest/v1/assets?repository=" +:+ repo_name)).
Proof.
  split.
  - intros fuel quiet auth server_url asset_api_url ps w Hjoin Hends Htokens Hserved Hfuel.
    rewrite (fetch_asset_listing_pages fuel quiet auth server_url repo_name asset_api_url
               ps w Hjoin Hends Hserved Hfuel).
    cbn [snd]. rewrite requests_of_after_requests.
    rewrite listing_urls_tokens; [done | done |].
    by destruct ps.
  - intros scheme netloc path Hrepo Hbase. by apply urljoin_listing.
Qed.

Lemma listing_request_urls_witness :
  requests_of (snd (fetch_asset_listing 2 false None "http://host/nexus/" "maven-releases"
                      (Sample.fresh Sample.two_pages)))
  = ["http://host/nexus/service/rest/v1/assets?repository=maven-releases";
     "http://host/nexus/service/rest/v1/assets?repository=maven-releases"
     +:+ "&continuationToken=88491cd1d185dd136f143f20c4e7d50c"].
Proof.
  destruct (listing_request_urls "maven-releases") as [Hurls Hjoin].
  apply (Hurls 2%nat false None "http://host/nexus/"
           "http://host/nexus/service/rest/v1/assets?repository=maven-releases"
           [Sample.page1; Sample.page2]
           (Sample.fresh Sample.two_pages)).
  - apply (Hjoin "http" "host" (Some (["nexus"], EmptyString))); reflexivity.
  - reflexivity.
  - reflexivity.
  - split; [| split; [| exact I]]; eexists _, _; repeat split; reflexivity.
  - cbn; lia.
Defined.

(** C8 fails as stated: the base URL below has the path [/nexus]; the
    requests go to [http://host/service/...], without it. *)
Lemma base_path_segment_is_dropped :
  requests_of (snd (fetch_asset_listing 2 false None "http://host/nexus" "maven-releases"
                      (Sample.fresh Sample.two_pages)))
  = ["http://host/service/rest/v1/assets?repository=maven-releases";
     "http://host/service/rest/v1/assets?repository=maven-releases"
     +:+ "&continuationToken=88491cd1d185dd136f143f20c4e7d50c"]
  /\ head (requests_of (snd (fetch_asset_listing 2 false None "http://host/nexus"
                               "maven-releases" (Sample.fresh Sample.two_pages))))
     <> Some ("http://host/nexus" +:+ "/service/rest/v1/assets?repository=" +:+ "maven-releases").
Proof. vm_compute. split; [reflexivity | discriminate]. Qed.


(** * Further properties of the script *)

(** ** What every action does to the world *)

Section Advances.

Variable P : event -> Prop.

Lemma fs_grows_refl f : fs_grows f f.
Proof. intros name. split; [done |]. intros data Hf. by exists data. Qed.

Lemma fs_grows_trans f1 f2 f3 : fs_grows f1 f2 -> fs_grows f2 f3 -> fs_grows f1 f3.
Proof.
  intros H12 H23 name. destruct (H12 name) as [Ha Hb], (H23 name) as [Hc Hd].
  split; [auto |]. intros data [data' Hf]%Hb. by apply Hd in Hf.
Qed.

Lemma fs_follows_refl new f : fs_follows new f f.
Proof. split; [done |]. split; [done | apply fs_grows_refl]. Qed.

Lemma fs_follows_app new1 new2 f1 f2 f3 :
  fs_follows new1 f1 f2 -> fs_follows new2 f2 f3 -> fs_follows (new1 ++ new2) f1 f3.
Proof.
  intros (Hsame1 & Hfile1 & Hgrow1) (Hsame2 & Hfile2 & Hgrow2).
  split; [| split].
  - intros [H1 H2]%Forall_app. by rewrite Hsame2, Hsame1.
  - intros name data Hf Hnew. apply Hfile2; [apply Hfile1; [done |] |];
      intros Hin; apply Hnew, elem_of_app; auto.
  - by apply (fs_grows_trans f1 f2 f3).
Qed.

Lemma advances_refl w : advances P w w.
Proof.
  exists []. rewrite app_nil_r. split; [done |]. split; [done |].
  split; [apply fs_follows_refl | done].
Qed.

Lemma advances_trans w1 w2 w3 : advances P w1 w2 -> advances P w2 w3 -> advances P w1 w3.
Proof.
  intros (new1 & Ht1 & HP1 & Hfs1 & Hr1 & He1 & Hy1) (new2 & Ht2 & HP2 & Hfs2 & Hr2 & He2 & Hy2).
  exists (new1 ++ new2).
  split; [by rewrite Ht2, Ht1, app_assoc |].
  split; [by apply Forall_app |].
  split; [by apply (fs_follows_app _ _ _ (fs w2)) |].
  by rewrite Hr2, He2, Hy2.
Qed.

Lemma advances_log e w : P e -> advances P w (log e w).
Proof.
  intros He. exists [e]. split; [done |]. split; [by apply Forall_singleton |].
  split; [apply fs_follows_refl | done].
Qed.

Lemma advances_weaken (Q : event -> Prop) w w' :
  (forall e, P e -> Q e) -> advances P w w' -> advances Q w w'.
Proof.
  intros HPQ (new & Ht & HP & Hrest). exists new. split; [done |].
  split; [| done]. eapply Forall_impl; [exact HP | exact HPQ].
Qed.

Lemma keeps_ret {A} (a : A) : keeps P (ret a).
Proof. intros w. apply advances_refl. Qed.

Lemma keeps_raise {A} e : keeps P (@raise A e).
Proof. intros w. apply advances_refl. Qed.

Lemma keeps_lift {A} (o : outcome A) : keeps P (lift o).
Proof. intros w. apply advances_refl. Qed.

Lemma keeps_emit e : P e -> leaves_fs e -> keeps P (emit e).
Proof. intros He _ w. by apply advances_log. Qed.

Lemma keeps_bind {A B} (c : M A) (k : A -> M B) :
  keeps P c -> (forall a, keeps P (k a)) -> keeps P (bind c k).
Proof.
  intros Hc Hk w. unfold bind. specialize (Hc w).
  destruct (c w) as [[a | e |] w1]; cbn [snd] in *; [| done | done].
  eapply advances_trans; [exact Hc | apply Hk].
Qed.

(** The same where what [k] does depends on the world [c] leaves. *)
Lemma advances_bind {A B} (c : M A) (k : A -> M B) w :
  advances P w (snd (c w)) ->
  (forall a w1, c w = (Ret a, w1) -> advances P w1 (snd (k a w1))) ->
  advances P w (snd (bind c k w)).
Proof.
  intros Hc Hk. unfold bind.
  destruct (c w) as [[a | e |] w1]; cbn [snd] in *; [| done | done].
  eapply advances_trans; [exact Hc | by apply Hk].
Qed.

Lemma keeps_bind_lift {A B} (o : outcome A) (k : A -> M B) :
  (forall a, o = Ret a -> keeps P (k a)) -> keeps P (bind (lift o) k).
Proof.
  intros Hk w. unfold bind, lift. destruct o as [a | e |]; [| apply advances_refl..].
  by apply Hk.
Qed.

Lemma keeps_when b c : keeps P c -> keeps P (when b c).
Proof. destruct b; [done |]. intros _. apply keeps_ret. Qed.

Lemma keeps_try_except_IOError {A} (body : M A) handler :
  keeps P body -> (forall msg, keeps P (handler msg)) ->
  keeps P (try_except_IOError body handler).
Proof.
  intros Hb Hh w. unfold try_except_IOError. specialize (Hb w).
  destruct (body w) as [[a | [] |] w1]; cbn [snd] in *; try done.
  eapply advances_trans; [exact Hb | apply Hh].
Qed.

Lemma keeps_try_except_JSONDecodeError {A} (body handler : M A) :
  keeps P body -> keeps P handler -> keeps P (try_except_JSONDecodeError body handler).
Proof.
  intros Hb Hh w. unfold try_except_JSONDecodeError. specialize (Hb w).
  destruct (body w) as [[a | [] |] w1]; cbn [snd] in *; try done.
  eapply advances_trans; [exact Hb | apply Hh].
Qed.

Lemma keeps_requests_get url auth : P (GET auth url) -> keeps P (requests_get url auth).
Proof.
  intros He w. unfold requests_get.
  destruct (remote w _ auth url); by apply advances_log.
Qed.

Lemma keeps_response_json r : keeps P (response_json r).
Proof. unfold response_json. destruct (json r); [apply keeps_raise | apply keeps_ret]. Qed.

Lemma keeps_read_file name : P (OpenRead name) -> keeps P (read_file name).
Proof.
  intros He w. unfold read_file. cbn zeta.
  destruct (os.lookup _ name) as [[]|]; by apply advances_log.
Qed.

Lemma keeps_getpass : P Getpass -> keeps P getpass.
Proof. intros He w. by apply advances_log. Qed.

End Advances.

(** ** The actions that change the file system *)

Section FsActions.

Variable P : event -> Prop.

(** [os.mkdir] makes an entry only where there was none. *)
Lemma mkdir_fresh f name f' :
  os.mkdir f name = inr f' -> f !! name = None /\ f' = <[name := Dir]> f.
Proof.
  unfold os.mkdir. destruct (String.eqb name EmptyString); [done |].
  destruct (os.parent f name); [done |].
  destruct (os.exists_ f name || os.names_directory name) eqn:H; [done |].
  intros [= <-]. apply orb_false_elim in H as [Hex Hnd].
  split; [| done]. unfold os.exists_ in Hex. rewrite lookup_entry in Hex by done.
  by destruct (f !! name).
Qed.

Lemma fs_kept_refl f : fs_kept f f.
Proof. split; [apply fs_grows_refl | done]. Qed.

Lemma fs_kept_trans f1 f2 f3 : fs_kept f1 f2 -> fs_kept f2 f3 -> fs_kept f1 f3.
Proof.
  intros [Hg1 Hf1] [Hg2 Hf2]. split; [by apply (fs_grows_trans f1 f2 f3) | auto].
Qed.

Lemma fs_kept_mkdir f name f' : os.mkdir f name = inr f' -> fs_kept f f'.
Proof.
  intros [Hnone ->]%mkdir_fresh. split.
  - intros n. destruct (decide (n = name)) as [-> | Hne].
    + by rewrite Hnone.
    + rewrite lookup_insert_ne by done. apply fs_grows_refl.
  - intros n data Hn. rewrite lookup_insert_ne; [done | congruence].
Qed.

(** [os.makedirs] adds directories, and nothing else, whatever its outcome. *)
Lemma makedirs_rec_kept fuel : forall name f, fs_kept f (snd (os.makedirs_rec fuel name f)).
Proof.
  induction fuel as [|fuel IH]; intros name f; [apply fs_kept_refl |].
  cbn [os.makedirs_rec].
  assert (Hmake : forall f',
    fs_kept f' (snd (match os.mkdir f' name with
                     | inr f'' => (Ret tt, f'')
                     | inl e => if os.isdir f' name then (Ret tt, f')
                                else (Exc (os_error e name), f')
                     end))).
  { intros f'. destruct (os.mkdir f' name) eqn:Hmk.
    - destruct (os.isdir f' name); apply fs_kept_refl.
    - by apply (fs_kept_mkdir f' name). }
  assert (Hrec : forall head tail,
    fs_kept f (snd (match os.makedirs_rec fuel head f with
                    | (Ret _, f') | (Exc (OSError (Some EEXIST) _), f') =>
                        if String.eqb tail "." then (Ret tt, f')
                        else match os.mkdir f' name with
                             | inr f'' => (Ret tt, f'')
                             | inl e => if os.isdir f' name then (Ret tt, f')
                                        else (Exc (os_error e name), f')
                             end
                    | r => r
                    end))).
  { intros head tail. specialize (IH head f).
    destruct (os.makedirs_rec fuel head f) as [[[]| e |] f']; cbn [snd] in IH.
    - destruct (String.eqb tail "."); [done |].
      by apply (fs_kept_trans f f').
    - destruct e as [| | | |[[]|] msg| |]; try done;
        (destruct (String.eqb tail "."); [done | by apply (fs_kept_trans f f')]).
    - done. }
  destruct (posixpath.split name) as [head tail].
  destruct (String.eqb tail EmptyString).
  - destruct (posixpath.split head) as [head' tail'].
    destruct (negb (String.eqb head' EmptyString) && negb (String.eqb tail' EmptyString)
              && negb (os.exists_ f head')); [apply Hrec | apply Hmake].
  - destruct (negb (String.eqb head EmptyString) && negb (String.eqb tail EmptyString)
              && negb (os.exists_ f head)); [apply Hrec | apply Hmake].
Qed.

Lemma keeps_makedirs name : P (Makedirs name) -> keeps P (os.makedirs name).
Proof.
  intros He w. unfold os.makedirs. cbn zeta.
  pose proof (makedirs_rec_kept (S (String.length name)) name (fs (log (Makedirs name) w)))
    as [Hgrow Hfile].
  destruct (os.makedirs_rec _ _ _) as [r f']. cbn [snd fs log set_fs] in *.
  exists [Makedirs name]. split; [done |]. split; [by apply Forall_singleton |].
  split; [| done]. split; [| split; [| exact Hgrow]].
  - intros Hall. by inversion Hall.
  - intros n data Hn _. by apply Hfile.
Qed.

Lemma keeps_write_file name data : P (OpenWrite name) -> keeps P (write_file name data).
Proof.
  intros He w. unfold write_file. cbn zeta.
  destruct (String.eqb name EmptyString); [by apply advances_log |].
  destruct (os.parent _ name); [by apply advances_log |].
  destruct (os.isdir _ name || os.names_directory name) eqn:Hdir; [by apply advances_log |].
  apply orb_false_elim in Hdir as [Hisdir Hnames].
  unfold os.isdir in Hisdir. rewrite lookup_entry in Hisdir by done.
  cbn [fs log] in Hisdir. cbn [snd].
  exists [OpenWrite name]. split; [done |]. split; [by apply Forall_singleton |].
  split; [| done]. cbn [fs log set_fs]. split; [| split].
  - intros Hall. by inversion Hall.
  - intros n d Hn Hnot. rewrite lookup_insert_ne; [done |].
    intros <-. apply Hnot. by left.
  - intros n. destruct (decide (n = name)) as [-> | Hne].
    + rewrite lookup_insert_eq. split; [| by eexists].
      intros Hd. by rewrite Hd in Hisdir.
    + rewrite lookup_insert_ne by done. apply fs_grows_refl.
Qed.

End FsActions.

(** ** What the functions of the script do to the world *)

Ltac keeps_step :=
  lazymatch goal with
  | |- keeps _ (bind (lift _) _) => apply keeps_bind_lift; intros ? ?
  | |- keeps _ (bind _ _) => apply keeps_bind; [| intros ?]
  | |- keeps _ (ret _) => apply keeps_ret
  | |- keeps _ (raise _) => apply keeps_raise
  | |- keeps _ (lift _) => apply keeps_lift
  | |- keeps _ (when _ _) => apply keeps_when
  | |- keeps _ (emit _) => apply keeps_emit; [| exact I]
  | |- keeps _ (try_except_IOError _ _) => apply keeps_try_except_IOError; [| intros ?]
  | |- keeps _ (try_except_JSONDecodeError _ _) => apply keeps_try_except_JSONDecodeError
  | |- keeps _ (requests_get _ _) => apply keeps_requests_get
  | |- keeps _ (response_json _) => apply keeps_response_json
  | |- keeps _ (write_file _ _) => apply keeps_write_file
  | |- keeps _ (read_file _) => apply keeps_read_file
  | |- keeps _ (os.makedirs _) => apply keeps_makedirs
  | |- keeps _ (if ?b then _ else _) => destruct b
  | |- keeps _ (match ?x with _ => _ end) => destruct x
  end.

Section ScriptAdvances.

Variable P : event -> Prop.
Hypothesis Hout : forall line, P (Stdout line).

Lemma keeps_abort {A} code : keeps P (@abort A code).
Proof using Hout. unfold abort, print. repeat keeps_step. apply Hout. Qed.

Lemma keeps_fetch_loop auth server_url repo_name asset_api_url fuel :
  (forall url, P (GET auth url)) ->
  forall token listing,
    keeps P (fetch_loop fuel auth server_url repo_name asset_api_url token listing).
Proof using Hout.
  intros Hget. induction fuel as [|fuel IH]; intros token listing; cbn [fetch_loop].
  - destruct (negb (Py.truthy token)); [apply keeps_ret |].
    intros w. apply advances_refl.
  - destruct (negb (Py.truthy token)); [apply keeps_ret |].
    unfold print. repeat keeps_step; auto using keeps_abort.
Qed.

Lemma keeps_fetch_asset_listing fuel quiet auth server_url repo_name :
  (forall url, P (GET auth url)) ->
  keeps P (fetch_asset_listing fuel quiet auth server_url repo_name).
Proof using Hout.
  intros Hget. unfold fetch_asset_listing. keeps_step.
  by apply keeps_fetch_loop.
Qed.

Lemma keeps_attempt quiet auth file_path no_verify asset tryy :
  P (GET auth (download_url asset)) -> P (OpenWrite file_path) -> P (OpenRead file_path) ->
  keeps P (attempt quiet auth file_path no_verify asset tryy).
Proof using Hout.
  intros Hget Hwrite Hread. unfold attempt, tqdm_write, sha1.
  repeat keeps_step; auto.
  unfold download_url in Hget. by rewrite H in Hget.
Qed.

Lemma keeps_try_loop quiet auth file_path no_verify asset tries :
  P (GET auth (download_url asset)) -> P (OpenWrite file_path) -> P (OpenRead file_path) ->
  keeps P (try_loop quiet auth file_path no_verify asset tries).
Proof using Hout.
  intros Hget Hwrite Hread. induction tries as [|t tries IH]; cbn [try_loop].
  - apply keeps_ret.
  - keeps_step; [by apply keeps_attempt |]. destruct a; [apply keeps_ret | exact IH].
Qed.

Lemma keeps_download_single_asset quiet auth file_path no_verify asset :
  P (GET auth (download_url asset)) -> P (Makedirs (posixpath.dirname file_path)) ->
  P (OpenWrite file_path) -> P (OpenRead file_path) ->
  keeps P (download_single_asset quiet auth file_path no_verify asset).
Proof using Hout.
  intros Hget Hmk Hwrite Hread. unfold download_single_asset.
  keeps_step; [by keeps_step | by apply keeps_try_loop].
Qed.

Lemma keeps_already_downloaded mirror file_path asset :
  keeps P (already_downloaded mirror file_path asset).
Proof.
  assert (Hsame : forall {A} (c : M A), (forall w, snd (c w) = w) -> keeps P c).
  { intros A c Hc w. rewrite Hc. apply advances_refl. }
  unfold already_downloaded. destruct mirror; [| apply keeps_ret].
  keeps_step; [by apply Hsame |]. destruct a; [| apply keeps_ret].
  keeps_step; [| repeat keeps_step].
  apply Hsame. intros w. unfold st_size. by destruct (os.lookup _ _) as [[]|].
Qed.

Lemma startswith_app s t : Str.startswith s (s +:+ t) = true.
Proof. induction s as [|c s IH]; cbn; [done |]. by rewrite Ascii.eqb_refl, IH. Qed.

(** The file of an asset has a name that starts with the output directory. *)
Lemma startswith_join output_dir path :
  Str.startswith output_dir (posixpath.join output_dir (Str.lstrip "/" path)) = true.
Proof.
  unfold posixpath.join. rewrite (lstrip_not_startswith "/"%char).
  destruct (_ || _); apply startswith_app.
Qed.

Lemma keeps_download_assets quiet auth output_dir no_verify mirror asset_listing :
  (forall url, P (GET auth url)) -> (forall name, P (Makedirs name)) ->
  (forall path, P (OpenWrite (posixpath.join output_dir (Str.lstrip "/" path)))) ->
  (forall path, P (OpenRead (posixpath.join output_dir (Str.lstrip "/" path)))) ->
  keeps P (download_assets quiet auth output_dir no_verify asset_listing mirror).
Proof using Hout.
  intros Hget Hmk Hwrite Hread.
  induction asset_listing as [|asset rest IH]; cbn [download_assets]; [apply keeps_ret |].
  keeps_step. rename a into path. keeps_step. rename a into relative_path.
  destruct path; try done. injection H0 as <-.
  keeps_step; [apply keeps_already_downloaded |]. destruct a; [exact IH |].
  keeps_step; [by apply keeps_download_single_asset |].
  destruct (Py.truthy _); [| exact IH].
  unfold print. repeat keeps_step; auto using keeps_abort.
Qed.

End ScriptAdvances.

(** ** A run of [main], whatever the server and the file system do *)

Lemma main_event_stdout a w line : main_event a w (Stdout line).
Proof. exact I. Qed.

Lemma main_advances fuel a w : advances (main_event a w) w (snd (main fuel a w)).
Proof.
  pose proof (main_event_stdout a w) as Hout.
  unfold main. cbn zeta. apply advances_bind; [apply advances_refl |].
  intros found w1 [= <- <-].
  set (check := if os.exists_ (fs w) (resolve_output_dir a) && negb (mirror a)
                then _ else _).
  assert (Hcheck : keeps (main_event a w) check).
  { subst check. unfold print. repeat keeps_step; auto using keeps_abort. }
  apply advances_bind; [apply Hcheck |].
  intros [] w2 Hw2. specialize (Hcheck w). rewrite Hw2 in Hcheck. cbn [snd] in Hcheck.
  destruct Hcheck as (_ & _ & _ & _ & _ & Henv & Htty).
  assert (Hcred : credentials_of a w2 = credentials_of a w)
    by (unfold credentials_of; by rewrite Henv, Htty).
  apply advances_bind.
  - destruct (falsy (username a)) eqn:Huser; [apply advances_refl |].
    unfold bind at 1, getenv_NEXUS_PASSWORD.
    destruct (falsy (NEXUS_PASSWORD w2)) eqn:Hpw; [| apply advances_refl].
    unfold bind, getpass, ret. cbn [snd]. apply advances_log. cbn. by rewrite <- Henv.
  - intros auth w3 Hauth.
    assert (auth = credentials_of a w) as ->.
    { rewrite <- Hcred. unfold credentials_of.
      destruct (falsy (username a)); [by injection Hauth as <- |].
      unfold bind at 1, getenv_NEXUS_PASSWORD in Hauth.
      destruct (falsy (NEXUS_PASSWORD w2)); by injection Hauth as <-. }
    assert (Hrest : keeps (main_event a w)
      (when (negb (quiet a)) (print "Fetching asset listing...") >>
       let* asset_listing :=
         fetch_asset_listing fuel (quiet a) (credentials_of a w)
           (if negb (Str.contains "://" (server a)) then "http://" +:+ server a
            else server a) (repo a) in
       when (negb (quiet a)) (print "Done!") >>
       when (negb (quiet a)) (print "Downloading and verifying assets...") >>
       download_assets (quiet a) (credentials_of a w) (resolve_output_dir a) (no_verify a)
         asset_listing (mirror a) >>
       when (negb (quiet a)) (print "Done!"))).
    { unfold print.
      repeat first
        [ apply keeps_fetch_asset_listing | apply keeps_download_assets | keeps_step ];
        try done; intros; cbn; apply startswith_join. }
    apply Hrest.
Qed.

(** ** The attempt that ends the retry loop (lines 126-140) *)

Section FirstMatch.

Variables (quiet : bool) (auth : credentials) (file_path : string) (asset : pyobj).
Variables (url_v checksum expected : pyobj).
Hypothesis Hurl : Py.getitem asset "downloadUrl" = Ret url_v.
Hypothesis Hchecksum : Py.getitem asset "checksum" = Ret checksum.
Hypothesis Hsha1 : Py.getitem checksum "sha1" = Ret expected.

Local Abbreviation url := (Py.str url_v).

Lemma after_mismatches_writes body tries : forall i w,
  writes_of (after_mismatches auth url file_path body i tries w)
  = writes_of w ++ replicate (length tries) file_path.
Proof.
  induction tries as [|t tries IH]; intros i w; cbn [after_mismatches length replicate].
  - by rewrite app_nil_r.
  - rewrite IH, writes_of_failed, <- app_assoc. done.
Qed.

Lemma after_mismatches_stdout body tries : forall i w,
  stdout_of (after_mismatches auth url file_path body i tries w)
  = stdout_of w ++ omap stdout_line (failed_notice file_path <$> tries).
Proof.
  induction tries as [|t tries IH]; intros i w; cbn [after_mismatches fmap list_fmap omap].
  - by rewrite app_nil_r.
  - rewrite IH. unfold stdout_of, downloaded, log, set_fs; cbn.
    rewrite !omap_app; cbn. by rewrite !app_nil_r, <- app_assoc.
Qed.

(** Mismatches on the turns [tries1], then a match on the turn [t]: the loop
    returns there, and the turns [tries2] are not taken. *)
Lemma try_loop_match body tries1 t tries2 i w :
  (forall j, (j <= length tries1)%nat ->
     remote w (length (requests_of w) + j) auth url = Response (body (i + j)%nat)) ->
  (forall j, (j < length tries1)%nat ->
     Py.eq_str expected (hashlib.sha1_hexdigest (content (body (i + j)%nat))) = false) ->
  Py.eq_str expected (hashlib.sha1_hexdigest (content (body (i + length tries1)%nat))) = true ->
  writable (fs w) file_path = true ->
  try_loop quiet auth file_path false asset (tries1 ++ t :: tries2) w
  = (Ret (PyBool false),
     let w' := downloaded auth url file_path (body (i + length tries1)%nat)
                 (after_mismatches auth url file_path body i tries1 w) in
     if quiet then w' else log (verified_notice file_path t) w').
Proof using Hurl Hchecksum Hsha1.
  intros Hremote Hmis Hmatch Hw.
  rewrite (try_loop_mismatches quiet auth file_path asset url_v checksum expected
             Hurl Hchecksum Hsha1 body tries1 (t :: tries2) i w);
    [| intros j Hj; apply Hremote; lia | exact Hmis | exact Hw].
  cbn [try_loop]. unfold bind at 1.
  rewrite (attempt_verifying quiet auth file_path asset t _ url_v
             (body (i + length tries1)%nat) checksum expected); [| done | done | done | | ].
  - rewrite Hmatch. cbn zeta. by destruct quiet.
  - rewrite after_mismatches_remote, after_mismatches_requests by done.
    rewrite length_app, length_replicate. by apply Hremote.
  - by apply after_mismatches_writable.
Qed.

End FirstMatch.

Lemma makedirs_stdout name w r w0 :
  os.makedirs name w = (r, w0) -> stdout_of w0 = stdout_of w.
Proof.
  unfold os.makedirs. destruct (os.makedirs_rec _ _ _) as [r' f'].
  intros [= <- <-]. unfold stdout_of. cbn. rewrite omap_app. cbn.
  by rewrite app_nil_r.
Qed.

Lemma range_split (k : nat) :
  (k < 10)%nat ->
  Py.range 1 11
  = Py.range 1 (1 + Z.of_nat k) ++ (1 + Z.of_nat k) :: Py.range (2 + Z.of_nat k) 11
  /\ length (Py.range 1 (1 + Z.of_nat k)) = k.
Proof.
  intros Hk. do 10 (destruct k as [|k]; [split; reflexivity |]). lia.
Qed.

(** X1.  The retry loop stops at the first attempt whose body hashes to the
    descriptor's SHA-1.  For an asset whose directory can be made and whose
    file can be written: when the bodies of the attempts before attempt
    [k + 1] (at most the tenth) do not match and the body of that attempt does,
    [download_single_asset] returns [False] after exactly [k + 1] GETs of the
    download URL and [k + 1] writes of the file, which holds the matching
    body; it printed one failure notice per earlier attempt, also in quiet
    mode, and the success notice, unless quiet, with the attempt's number. *)
Theorem first_match_ends_retries
    (quiet : bool) (auth : credentials) (file_path : string) (asset : pyobj)
    (url_v checksum expected : pyobj) (body : nat -> response) (w w0 : world) (k : nat) :
  Py.getitem asset "downloadUrl" = Ret url_v ->
  Py.getitem asset "checksum" = Ret checksum ->
  Py.getitem checksum "sha1" = Ret expected ->
  os.makedirs (posixpath.dirname file_path) w = (Ret tt, w0) ->
  writable (fs w0) file_path = true ->
  (k < 10)%nat ->
  (forall i, (i <= k)%nat ->
     remote w (length (requests_of w) + i) auth (Py.str url_v) = Response (body i)) ->
  (forall i, (i < k)%nat ->
     Py.eq_str expected (hashlib.sha1_hexdigest (content (body i))) = false) ->
  Py.eq_str expected (hashlib.sha1_hexdigest (content (body k))) = true ->
  exists w',
    download_single_asset quiet auth file_path false asset w = (Ret (PyBool false), w')
    /\ requests_of w' = requests_of w ++ replicate (S k) (Py.str url_v)
    /\ writes_of w' = writes_of w ++ replicate (S k) file_path
    /\ fs w' !! file_path = Some (File (content (body k)))
    /\ stdout_of w'
       = stdout_of w
         ++ omap stdout_line (failed_notice file_path <$> Py.range 1 (1 + Z.of_nat k))
         ++ (if quiet then [] else omap stdout_line [verified_notice file_path (1 + Z.of_nat k)]).
Proof.
  intros Hurl Hck Hsha Hmk Hw Hk Hremote Hmis Hmatch.
  destruct (makedirs_world _ _ _ _ Hmk) as (Hreq0 & Hrem0 & Hwr0).
  destruct (range_split k Hk) as [Hrange Hlen].
  assert (Hso0 : stdout_of w0 = stdout_of w) by exact (makedirs_stdout _ _ _ _ Hmk).
  rewrite <- Hso0. eexists. split.
  - unfold download_single_asset, bind at 1. rewrite Hmk, Hrange.
    apply (try_loop_match quiet auth file_path asset url_v checksum expected
             Hurl Hck Hsha body _ _ _ 0%nat w0).
    + intros j Hj. rewrite Hrem0, Hreq0. apply Hremote. lia.
    + intros j Hj. apply Hmis. lia.
    + by rewrite Hlen.
    + exact Hw.
  - cbn zeta. rewrite Hlen. cbn [Nat.add].
    set (wk := after_mismatches _ _ _ _ _ _ _).
    assert (Hreq : requests_of wk = requests_of w ++ replicate k (Py.str url_v))
      by (subst wk; by rewrite after_mismatches_requests, Hlen, Hreq0).
    assert (Hwr : writes_of wk = writes_of w ++ replicate k file_path)
      by (subst wk; by rewrite after_mismatches_writes, Hlen, Hwr0).
    assert (Hso : stdout_of wk = stdout_of w0 ++ omap stdout_line
                    (failed_notice file_path <$> Py.range 1 (1 + Z.of_nat k)))
      by (subst wk; by rewrite after_mismatches_stdout).
    assert (Hsnoc : forall (A : Type) (x : A) n, replicate (S n) x = replicate n x ++ [x]).
    { intros A x n. induction n as [|n IH]; [done |]. cbn. by rewrite <- IH. }
    rewrite !Hsnoc, !app_assoc, <- Hreq, <- Hwr, <- Hso.
    clearbody wk.
    destruct quiet; unfold requests_of, writes_of, stdout_of, downloaded, log, set_fs; cbn;
      rewrite !omap_app; cbn; rewrite ?app_nil_r, ?lookup_insert_eq; done.
Qed.

Lemma first_match_ends_retries_witness :
  exists w',
    download_single_asset true None "out/com/example/lib-1.0.jar" false
      (Sample.asset Sample.sha1_abc) (Sample.fresh (Sample.serving Scenes.third_time))
    = (Ret (PyBool false), w')
    /\ requests_of w' = replicate 3 Sample.jar_url.
Proof.
  destruct (first_match_ends_retries true None "out/com/example/lib-1.0.jar"
              (Sample.asset Sample.sha1_abc) (PyStr Sample.jar_url)
              (PyDict [("sha1", PyStr Sample.sha1_abc)]) (PyStr Sample.sha1_abc)
              (fun i => mkResponse (Scenes.third_time i) (inl JSONDecodeError))
              (Sample.fresh (Sample.serving Scenes.third_time))
              (snd (os.makedirs "out/com/example"
                      (Sample.fresh (Sample.serving Scenes.third_time))))
              2%nat)
    as (w' & Hrun & Hreq & _); [reflexivity | reflexivity | reflexivity
                                | vm_compute; reflexivity | vm_compute; reflexivity
                                | lia | | | vm_compute; reflexivity |].
  - intros i Hi. do 3 (destruct i as [|i]; [vm_compute; reflexivity |]). lia.
  - intros i Hi. do 2 (destruct i as [|i]; [vm_compute; reflexivity |]). lia.
  - exists w'. split; [exact Hrun | exact Hreq].
Defined.

(** ** What a returned value tells about the download (lines 126-145) *)

Section ReturnValues.

Variables (quiet : bool) (auth : credentials) (file_path : string)
          (no_verify : bool) (asset : pyobj).

Lemma eq_str_true v s : Py.eq_str v s = true -> v = PyStr s.
Proof. destruct v; try done. cbn. by intros ->%String.eqb_eq. Qed.

(** A turn that returns [False] wrote the body it got, and, unless
    verification is off, found its SHA-1 in the descriptor. *)
Lemma attempt_returned_false tryy w w' :
  attempt quiet auth file_path no_verify asset tryy w = (Ret (Some (PyBool false)), w') ->
  exists url_v r,
    Py.getitem asset "downloadUrl" = Ret url_v
    /\ remote w (length (requests_of w)) auth (Py.str url_v) = Response r
    /\ requests_of w' = requests_of w ++ [Py.str url_v]
    /\ remote w' = remote w
    /\ fs w' !! file_path = Some (File (content r))
    /\ (no_verify = false -> declares asset (content r)).
Proof.
  unfold attempt, bind at 1, try_except_IOError.
  destruct (Py.getitem asset "downloadUrl") as [url_v | e |] eqn:Hurl.
  2:{ unfold bind at 1. cbn [lift]. destruct e; intros [= <-]; done. }
  2:{ by apply getitem_returns_or_raises in Hurl. }
  unfold bind at 1. cbn [lift]. unfold bind at 1, requests_get.
  destruct (remote w (length (requests_of w)) auth (Py.str url_v)) as [msg | r] eqn:Hremote.
  { cbn [ret]. intros [= <-]. }
  unfold bind at 1.
  destruct (write_file_cases file_path (content r) (log (GET auth (Py.str url_v)) w))
    as [[Hw Hwrite] | [c Hwrite]]; rewrite Hwrite.
  2:{ cbn [os_error ret]. intros [= <-]. }
  cbn [ret]. destruct no_verify.
  { unfold bind at 1. destruct quiet; cbn; intros [= <-]; exists url_v, r; cbn;
      rewrite lookup_insert_eq; (do 2 (split; [done |]));
      (split; [| done]); unfold requests_of; cbn; rewrite !omap_app; cbn;
      by rewrite ?app_nil_r. }
  destruct (Py.getitem asset "checksum") as [checksum | e |] eqn:Hck;
    unfold bind at 1; cbn [lift]; [| by intros [= <-] | by intros [= <-]].
  destruct (Py.getitem checksum "sha1") as [expected | e |] eqn:Hsha;
    unfold bind at 1; cbn [lift]; [| by intros [= <-] | by intros [= <-]].
  unfold bind at 1, sha1, bind at 1.
  rewrite read_file_written by (eapply writable_entry; exact Hw).
  cbn [ret].
  destruct (Py.eq_str expected (hashlib.sha1_hexdigest (content r))) eqn:Heq.
  - apply eq_str_true in Heq as ->.
    unfold bind at 1. destruct quiet; cbn; intros [= <-]; exists url_v, r; cbn;
      rewrite lookup_insert_eq; (do 2 (split; [done |]));
      (split; [| split; [done |]; split; [done |]; intros _; by exists checksum]);
      unfold requests_of; cbn; rewrite !omap_app; cbn; by rewrite ?app_nil_r.
  - unfold bind at 1. cbn. intros [= <-].
Qed.

End ReturnValues.

Section LoopReturns.

Variables (quiet : bool) (auth : credentials) (file_path : string)
          (no_verify : bool) (asset : pyobj).

(** The loop returns [False] only from a turn that put the body of one of
    its requests in place. *)
Lemma try_loop_returned_false tries : forall w w',
  try_loop quiet auth file_path no_verify asset tries w = (Ret (PyBool false), w') ->
  exists url_v r n,
    Py.getitem asset "downloadUrl" = Ret url_v
    /\ (n < length tries)%nat
    /\ remote w (length (requests_of w) + n) auth (Py.str url_v) = Response r
    /\ requests_of w' = requests_of w ++ replicate (S n) (Py.str url_v)
    /\ fs w' !! file_path = Some (File (content r))
    /\ (no_verify = false -> declares asset (content r)).
Proof.
  induction tries as [|t tries IH]; intros w w'; cbn [try_loop length]; [done |].
  unfold bind at 1.
  destruct (attempt quiet auth file_path no_verify asset t w) as [o w1] eqn:Hatt.
  destruct o as [[v|] | e |]; [| | done..].
  - intros [= -> <-].
    apply attempt_returned_false in Hatt
      as (url_v & r & Hurl & Hremote & Hreq & _ & Hfile & Hdecl).
    exists url_v, r, 0%nat. rewrite Nat.add_0_r.
    split; [done |]. split; [lia |]. done.
  - apply attempt_outcome in Hatt as (url_v & r0 & Hurl & Hremote0 & ->).
    intros (url_v' & r & n & Hurl' & Hn & Hremote & Hreq & Hfile & Hdecl)%IH.
    rewrite Hurl in Hurl'. injection Hurl' as <-.
    rewrite (requests_of_failed auth file_path url_v) in Hreq, Hremote.
    exists url_v, r, (S n). split; [done |]. split; [lia |].
    split; [| split; [by rewrite Hreq, <- app_assoc | done]].
    rewrite <- Hremote. cbn [remote log downloaded set_fs]. f_equal.
    rewrite length_app. cbn. lia.
Qed.

(** What the loop can return: [False], the error of line 145, or the error
    of line 133; the two errors are true for [if error:]. *)
Lemma try_loop_returns tries : forall w v w',
  try_loop quiet auth file_path no_verify asset tries w = (Ret v, w') ->
  v = PyBool false \/ (exists msg, v = PyStr msg /\ Py.truthy v = true).
Proof.
  induction tries as [|t tries IH]; intros w v w'; cbn [try_loop].
  - intros [= <- <-]. right. by eexists.
  - unfold bind at 1.
    destruct (attempt quiet auth file_path no_verify asset t w) as [o w1] eqn:Hatt.
    apply attempt_outcome in Hatt.
    destruct o as [[v1|] | e |]; [| by apply IH | done..].
    intros [= <- <-]. destruct Hatt as [-> | [e ->]]; [by left |].
    right. by eexists.
Qed.

End LoopReturns.

(** The file is there after a [False]. *)
Lemma returned_false_in_place quiet auth file_path no_verify asset w w' :
  download_single_asset quiet auth file_path no_verify asset w = (Ret (PyBool false), w') ->
  exists data, fs w' !! file_path = Some (File data).
Proof.
  unfold download_single_asset, bind at 1.
  destruct (os.makedirs (posixpath.dirname file_path) w) as [[[]| e |] w0]; [| done..].
  intros (url_v & r & n & _ & _ & _ & _ & Hfile & _)%try_loop_returned_false.
  by eexists.
Qed.

(** X2.  [False] from [download_single_asset] means the asset is in place:
    whenever the function returns [False], the file holds the body of one of
    the at most ten responses the function got for the download URL, the one
    to its last request; and, unless verification is off, the descriptor's
    [checksum.sha1] is the str that is the SHA-1 hex digest of that body. *)
Theorem returned_false_means_verified
    (quiet : bool) (auth : credentials) (file_path : string) (no_verify : bool)
    (asset : pyobj) (w w' : world) :
  download_single_asset quiet auth file_path no_verify asset w = (Ret (PyBool false), w') ->
  exists url_v r n,
    Py.getitem asset "downloadUrl" = Ret url_v
    /\ (n < 10)%nat
    /\ remote w (length (requests_of w) + n) auth (Py.str url_v) = Response r
    /\ requests_of w' = requests_of w ++ replicate (S n) (Py.str url_v)
    /\ fs w' !! file_path = Some (File (content r))
    /\ (no_verify = false -> declares asset (content r)).
Proof.
  unfold download_single_asset, bind at 1.
  destruct (os.makedirs (posixpath.dirname file_path) w) as [[[]| e |] w0] eqn:Hmk;
    [| done..].
  destruct (makedirs_world _ _ _ _ Hmk) as (Hreq0 & Hrem0 & _).
  intros (url_v & r & n & Hurl & Hn & Hremote & Hreq & Hfile & Hdecl)%try_loop_returned_false.
  exists url_v, r, n. rewrite <- Hrem0, <- Hreq0. done.
Qed.

Lemma returned_false_means_verified_witness :
  let run := download_single_asset true None "out/com/example/lib-1.0.jar" false
               (Sample.asset Sample.sha1_abc)
               (Sample.fresh (Sample.serving Scenes.third_time)) in
  exists r,
    fs (snd run) !! "out/com/example/lib-1.0.jar" = Some (File (content r))
    /\ declares (Sample.asset Sample.sha1_abc) (content r).
Proof.
  destruct (returned_false_means_verified true None "out/com/example/lib-1.0.jar" false
              (Sample.asset Sample.sha1_abc)
              (Sample.fresh (Sample.serving Scenes.third_time))
              (snd (download_single_asset true None "out/com/example/lib-1.0.jar" false
                      (Sample.asset Sample.sha1_abc)
                      (Sample.fresh (Sample.serving Scenes.third_time)))))
    as (url_v & r & n & _ & _ & _ & _ & Hfile & Hdecl); [vm_compute; reflexivity |].
  exists r. split; [exact Hfile | by apply Hdecl].
Defined.

(** ** Downloads that end on their first request (lines 127-137) *)

Lemma makedirs_trace name w r w0 :
  os.makedirs name w = (r, w0) ->
  trace w0 = trace w ++ [Makedirs name]
  /\ remote w0 = remote w /\ requests_of w0 = requests_of w.
Proof.
  intros Hmk. destruct (makedirs_world _ _ _ _ Hmk) as (Hreq & Hrem & _).
  split; [| done]. revert Hmk. unfold os.makedirs.
  destruct (os.makedirs_rec _ _ _) as [r' f']. by intros [= <- <-].
Qed.

(** X3.  With verification off one request settles the asset: whatever the
    descriptor says about a checksum (it may say nothing), once the
    directory is made [download_single_asset] sends one GET, writes the body
    to the file, prints the notice [(not verified!)] unless quiet, and returns
    [False]; the file is not read back. *)
Theorem unverified_download_takes_any_body
    (quiet : bool) (auth : credentials) (file_path : string) (asset url_v : pyobj)
    (r : response) (w w0 : world) :
  Py.getitem asset "downloadUrl" = Ret url_v ->
  os.makedirs (posixpath.dirname file_path) w = (Ret tt, w0) ->
  writable (fs w0) file_path = true ->
  remote w (length (requests_of w)) auth (Py.str url_v) = Response r ->
  exists w',
    download_single_asset quiet auth file_path true asset w = (Ret (PyBool false), w')
    /\ trace w'
       = trace w
         ++ [Makedirs (posixpath.dirname file_path); GET auth (Py.str url_v);
             OpenWrite file_path]
         ++ (if quiet then []
             else [Stdout ("Downloaded '" +:+ file_path +:+ "' (not verified!)")])
    /\ fs w' = <[file_path := File (content r)]> (fs w0).
Proof.
  intros Hurl Hmk Hw Hremote.
  destruct (makedirs_trace _ _ _ _ Hmk) as (Htr & Hrem & Hreq).
  rewrite <- Hrem, <- Hreq in Hremote.
  unfold download_single_asset, bind at 1. rewrite Hmk, range_1_11.
  cbn [try_loop]. unfold bind at 1, attempt, bind at 1, try_except_IOError.
  rewrite Hurl. unfold bind at 1. cbn [lift].
  unfold bind at 1, requests_get. rewrite Hremote.
  unfold bind at 1. rewrite write_file_ok by exact Hw.
  destruct quiet; (eexists; split; [reflexivity |]); cbn; by rewrite Htr, <- !app_assoc.
Qed.

Lemma unverified_download_takes_any_body_witness :
  exists w',
    download_single_asset true None "out/com/example/lib-1.0.jar" true
      (Sample.asset Sample.sha1_abc) (Sample.fresh (Sample.serving Sample.corrupt))
    = (Ret (PyBool false), w')
    /\ fs w' !! "out/com/example/lib-1.0.jar" = Some (File (list_byte_of_string "abd")).
Proof.
  destruct (unverified_download_takes_any_body true None "out/com/example/lib-1.0.jar"
              (Sample.asset Sample.sha1_abc) (PyStr Sample.jar_url)
              (mkResponse (list_byte_of_string "abd") (inl JSONDecodeError))
              (Sample.fresh (Sample.serving Sample.corrupt))
              (snd (os.makedirs "out/com/example"
                      (Sample.fresh (Sample.serving Sample.corrupt)))))
    as (w' & Hrun & _ & Hfs);
    [reflexivity | vm_compute; reflexivity | vm_compute; reflexivity | reflexivity |].
  exists w'. split; [exact Hrun |]. rewrite Hfs. apply lookup_insert_eq.
Defined.

(** X4.  A request that fails is not repeated: when [requests.get] raises on
    the first attempt, [download_single_asset] returns the str
    [IO error: ] followed by the error's text, for the caller to report; it
    has sent that one request, opened no file, and left the file system as
    [os.makedirs] left it. *)
Theorem failed_request_is_not_retried
    (quiet : bool) (auth : credentials) (file_path : string) (no_verify : bool)
    (asset url_v : pyobj) (msg : string) (w w0 : world) :
  Py.getitem asset "downloadUrl" = Ret url_v ->
  os.makedirs (posixpath.dirname file_path) w = (Ret tt, w0) ->
  remote w (length (requests_of w)) auth (Py.str url_v) = ConnectionError msg ->
  exists w',
    download_single_asset quiet auth file_path no_verify asset w
    = (Ret (PyStr ("IO error: " +:+ msg)), w')
    /\ trace w'
       = trace w ++ [Makedirs (posixpath.dirname file_path); GET auth (Py.str url_v)]
    /\ fs w' = fs w0.
Proof.
  intros Hurl Hmk Hremote.
  destruct (makedirs_trace _ _ _ _ Hmk) as (Htr & Hrem & Hreq).
  rewrite <- Hrem, <- Hreq in Hremote.
  unfold download_single_asset, bind at 1. rewrite Hmk, range_1_11.
  cbn [try_loop]. unfold bind at 1, attempt, bind at 1, try_except_IOError.
  rewrite Hurl. unfold bind at 1. cbn [lift].
  unfold bind at 1, requests_get. rewrite Hremote.
  eexists; split; [reflexivity |]. cbn. by rewrite Htr, <- !app_assoc.
Qed.

Lemma failed_request_is_not_retried_witness :
  fst (download_single_asset true None "out/com/example/lib-1.0.jar" false
         (Sample.asset Sample.sha1_abc) (Sample.fresh Scenes.unreachable))
  = Ret (PyStr "IO error: Connection refused").
Proof.
  destruct (failed_request_is_not_retried true None "out/com/example/lib-1.0.jar" false
              (Sample.asset Sample.sha1_abc) (PyStr Sample.jar_url) "Connection refused"
              (Sample.fresh Scenes.unreachable)
              (snd (os.makedirs "out/com/example" (Sample.fresh Scenes.unreachable))))
    as (w' & Hrun & _); [reflexivity | vm_compute; reflexivity | reflexivity |].
  by rewrite Hrun.
Defined.

(** X5.  A file that cannot be opened for writing is not retried either: the
    body arrives, [open] raises, and [download_single_asset] returns
    [IO error: ] followed by the text of the [OSError], after one request
    and with the file system as [os.makedirs] left it. *)
Theorem unwritable_file_is_not_retried
    (quiet : bool) (auth : credentials) (file_path : string) (no_verify : bool)
    (asset url_v : pyobj) (r : response) (w w0 : world) :
  Py.getitem asset "downloadUrl" = Ret url_v ->
  os.makedirs (posixpath.dirname file_path) w = (Ret tt, w0) ->
  writable (fs w0) file_path = false ->
  remote w (length (requests_of w)) auth (Py.str url_v) = Response r ->
  exists code msg w',
    os_error code file_path = OSError (Some code) msg
    /\ download_single_asset quiet auth file_path no_verify asset w
       = (Ret (PyStr ("IO error: " +:+ msg)), w')
    /\ trace w'
       = trace w ++ [Makedirs (posixpath.dirname file_path); GET auth (Py.str url_v);
                     OpenWrite file_path]
    /\ fs w' = fs w0.
Proof.
  intros Hurl Hmk Hw Hremote.
  destruct (makedirs_trace _ _ _ _ Hmk) as (Htr & Hrem & Hreq).
  rewrite <- Hrem, <- Hreq in Hremote.
  destruct (write_file_cases file_path (content r) (log (GET auth (Py.str url_v)) w0))
    as [[Hw' _] | [code Hwrite]]; [cbn in Hw'; congruence |].
  exists code. eexists. eexists. split; [reflexivity |]. split.
  - unfold download_single_asset, bind at 1. rewrite Hmk, range_1_11.
    cbn [try_loop]. unfold bind at 1, attempt, bind at 1, try_except_IOError.
    rewrite Hurl. unfold bind at 1. cbn [lift].
    unfold bind at 1, requests_get. rewrite Hremote.
    unfold bind at 1. rewrite Hwrite. reflexivity.
  - cbn. by rewrite Htr, <- !app_assoc.
Qed.

Lemma unwritable_file_is_not_retried_witness :
  exists msg,
  fst (download_single_asset true None "out/com" false
         (Sample.asset Sample.sha1_abc) (Sample.mirrored (Sample.serving Sample.corrupt)))
  = Ret (PyStr ("IO error: " +:+ msg)).
Proof.
  destruct (unwritable_file_is_not_retried true None "out/com" false
              (Sample.asset Sample.sha1_abc) (PyStr Sample.jar_url)
              (mkResponse (list_byte_of_string "abd") (inl JSONDecodeError))
              (Sample.mirrored (Sample.serving Sample.corrupt))
              (snd (os.makedirs "out" (Sample.mirrored (Sample.serving Sample.corrupt)))))
    as (code & msg & w' & _ & Hrun & _);
    [reflexivity | vm_compute; reflexivity | vm_compute; reflexivity | reflexivity |].
  exists msg. by rewrite Hrun.
Defined.

(** ** Bounds on one download, whatever the server answers *)

Section DownloadBounds.

Variables (quiet : bool) (auth : credentials) (file_path : string)
          (no_verify : bool) (asset : pyobj).

(** Events that are no requests leave the list of requests as it is. *)
Lemma advances_requests (P : event -> Prop) w w' :
  (forall e, P e -> get_url e = None) -> advances P w w' -> requests_of w' = requests_of w.
Proof.
  intros HP (new & Htr & Hall & _). unfold requests_of. rewrite Htr, omap_app.
  rewrite <- (app_nil_r (omap get_url (trace w))) at 2. f_equal.
  clear Htr. induction new as [|e new IH]; [done |].
  apply Forall_cons in Hall as [He Hall]. cbn. rewrite (HP e He). by apply IH.
Qed.

(** A turn of the loop sends one request, or none when the descriptor has no
    [downloadUrl]. *)
Lemma attempt_requests tryy w :
  exists n, (n <= 1)%nat
    /\ requests_of (snd (attempt quiet auth file_path no_verify asset tryy w))
       = requests_of w ++ replicate n (download_url asset).
Proof.
  set (silent := fun e => get_url e = None).
  unfold attempt.
  lazymatch goal with
  | |- context [snd (bind ?c ?k w)] => set (body := c); set (rest := k)
  end.
  assert (Hrest : forall failed w1, requests_of (snd (rest failed w1)) = requests_of w1).
  { intros failed w1. apply (advances_requests silent); [done |]. revert w1.
    change (keeps silent (rest failed)). subst rest. cbv beta.
    unfold tqdm_write, sha1. repeat keeps_step; done. }
  clearbody rest.
  assert (Hbody : exists n, (n <= 1)%nat
            /\ requests_of (snd (body w)) = requests_of w ++ replicate n (download_url asset)).
  { subst body. unfold try_except_IOError, bind at 1, download_url.
    destruct (Py.getitem asset "downloadUrl") as [url_v | e |] eqn:Hurl; cbn [lift].
    - exists 1%nat. split; [lia |]. unfold bind at 1, requests_get.
      destruct (remote w (length (requests_of w)) auth (Py.str url_v)) as [msg | r].
      + cbn [ret snd]. by rewrite requests_of_log.
      + unfold bind at 1.
        pose proof (advances_requests silent _ _ (fun e H => H)
                      (keeps_write_file silent file_path (content r) eq_refl
                         (log (GET auth (Py.str url_v)) w))) as Hwrite.
        rewrite requests_of_log in Hwrite.
        destruct (write_file file_path (content r) _) as [[[]| e |] w1];
          cbn [snd] in Hwrite; [| destruct e |]; cbn [ret snd]; done.
    - exists 0%nat. split; [lia |]. destruct e; cbn [ret snd]; by rewrite app_nil_r.
    - by apply getitem_returns_or_raises in Hurl. }
  clearbody body. destruct Hbody as (n & Hn & Hreq). exists n. split; [exact Hn |].
  unfold bind. destruct (body w) as [[failed | e |] w1]; cbn [snd] in *; [| done..].
  by rewrite Hrest.
Qed.

Lemma try_loop_requests tries : forall w,
  exists n, (n <= length tries)%nat
    /\ requests_of (snd (try_loop quiet auth file_path no_verify asset tries w))
       = requests_of w ++ replicate n (download_url asset).
Proof.
  induction tries as [|t tries IH]; intros w; cbn [try_loop length].
  - exists 0%nat. split; [lia |]. by rewrite app_nil_r.
  - unfold bind at 1. destruct (attempt_requests t w) as (n1 & Hn1 & Hreq1).
    destruct (attempt quiet auth file_path no_verify asset t w) as [[[v|] | e |] w1];
      cbn [snd ret] in *; try (exists n1; split; [lia | done]).
    destruct (IH w1) as (n & Hn & Hreq). exists (n1 + n)%nat. split; [lia |].
    by rewrite Hreq, Hreq1, <- app_assoc, replicate_add.
Qed.

End DownloadBounds.

(** X6.  No asset costs more than ten requests: whatever the server answers
    and whatever the outcome, a call of [download_single_asset] adds at most
    ten requests to those sent so far, all of them for the descriptor's
    [downloadUrl]. *)
Theorem download_sends_at_most_ten_requests
    (quiet : bool) (auth : credentials) (file_path : string) (no_verify : bool)
    (asset : pyobj) (w : world) :
  exists n,
    (n <= 10)%nat
    /\ requests_of (snd (download_single_asset quiet auth file_path no_verify asset w))
       = requests_of w ++ replicate n (download_url asset).
Proof.
  unfold download_single_asset, bind at 1.
  destruct (os.makedirs (posixpath.dirname file_path) w) as [r w0] eqn:Hmk.
  destruct (makedirs_world _ _ _ _ Hmk) as (Hreq0 & _).
  destruct r as [[]| e |]; cbn [snd];
    [| exists 0%nat; split; [lia | by rewrite app_nil_r]..].
  destruct (try_loop_requests quiet auth file_path no_verify asset (Py.range 1 11) w0)
    as (n & Hn & Hreq).
  exists n. split; [exact Hn |]. by rewrite Hreq, Hreq0.
Qed.

(** X7.  One download touches one file.  Whatever the server answers and
    whatever the outcome, [download_single_asset] sends its requests with
    the credentials it was given and for the descriptor's [downloadUrl],
    makes no directory but [dirname(file_path)] (and what leads to it), opens
    no file but [file_path], and asks for no password; every other file
    keeps its content, and every entry of the file system stays, a directory
    as a directory and a file as a file. *)
Theorem download_touches_one_file
    (quiet : bool) (auth : credentials) (file_path : string) (no_verify : bool)
    (asset : pyobj) (w : world) :
  let w' := snd (download_single_asset quiet auth file_path no_verify asset w) in
  (exists new, trace w' = trace w ++ new
               /\ Forall (download_event auth file_path asset) new)
  /\ (forall name data,
        name <> file_path -> fs w !! name = Some (File data) ->
        fs w' !! name = Some (File data))
  /\ fs_grows (fs w) (fs w').
Proof.
  destruct (keeps_download_single_asset (download_event auth file_path asset)
              (fun _ => I) quiet auth file_path no_verify asset
              (conj eq_refl eq_refl) eq_refl eq_refl eq_refl w)
    as (new & Htr & Hall & (_ & Hfile & Hgrow) & _).
  split; [by exists new |]. split; [| exact Hgrow].
  intros name data Hne Hname. apply Hfile; [exact Hname |].
  intros Hin. rewrite Forall_forall in Hall. by apply Hall in Hin.
Qed.

(** X8.  Listing reads, it does not write: whatever the server answers and
    whatever the outcome (the listing, an abort, an uncaught error),
    [fetch_asset_listing] leaves the file system as it found it, and all it
    does is send requests with the credentials it was given and print. *)
Theorem listing_leaves_files
    (fuel : nat) (quiet : bool) (auth : credentials) (server_url repo_name : string)
    (w : world) :
  let w' := snd (fetch_asset_listing fuel quiet auth server_url repo_name w) in
  fs w' = fs w
  /\ exists new, trace w' = trace w ++ new /\ Forall (listing_event auth) new.
Proof.
  destruct (keeps_fetch_asset_listing (listing_event auth) (fun _ => I) fuel quiet auth
              server_url repo_name (fun _ => eq_refl) w)
    as (new & Htr & Hall & (Hsame & _) & _).
  split; [| by exists new]. apply Hsame.
  eapply Forall_impl; [exact Hall |]. by intros [].
Qed.

(** X9.  One identity per run.  Every request of a run of [main], for the
    listing and for the assets alike, carries the credentials line 55
    computes from the arguments and the environment the run started in: none
    without a user name; and the run asks for a password only when a user
    name is given and [NEXUS_PASSWORD] is unset or empty. *)
Theorem run_sends_one_identity (fuel : nat) (a : args) (w : world) :
  exists new,
    trace (snd (main fuel a w)) = trace w ++ new
    /\ (forall auth url, GET auth url ∈ new -> auth = credentials_of a w)
    /\ (Getpass ∈ new -> falsy (username a) = false /\ falsy (NEXUS_PASSWORD w) = true).
Proof.
  destruct (main_advances fuel a w) as (new & Htr & Hall & _).
  rewrite Forall_forall in Hall.
  exists new. split; [exact Htr |].
  split; [intros auth url Hin | intros Hin]; by apply Hall in Hin.
Qed.

(** X10.  A run never drops the output directory from a name.  Every file
    a run of [main] opens, for writing or for reading back, has a name that
    starts with the output directory's name: the leading separators of a
    descriptor's path are stripped (line 110), so the join of line 111 keeps
    the directory in front, whatever the server lists.  This is a fact about
    the names the script forms, not about where they lead: a path with [..]
    in it still names a file outside the directory.  And every entry of the
    file system stays, a directory as a directory and a file as a file,
    whatever the server answers and whatever the outcome. *)
Theorem run_opens_names_under_output_dir (fuel : nat) (a : args) (w : world) :
  let w' := snd (main fuel a w) in
  (exists new, trace w' = trace w ++ new
     /\ forall name, OpenWrite name ∈ new \/ OpenRead name ∈ new ->
                     Str.startswith (resolve_output_dir a) name = true)
  /\ fs_grows (fs w) (fs w').
Proof.
  destruct (main_advances fuel a w) as (new & Htr & Hall & (_ & _ & Hgrow) & _).
  rewrite Forall_forall in Hall.
  split; [| exact Hgrow].
  exists new. split; [exact Htr |]. intros name [Hin | Hin]; by apply Hall in Hin.
Qed.

(** ** The loop over the assets (lines 107-120) *)

Lemma already_downloaded_world mirror file_path asset w :
  snd (already_downloaded mirror file_path asset w) = w.
Proof.
  unfold already_downloaded. destruct mirror; [| done].
  unfold bind at 1, isfile. destruct (os.isfile (fs w) file_path); [| done].
  unfold bind at 1, st_size.
  destruct (os.lookup (fs w) file_path) as [[]|]; [| | done];
    unfold bind, lift; by destruct (Py.getitem asset "fileSize").
Qed.

(** The step of the loop for an asset that is not skipped. *)
Lemma download_assets_step quiet auth output_dir no_verify mirror asset rest path w :
  Py.getitem asset "path" = Ret (PyStr path) ->
  let file_path := posixpath.join output_dir (Str.lstrip "/" path) in
  fst (already_downloaded mirror file_path asset w) = Ret false ->
  download_assets quiet auth output_dir no_verify (asset :: rest) mirror w
  = (let* error := download_single_asset quiet auth file_path no_verify asset in
     if Py.truthy error then
       print ("Failed downloading '" +:+ file_path +:+ "' due to the following error:") >>
       print (Py.str error) >>
       abort 4
     else download_assets quiet auth output_dir no_verify rest mirror) w.
Proof.
  intros Hpath file_path Hskip. cbn [download_assets]. rewrite Hpath.
  rewrite bind_lift_ret. cbn [method_lstrip]. rewrite bind_lift_ret.
  fold file_path. unfold bind at 1.
  pose proof (already_downloaded_world mirror file_path asset w) as Hw.
  destruct (already_downloaded mirror file_path asset w) as [o w1].
  cbn [fst snd] in *. by subst.
Qed.

(** X11.  The first failed download ends the run.  When an asset is not
    skipped and [download_single_asset] returns an error for it (a str: the
    IO error, or the repeated verification failure), [download_assets]
    prints the file, the error and the abort notice, and exits with status
    4; nothing is done for the assets after it. *)
Theorem failed_download_ends_run
    (quiet : bool) (auth : credentials) (output_dir : string) (no_verify mirror : bool)
    (asset : pyobj) (rest : list pyobj) (path msg : string) (w w1 : world) :
  Py.getitem asset "path" = Ret (PyStr path) ->
  let file_path := posixpath.join output_dir (Str.lstrip "/" path) in
  fst (already_downloaded mirror file_path asset w) = Ret false ->
  download_single_asset quiet auth file_path no_verify asset w = (Ret (PyStr msg), w1) ->
  let run := download_assets quiet auth output_dir no_verify (asset :: rest) mirror w in
  run = (Exc (SystemExit 4),
         log (Stdout "Aborting script!")
           (log (Stdout msg)
              (log (Stdout ("Failed downloading '" +:+ file_path
                            +:+ "' due to the following error:")) w1)))
  /\ exit_status (fst run) = Some 4.
Proof.
  intros Hpath file_path Hskip Hdl run.
  assert (Htrue : Py.truthy (PyStr msg) = true).
  { revert Hdl. unfold download_single_asset, bind at 1.
    destruct (os.makedirs (posixpath.dirname file_path) w) as [[[]| e |] w0]; [| done..].
    intros [Hfalse | (msg' & _ & Htrue)]%try_loop_returns; done. }
  assert (Hrun : run = (Exc (SystemExit 4),
            log (Stdout "Aborting script!")
              (log (Stdout msg)
                 (log (Stdout ("Failed downloading '" +:+ file_path
                               +:+ "' due to the following error:")) w1)))).
  { subst run. rewrite (download_assets_step _ _ _ _ _ _ _ path) by done.
    fold file_path. unfold bind at 1. rewrite Hdl, Htrue. reflexivity. }
  by rewrite Hrun.
Qed.

Lemma failed_download_ends_run_witness :
  exit_status
    (fst (download_assets true None "out" false
            [Sample.asset Sample.sha1_abc; Sample.asset Sample.sha1_abc] false
            (Sample.fresh (Sample.serving Sample.corrupt))))
  = Some 4
  /\ length (requests_of
               (snd (download_assets true None "out" false
                       [Sample.asset Sample.sha1_abc; Sample.asset Sample.sha1_abc] false
                       (Sample.fresh (Sample.serving Sample.corrupt))))) = 10%nat.
Proof.
  destruct (failed_download_ends_run true None "out" false false
              (Sample.asset Sample.sha1_abc) [Sample.asset Sample.sha1_abc]
              "/com/example/lib-1.0.jar" "Repeated SHA-1 verification failure"
              (Sample.fresh (Sample.serving Sample.corrupt))
              (snd (download_single_asset true None "out/com/example/lib-1.0.jar" false
                      (Sample.asset Sample.sha1_abc)
                      (Sample.fresh (Sample.serving Sample.corrupt)))))
    as [Hrun Hexit]; [reflexivity | reflexivity | vm_compute; reflexivity |].
  split; [exact Hexit |]. rewrite Hrun. vm_compute. reflexivity.
Defined.

(** X12.  An asset whose descriptor has no str under [path] stops the run
    before anything is done for it: the [KeyError], [TypeError] or
    [AttributeError] of line 110 goes up uncaught, exit status 1, and the
    world is as it was. *)
Theorem asset_without_path_stops_run
    (quiet : bool) (auth : credentials) (output_dir : string) (no_verify mirror : bool)
    (asset : pyobj) (rest : list pyobj) (w : world) :
  (forall path, Py.getitem asset "path" <> Ret (PyStr path)) ->
  exists e,
    download_assets quiet auth output_dir no_verify (asset :: rest) mirror w = (Exc e, w)
    /\ (e = KeyError "path" \/ e = TypeError \/ e = AttributeError)
    /\ exit_status (fst (download_assets quiet auth output_dir no_verify (asset :: rest)
                           mirror w)) = Some 1.
Proof.
  intros Hpath. cbn [download_assets].
  destruct (Py.getitem asset "path") as [v | e |] eqn:Hget.
  - rewrite bind_lift_ret. destruct v; try (by exists AttributeError; auto).
    by destruct (Hpath s).
  - exists e. unfold bind, lift. cbn.
    destruct asset as [| | | | |m]; cbn in Hget; try (injection Hget as <-; auto).
    destruct (Py.dict_get m "path"); [done |]. injection Hget as <-. auto.
  - by apply getitem_returns_or_raises in Hget.
Qed.

Lemma asset_without_path_stops_run_witness :
  download_assets false None "out" false [PyDict [("downloadUrl", PyStr Sample.jar_url)]]
    false (Sample.fresh (Sample.serving Sample.corrupt))
  = (Exc (KeyError "path"), Sample.fresh (Sample.serving Sample.corrupt)).
Proof.
  destruct (asset_without_path_stops_run false None "out" false false
              (PyDict [("downloadUrl", PyStr Sample.jar_url)]) []
              (Sample.fresh (Sample.serving Sample.corrupt)))
    as (e & Hrun & _); [done |].
  rewrite Hrun. vm_compute in Hrun. by injection Hrun as <-.
Defined.

(** X13.  In mirror mode a file of another size than the descriptor gives is
    downloaded again and replaced.  When the local file exists with a
    length that is not the descriptor's [fileSize], and the server answers
    with a body that hashes to the descriptor's SHA-1, the loop sends one
    request, leaves the file holding exactly that body (nothing of the old
    content), and goes on with the next asset. *)
Theorem stale_file_is_replaced
    (quiet : bool) (auth : credentials) (output_dir : string)
    (asset : pyobj) (rest : list pyobj) (path : string) (data : list byte)
    (size url_v checksum expected : pyobj) (r : response) (w w0 : world) :
  Py.getitem asset "path" = Ret (PyStr path) ->
  let file_path := posixpath.join output_dir (Str.lstrip "/" path) in
  os.lookup (fs w) file_path = Some (File data) ->
  Py.getitem asset "fileSize" = Ret size ->
  Py.eq_int size (Z.of_nat (length data)) = false ->
  Py.getitem asset "downloadUrl" = Ret url_v ->
  Py.getitem asset "checksum" = Ret checksum ->
  Py.getitem checksum "sha1" = Ret expected ->
  os.makedirs (posixpath.dirname file_path) w = (Ret tt, w0) ->
  writable (fs w0) file_path = true ->
  remote w (length (requests_of w)) auth (Py.str url_v) = Response r ->
  Py.eq_str expected (hashlib.sha1_hexdigest (content r)) = true ->
  exists w',
    download_assets quiet auth output_dir false (asset :: rest) true w
    = download_assets quiet auth output_dir false rest true w'
    /\ fs w' = <[file_path := File (content r)]> (fs w0)
    /\ requests_of w' = requests_of w ++ [Py.str url_v].
Proof.
  intros Hpath file_path Hfile Hsize Hne Hurl Hck Hsha Hmk Hw Hremote Hmatch.
  destruct (makedirs_trace _ _ _ _ Hmk) as (_ & Hrem & Hreq).
  rewrite (download_assets_step _ _ _ _ _ _ _ path); [| done |].
  2:{ unfold already_downloaded, bind at 1, isfile, os.isfile. fold file_path.
      rewrite Hfile. unfold bind at 1, st_size. rewrite Hfile, Hsize.
      cbn. by rewrite Hne. }
  fold file_path. unfold bind at 1, download_single_asset, bind at 1.
  rewrite Hmk, range_1_11.
  change [1; 2; 3; 4; 5; 6; 7; 8; 9; 10] with ([] ++ 1 :: [2; 3; 4; 5; 6; 7; 8; 9; 10]).
  rewrite (try_loop_match quiet auth file_path asset url_v checksum expected Hurl Hck Hsha
             (fun _ => r) [] 1 _ 0%nat w0).
  - cbn zeta. cbn [after_mismatches Py.truthy]. eexists. split; [reflexivity |].
    destruct quiet; cbn; unfold requests_of in *; cbn; rewrite !omap_app; cbn;
      rewrite ?app_nil_r, Hreq; done.
  - intros j Hj. cbn in Hj. replace j with 0%nat by lia.
    by rewrite Hrem, Hreq, Nat.add_0_r.
  - cbn. intros; lia.
  - exact Hmatch.
  - exact Hw.
Qed.

Lemma stale_file_is_replaced_witness :
  fs (snd (download_assets true None "out" false [Sample.asset Sample.sha1_abc] true
             (Scenes.stale Scenes.sound)))
  !! "out/com/example/lib-1.0.jar"
  = Some (File Sample.abc).
Proof.
  destruct (stale_file_is_replaced true None "out" (Sample.asset Sample.sha1_abc) []
              "/com/example/lib-1.0.jar" (list_byte_of_string "ab") (PyInt 3)
              (PyStr Sample.jar_url) (PyDict [("sha1", PyStr Sample.sha1_abc)])
              (PyStr Sample.sha1_abc) (mkResponse Sample.abc (inl JSONDecodeError))
              (Scenes.stale Scenes.sound)
              (snd (os.makedirs "out/com/example" (Scenes.stale Scenes.sound))))
    as (w' & Hrun & Hfs & _);
    [reflexivity | vm_compute; reflexivity | reflexivity | reflexivity | reflexivity
     | reflexivity | reflexivity | vm_compute; reflexivity | vm_compute; reflexivity
     | reflexivity | vm_compute; reflexivity |].
  rewrite Hrun. cbn [download_assets ret snd]. rewrite Hfs. apply lookup_insert_eq.
Defined.

(** ** The listing loop on a listing that does not end well (lines 81-92) *)

Section ListingPrefix.

Variables (auth : credentials) (server_url repo_name asset_api_url : string).

Lemma remote_after_requests urls : forall w,
  remote (after_requests auth urls w) = remote w.
Proof.
  induction urls as [|u urls IH]; intros w; [done |].
  cbn. unfold after_requests in IH. by rewrite IH.
Qed.

Lemma length_listing_urls ps : forall token,
  length (listing_urls asset_api_url token ps) = length ps.
Proof. induction ps as [|p ps IH]; intros token; cbn; [done | by rewrite IH]. Qed.

(** Pages whose tokens are all true are walked one after the other, and the
    loop goes on after them. *)
Lemma fetch_loop_prefix ps : forall fuel token listing w,
  Py.truthy token = true ->
  forallb (fun p => Py.truthy (page_token p)) ps = true ->
  listing_served (remote w) auth asset_api_url (length (requests_of w)) token ps ->
  fetch_loop (length ps + fuel) auth server_url repo_name asset_api_url token listing w
  = fetch_loop fuel auth server_url repo_name asset_api_url (token_after token ps)
      (listing ++ concat (page_items <$> ps))
      (after_requests auth (listing_urls asset_api_url token ps) w).
Proof.
  induction ps as [|p ps IH]; intros fuel token listing w Htok Hall Hserved.
  - cbn. by rewrite app_nil_r.
  - cbn [forallb] in Hall. apply andb_prop in Hall as [Hp Hall].
    destruct Hserved as [Hserves Hserved]. cbn [length Nat.add].
    rewrite (fetch_loop_page auth server_url repo_name asset_api_url _ token listing w p)
      by done.
    rewrite IH; [| done | done |].
    + cbn [fmap list_fmap concat]. by rewrite app_assoc.
    + rewrite requests_of_log, length_app. cbn [get_url from_option length].
      replace (length (requests_of w) + 1)%nat with (S (length (requests_of w))) by lia.
      exact Hserved.
Qed.

Lemma token_after_truthy ps : forall token,
  Py.truthy token = true ->
  forallb (fun p => Py.truthy (page_token p)) ps = true ->
  Py.truthy (token_after token ps) = true.
Proof.
  induction ps as [|p ps IH]; intros token Htok Hall; [done |].
  cbn [forallb] in Hall. apply andb_prop in Hall as [Hp Hall]. by apply IH.
Qed.

End ListingPrefix.

(** X14.  A failed listing request ends the run with status 2, at any page.
    When the server has returned pages whose tokens are all true and the
    next request fails, [fetch_asset_listing] prints [IO error: ] with the
    error's text and the abort notice and exits with status 2: the request
    is not repeated, and the items of the pages read so far go nowhere. *)
Theorem failed_listing_request_aborts
    (fuel : nat) (quiet : bool) (auth : credentials)
    (server_url repo_name asset_api_url : string) (ps : list page) (msg : string)
    (w : world) :
  urllib.urljoin server_url ("service/rest/v1/assets?repository=" +:+ repo_name)
  = Ret asset_api_url ->
  forallb (fun p => Py.truthy (page_token p)) ps = true ->
  listing_served (remote w) auth asset_api_url (length (requests_of w)) (PyInt (-1)) ps ->
  let url := query_url asset_api_url (token_after (PyInt (-1)) ps) in
  remote w (length (requests_of w) + length ps) auth url = ConnectionError msg ->
  (length ps < fuel)%nat ->
  let run := fetch_asset_listing fuel quiet auth server_url repo_name w in
  run = (Exc (SystemExit 2),
         log (Stdout "Aborting script!")
           (log (Stdout ("IO error: " +:+ msg))
              (log (GET auth url)
                 (after_requests auth (listing_urls asset_api_url (PyInt (-1)) ps) w))))
  /\ exit_status (fst run) = Some 2
  /\ requests_of (snd run)
     = requests_of w ++ listing_urls asset_api_url (PyInt (-1)) ps ++ [url].
Proof.
  intros Hjoin Hall Hserved url Hremote Hfuel run.
  assert (Hrun : run = (Exc (SystemExit 2),
            log (Stdout "Aborting script!")
              (log (Stdout ("IO error: " +:+ msg))
                 (log (GET auth url)
                    (after_requests auth (listing_urls asset_api_url (PyInt (-1)) ps) w))))).
  { subst run. unfold fetch_asset_listing. rewrite Hjoin, bind_lift_ret.
    replace fuel with (length ps + S (fuel - S (length ps)))%nat by lia.
    rewrite fetch_loop_prefix by done.
    cbn [fetch_loop]. rewrite token_after_truthy by done. cbn [negb].
    unfold bind at 1, try_except_JSONDecodeError, try_except_IOError, bind at 1,
      requests_get.
    rewrite remote_after_requests, requests_of_after_requests, length_app,
      length_listing_urls.
    fold url. rewrite Hremote. reflexivity. }
  rewrite Hrun. split; [done |]. split; [done |].
  cbn [snd]. rewrite !requests_of_log, requests_of_after_requests. cbn.
  by rewrite !app_nil_r, <- app_assoc.
Qed.

Lemma failed_listing_request_aborts_witness :
  let run := fetch_asset_listing 5 false None "http://host" "maven-releases"
               (Sample.fresh Scenes.broken_after_one) in
  exit_status (fst run) = Some 2 /\ length (requests_of (snd run)) = 2%nat.
Proof.
  destruct (failed_listing_request_aborts 5 false None "http://host" "maven-releases"
              "http://host/service/rest/v1/assets?repository=maven-releases"
              [Sample.page1] "Connection reset by peer"
              (Sample.fresh Scenes.broken_after_one))
    as (_ & Hexit & Hreq);
    [vm_compute; reflexivity | reflexivity
     | split; [| exact I]; eexists _, _; repeat split; reflexivity
     | reflexivity | cbn; lia |].
  cbn zeta. split; [exact Hexit |]. by rewrite Hreq.
Defined.

(** X15.  The listing loop has no bound of its own.  As long as the server
    answers every request with a page whose token is true, the loop goes on:
    after any number [fuel] of requests it has neither returned nor raised,
    and it has sent exactly [fuel] requests. *)
Theorem listing_has_no_page_limit
    (fuel : nat) (quiet : bool) (auth : credentials)
    (server_url repo_name asset_api_url : string) (w : world) :
  urllib.urljoin server_url ("service/rest/v1/assets?repository=" +:+ repo_name)
  = Ret asset_api_url ->
  (forall n token,
      exists p, serves (remote w) n auth (query_url asset_api_url token) p
                /\ Py.truthy (page_token p) = true) ->
  let run := fetch_asset_listing fuel quiet auth server_url repo_name w in
  fst run = OutOfFuel
  /\ length (requests_of (snd run)) = (length (requests_of w) + fuel)%nat.
Proof.
  intros Hjoin Hserved run. subst run.
  unfold fetch_asset_listing. rewrite Hjoin, bind_lift_ret.
  assert (Hloop : forall fuel token listing w',
    remote w' = remote w -> Py.truthy token = true ->
    let run := fetch_loop fuel auth server_url repo_name asset_api_url token listing w' in
    fst run = OutOfFuel
    /\ length (requests_of (snd run)) = (length (requests_of w') + fuel)%nat).
  { clear fuel. induction fuel as [|fuel IH]; intros token listing w' Hrem Htok.
    - cbn. rewrite Htok. cbn. split; [done | lia].
    - destruct (Hserved (length (requests_of w')) token) as (p & Hp & Hptok).
      rewrite <- Hrem in Hp. cbn zeta.
      rewrite (fetch_loop_page auth server_url repo_name asset_api_url fuel token
                 listing w' p) by done.
      destruct (IH (page_token p) (listing ++ page_items p)
                  (log (GET auth (query_url asset_api_url token)) w')) as [Hout Hlen];
        [done | done |].
      split; [exact Hout |]. rewrite Hlen, requests_of_log, length_app. cbn. lia. }
  by apply Hloop.
Qed.

Lemma listing_has_no_page_limit_witness :
  fst (fetch_asset_listing 7 false None "http://host" "maven-releases"
         (Sample.fresh Scenes.endless))
  = OutOfFuel.
Proof.
  apply (listing_has_no_page_limit 7 false None "http://host" "maven-releases"
           "http://host/service/rest/v1/assets?repository=maven-releases"
           (Sample.fresh Scenes.endless)).
  - vm_compute; reflexivity.
  - intros n token. exists Sample.page1.
    split; [eexists _, _; repeat split; reflexivity | reflexivity].
Defined.

(** ** A directory that cannot be made (line 124) *)

(** What [os.makedirs] raises is an [OSError]. *)
Lemma makedirs_rec_raises fuel : forall name f e f',
  os.makedirs_rec fuel name f = (Exc e, f') -> exists code msg, e = OSError code msg.
Proof.
  induction fuel as [|fuel IH]; intros name f e f'; [done |].
  cbn [os.makedirs_rec].
  assert (Hmake : forall f0,
    match os.mkdir f0 name with
    | inr f'' => (Ret tt, f'')
    | inl e => if os.isdir f0 name then (Ret tt, f0) else (Exc (os_error e name), f0)
    end = (Exc e, f') -> exists code msg, e = OSError code msg).
  { intros f0. destruct (os.mkdir f0 name); [| done].
    destruct (os.isdir f0 name); [done |]. intros [= <- <-]. by eexists _, _. }
  assert (Hrec : forall head tail,
    match os.makedirs_rec fuel head f with
    | (Ret _, f') | (Exc (OSError (Some EEXIST) _), f') =>
        if String.eqb tail "." then (Ret tt, f')
        else match os.mkdir f' name with
             | inr f'' => (Ret tt, f'')
             | inl e => if os.isdir f' name then (Ret tt, f')
                        else (Exc (os_error e name), f')
             end
    | r => r
    end = (Exc e, f') -> exists code msg, e = OSError code msg).
  { intros head tail. specialize (IH head f).
    destruct (os.makedirs_rec fuel head f) as [[[]| e0 |] f0].
    - destruct (String.eqb tail "."); [done | apply Hmake].
    - destruct e0 as [| | | |[[]|] msg| |];
        try (intros [= <- <-]; by eapply IH);
        (destruct (String.eqb tail "."); [done | apply Hmake]).
    - done. }
  destruct (posixpath.split name) as [head tail].
  destruct (String.eqb tail EmptyString).
  - destruct (posixpath.split head) as [head' tail'].
    destruct (negb (String.eqb head' EmptyString) && negb (String.eqb tail' EmptyString)
              && negb (os.exists_ f head')); [apply Hrec | apply Hmake].
  - destruct (negb (String.eqb head EmptyString) && negb (String.eqb tail EmptyString)
              && negb (os.exists_ f head)); [apply Hrec | apply Hmake].
Qed.

(** X16.  A directory that cannot be made is no download failure.  When
    [os.makedirs] raises for the directory of an asset that is not skipped,
    the [OSError] goes up through [download_single_asset] and
    [download_assets] uncaught: no request is sent for the asset, nothing is
    printed, the exit status is 1 and not the 4 of a failed download. *)
Theorem unmakeable_directory_is_uncaught
    (quiet : bool) (auth : credentials) (output_dir : string) (no_verify mirror : bool)
    (asset : pyobj) (rest : list pyobj) (path : string) (e : exn) (w w0 : world) :
  Py.getitem asset "path" = Ret (PyStr path) ->
  let file_path := posixpath.join output_dir (Str.lstrip "/" path) in
  fst (already_downloaded mirror file_path asset w) = Ret false ->
  os.makedirs (posixpath.dirname file_path) w = (Exc e, w0) ->
  let run := download_assets quiet auth output_dir no_verify (asset :: rest) mirror w in
  run = (Exc e, w0)
  /\ (exists code msg, e = OSError code msg)
  /\ exit_status (fst run) = Some 1
  /\ requests_of (snd run) = requests_of w
  /\ stdout_of (snd run) = stdout_of w.
Proof.
  intros Hpath file_path Hskip Hmk run.
  assert (Hrun : run = (Exc e, w0)).
  { subst run. rewrite (download_assets_step _ _ _ _ _ _ _ path) by done.
    fold file_path. unfold bind at 1, download_single_asset, bind at 1.
    by rewrite Hmk. }
  assert (He : exists code msg, e = OSError code msg).
  { revert Hmk. unfold os.makedirs. cbn zeta.
    destruct (os.makedirs_rec _ _ _) as [r f'] eqn:Hrec. intros [= -> <-].
    by apply makedirs_rec_raises in Hrec. }
  destruct (makedirs_world _ _ _ _ Hmk) as (Hreq & _).
  rewrite Hrun. split; [done |]. split; [exact He |].
  destruct He as (code & msg & ->).
  split; [done |]. split; [exact Hreq | exact (makedirs_stdout _ _ _ _ Hmk)].
Qed.

Lemma unmakeable_directory_is_uncaught_witness :
  let run := download_assets false None "out" false [Sample.asset Sample.sha1_abc] false
               (Scenes.blocked Scenes.sound) in
  exit_status (fst run) = Some 1 /\ requests_of (snd run) = [].
Proof.
  destruct (unmakeable_directory_is_uncaught false None "out" false false
              (Sample.asset Sample.sha1_abc) [] "/com/example/lib-1.0.jar"
              (os_error ENOTDIR "out/com/example")
              (Scenes.blocked Scenes.sound)
              (snd (os.makedirs "out/com/example" (Scenes.blocked Scenes.sound))))
    as (_ & _ & Hexit & Hreq & _); [reflexivity | reflexivity | vm_compute; reflexivity |].
  cbn zeta. split; [exact Hexit | exact Hreq].
Defined.

(** ** Runs of [main] (lines 49-66) *)

(** X17.  A server given without a scheme is taken as one over http: when
    the server argument has no [://] in it, the run is the run for the
    argument with [http://] put in front. *)
Theorem schemeless_server_is_http (fuel : nat) (a : args) (w : world) :
  Str.contains "://" (server a) = false ->
  main fuel a w = main fuel (with_server ("http://" +:+ server a) a) w.
Proof.
  intros Hno. unfold main, with_server, resolve_output_dir.
  cbn [server repo output_dir username no_verify mirror quiet]. rewrite Hno.
  change (Str.contains "://" ("http://" +:+ server a)) with true.
  reflexivity.
Qed.

Lemma schemeless_server_is_http_witness :
  main 3 (mkArgs "host:8081" "maven-releases" (Some "out") None false true true)
    (Sample.fresh Sample.two_pages)
  = main 3 (mkArgs "http://host:8081" "maven-releases" (Some "out") None false true true)
      (Sample.fresh Sample.two_pages).
Proof.
  apply (schemeless_server_is_http 3
           (mkArgs "host:8081" "maven-releases" (Some "out") None false true true)
           (Sample.fresh Sample.two_pages)).
  reflexivity.
Defined.

Section MirrorRerun.

Lemma bind_returns {A B} (c : M A) (k : A -> M B) w a w' :
  c w = (Ret a, w') -> bind c k w = k a w'.
Proof. unfold bind. by intros ->. Qed.

Lemma when_print_returns b line w :
  exists w', when b (print line) w = (Ret tt, w') /\ same_but_console w w'.
Proof.
  destruct b; eexists; (split; [reflexivity |]); [| done].
  split; [done |]. split; [done |]. by rewrite requests_of_log, app_nil_r.
Qed.

(** Line 55 returns the credentials, having at most asked for the password. *)
Lemma credentials_returned (a : args) w :
  exists w',
    (if falsy (username a) then ret None
     else
       let* env := getenv_NEXUS_PASSWORD in
       let* password := (if falsy env then getpass else ret (default EmptyString env)) in
       ret (Some (default EmptyString (username a), password))) w
    = (Ret (credentials_of a w), w')
    /\ same_but_console w w'.
Proof.
  unfold credentials_of. destruct (falsy (username a)); [by eexists |].
  unfold bind at 1, getenv_NEXUS_PASSWORD.
  destruct (falsy (NEXUS_PASSWORD w)); eexists; (split; [reflexivity |]); [| done].
  split; [done |]. split; [done |]. by rewrite requests_of_log, app_nil_r.
Qed.

Lemma fs_after_requests auth urls : forall w, fs (after_requests auth urls w) = fs w.
Proof.
  induction urls as [|u urls IH]; intros w; [done |].
  cbn. unfold after_requests in IH. by rewrite IH.
Qed.

(** A listing whose assets are all in place costs the loop nothing. *)
Lemma download_assets_in_place quiet auth output_dir no_verify listing w :
  Forall (in_place output_dir (fs w)) listing ->
  download_assets quiet auth output_dir no_verify listing true w = (Ret tt, w).
Proof.
  induction 1 as [|asset rest (path & data & Hpath & Hfile & Hsize) _ IH]; [done |].
  cbn [download_assets]. rewrite Hpath, bind_lift_ret. cbn [method_lstrip].
  rewrite bind_lift_ret. unfold bind at 1.
  unfold already_downloaded, bind, isfile, st_size, os.isfile.
  rewrite Hfile, Hsize. cbn [lift ret Py.eq_int].
  rewrite Hfile. cbn [ret]. rewrite Z.eqb_refl. exact IH.
Qed.

End MirrorRerun.

(** X18.  Mirroring a repository that is already mirrored downloads nothing.
    In mirror mode, when the server returns the listing page after page and
    every asset of it has its file in the output directory with the size the
    descriptor gives, the run ends normally (exit status 0) having sent the
    listing requests and no other, and the file system is as it was. *)
Theorem mirror_rerun_downloads_nothing
    (fuel : nat) (a : args) (asset_api_url : string) (ps : list page) (w : world) :
  mirror a = true ->
  urllib.urljoin (effective_server a) ("service/rest/v1/assets?repository=" +:+ repo a)
  = Ret asset_api_url ->
  only_last_ends ps = true ->
  listing_served (remote w) (credentials_of a w) asset_api_url (length (requests_of w))
    (PyInt (-1)) ps ->
  (length ps <= fuel)%nat ->
  Forall (in_place (resolve_output_dir a) (fs w)) (concat (page_items <$> ps)) ->
  let run := main fuel a w in
  fst run = Ret tt
  /\ exit_status (fst run) = Some 0
  /\ fs (snd run) = fs w
  /\ requests_of (snd run)
     = requests_of w ++ listing_urls asset_api_url (PyInt (-1)) ps.
Proof.
  intros Hmirror Hjoin Hends Hserved Hfuel Hplace run.
  assert (Hrun : exists w', run = (Ret tt, w') /\ fs w' = fs w
            /\ requests_of w'
               = requests_of w ++ listing_urls asset_api_url (PyInt (-1)) ps).
  { subst run. unfold main. cbn zeta. fold (effective_server a).
    unfold bind at 1, path_exists. rewrite Hmirror, andb_false_r.
    unfold bind at 1. cbn [ret].
    destruct (credentials_returned a w) as (w1 & Hauth & Hfs1 & Hrem1 & Hreq1).
    rewrite (bind_returns _ _ _ _ _ Hauth).
    destruct (when_print_returns (negb (quiet a)) "Fetching asset listing..." w1)
      as (w2 & Hp2 & Hfs2 & Hrem2 & Hreq2).
    rewrite (bind_returns _ _ _ _ _ Hp2).
    assert (Hfetch : fetch_asset_listing fuel (quiet a) (credentials_of a w)
                       (effective_server a) (repo a) w2
                     = (Ret (concat (page_items <$> ps)),
                        after_requests (credentials_of a w)
                          (listing_urls asset_api_url (PyInt (-1)) ps) w2)).
    { apply fetch_asset_listing_pages; [done | done | | done].
      by rewrite Hrem2, Hrem1, Hreq2, Hreq1. }
    rewrite (bind_returns _ _ _ _ _ Hfetch).
    set (w3 := after_requests _ _ w2).
    destruct (when_print_returns (negb (quiet a)) "Done!" w3)
      as (w4 & Hp4 & Hfs4 & Hrem4 & Hreq4).
    rewrite (bind_returns _ _ _ _ _ Hp4).
    destruct (when_print_returns (negb (quiet a)) "Downloading and verifying assets..." w4)
      as (w5 & Hp5 & Hfs5 & Hrem5 & Hreq5).
    rewrite (bind_returns _ _ _ _ _ Hp5).
    assert (Hfs : fs w5 = fs w).
    { rewrite Hfs5, Hfs4. subst w3. by rewrite fs_after_requests, Hfs2, Hfs1. }
    rewrite (bind_returns _ _ _ tt w5).
    2:{ apply download_assets_in_place. by rewrite Hfs. }
    destruct (when_print_returns (negb (quiet a)) "Done!" w5)
      as (w6 & Hp6 & Hfs6 & Hrem6 & Hreq6).
    exists w6. split; [exact Hp6 |]. split; [by rewrite Hfs6 |].
    rewrite Hreq6, Hreq5, Hreq4. subst w3.
    by rewrite requests_of_after_requests, Hreq2, Hreq1. }
  destruct Hrun as (w' & Hrun & Hfs & Hreq). by rewrite Hrun.
Qed.

Lemma mirror_rerun_downloads_nothing_witness :
  let run := main 2 (Sample.out_args true) (Sample.mirrored Sample.two_pages) in
  fst run = Ret tt
  /\ fs (snd run) = fs (Sample.mirrored Sample.two_pages)
  /\ length (requests_of (snd run)) = 2%nat.
Proof.
  destruct (mirror_rerun_downloads_nothing 2 (Sample.out_args true)
              "http://host/service/rest/v1/assets?repository=maven-releases"
              [Sample.page1; Sample.page2] (Sample.mirrored Sample.two_pages))
    as (Hret & _ & Hfs & Hreq).
  - reflexivity.
  - vm_compute; reflexivity.
  - reflexivity.
  - split; [| split; [| exact I]]; eexists _, _; repeat split; reflexivity.
  - cbn; lia.
  - repeat apply Forall_cons_2; try apply Forall_nil_2;
      exists "/com/example/lib-1.0.jar", Sample.abc;
      (split; [reflexivity |]); (split; [vm_compute; reflexivity | reflexivity]).
  - cbn zeta. split; [exact Hret |]. split; [exact Hfs |]. by rewrite Hreq.
Defined.

(** X19.  The password is settled once, before anything else.  In a run that
    passes the check of the output directory, the first thing that happens
    is the prompt for the password, if a user name is given and
    [NEXUS_PASSWORD] is unset or empty; otherwise there is no prompt; and
    nothing later in the run, whatever its outcome, prompts again. *)
Theorem password_is_asked_once_up_front (fuel : nat) (a : args) (w : world) :
  os.exists_ (fs w) (resolve_output_dir a) && negb (mirror a) = false ->
  exists rest,
    trace (snd (main fuel a w))
    = trace w
      ++ (if negb (falsy (username a)) && falsy (NEXUS_PASSWORD w) then [Getpass] else [])
      ++ rest
    /\ Getpass ∉ rest.
Proof.
  intros Hcheck. set (quietly := fun e => e <> Getpass).
  assert (Hrest : forall auth,
    keeps quietly
      (when (negb (quiet a)) (print "Fetching asset listing...") >>
       let* asset_listing :=
         fetch_asset_listing fuel (quiet a) auth (effective_server a) (repo a) in
       when (negb (quiet a)) (print "Done!") >>
       when (negb (quiet a)) (print "Downloading and verifying assets...") >>
       download_assets (quiet a) auth (resolve_output_dir a) (no_verify a)
         asset_listing (mirror a) >>
       when (negb (quiet a)) (print "Done!"))).
  { intros auth. unfold print.
    repeat first
      [ apply keeps_fetch_asset_listing | apply keeps_download_assets | keeps_step ];
      done. }
  assert (Hauth : exists auth,
    (if falsy (username a) then ret None
     else
       let* env := getenv_NEXUS_PASSWORD in
       let* password := (if falsy env then getpass else ret (default EmptyString env)) in
       ret (Some (default EmptyString (username a), password))) w
    = (Ret auth,
       if negb (falsy (username a)) && falsy (NEXUS_PASSWORD w) then log Getpass w else w)).
  { destruct (falsy (username a)); [by eexists |].
    unfold bind at 1, getenv_NEXUS_PASSWORD.
    destruct (falsy (NEXUS_PASSWORD w)); by eexists. }
  destruct Hauth as [auth Hauth].
  unfold main. cbn zeta. fold (effective_server a).
  unfold bind at 1, path_exists. rewrite Hcheck. unfold bind at 1. cbn [ret].
  rewrite (bind_returns _ _ _ _ _ Hauth).
  destruct (Hrest auth (if negb (falsy (username a)) && falsy (NEXUS_PASSWORD w)
                        then log Getpass w else w)) as (new & Htr & Hall & _).
  exists new. split.
  - rewrite Htr. by destruct (negb (falsy (username a)) && falsy (NEXUS_PASSWORD w));
      cbn; rewrite <- ?app_assoc.
  - intros Hin. rewrite Forall_forall in Hall. by apply Hall in Hin.
Qed.

Lemma password_is_asked_once_up_front_witness :
  exists rest,
    trace (snd (main 2 (mkArgs "http://host" "maven-releases" (Some "out") (Some "admin")
                          false true true)
                  (Sample.mirrored Sample.two_pages)))
    = Getpass :: rest
    /\ Getpass ∉ rest.
Proof.
  destruct (password_is_asked_once_up_front 2
              (mkArgs "http://host" "maven-releases" (Some "out") (Some "admin")
                 false true true)
              (Sample.mirrored Sample.two_pages))
    as (rest & Htr & Hnot); [vm_compute; reflexivity |].
  exists rest. split; [exact Htr | exact Hnot].
Defined.

(** ** What a normal end of the loop over the assets means *)

(** A name that resolves to a file is the name of that entry. *)
Lemma lookup_file f name data :
  os.lookup f name = Some (File data) -> f !! name = Some (File data).
Proof.
  unfold os.lookup. destruct (String.eqb name EmptyString); [done |].
  destruct (String.eqb (Str.lstrip "/" name) EmptyString); [done |].
  destruct (Str.endswith "/" name); [| done].
  by destruct (f !! Str.rstrip "/" name) as [[]|].
Qed.

(** X20.  A loop over the assets that ends normally has left a file for every
    asset of the listing: each descriptor has a str under [path], and the
    file system holds a regular file under the name lines 110-111 form from
    it (for a name listed twice, the file of the later descriptor). *)
Theorem normal_end_leaves_every_file
    (quiet : bool) (auth : credentials) (output_dir : string) (no_verify mirror : bool)
    (asset_listing : list pyobj) (w w' : world) :
  download_assets quiet auth output_dir no_verify asset_listing mirror w = (Ret tt, w') ->
  Forall (has_file output_dir (fs w')) asset_listing.
Proof.
  set (any := fun _ : event => True).
  assert (Hrest : forall l w0 w1,
    download_assets quiet auth output_dir no_verify l mirror w0 = (Ret tt, w1) ->
    fs_grows (fs w0) (fs w1)).
  { intros l w0 w1 Hrun.
    destruct (keeps_download_assets any (fun _ => I) quiet auth output_dir no_verify mirror l
                (fun _ => I) (fun _ => I) (fun _ => I) (fun _ => I) w0)
      as (_ & _ & _ & (_ & _ & Hgrow) & _).
    by rewrite Hrun in Hgrow. }
  revert w. induction asset_listing as [|asset rest IH]; intros w; [done |].
  cbn [download_assets].
  destruct (Py.getitem asset "path") as [[| | |path| |] | e |] eqn:Hpath;
    try done.
  rewrite !bind_lift_ret. cbn [method_lstrip]. rewrite bind_lift_ret.
  set (file_path := posixpath.join output_dir (Str.lstrip "/" path)).
  unfold bind at 1.
  pose proof (already_downloaded_world mirror file_path asset w) as Hw.
  destruct (already_downloaded mirror file_path asset w) as [[skip | e |] w0] eqn:Hskip;
    [| done..].
  cbn [snd] in Hw. subst w0.
  assert (Hthen : forall w1 data,
    fs w1 !! file_path = Some (File data) ->
    download_assets quiet auth output_dir no_verify rest mirror w1 = (Ret tt, w') ->
    Forall (has_file output_dir (fs w')) (asset :: rest)).
  { intros w1 data Hfile Hrun. apply Forall_cons. split; [| by apply (IH w1)].
    destruct (Hrest _ _ _ Hrun file_path) as [_ Hkind].
    destruct (Hkind data Hfile) as [data' Hfile'].
    by exists path, data'. }
  destruct skip.
  - revert Hskip. unfold already_downloaded. destruct mirror; [| done].
    unfold bind at 1, isfile, os.isfile.
    destruct (os.lookup (fs w) file_path) as [[data|]|] eqn:Hfile; [| done..].
    intros _. apply (Hthen w data). by apply lookup_file.
  - unfold bind at 1.
    destruct (download_single_asset quiet auth file_path no_verify asset w)
      as [[error | e |] w1] eqn:Hdl; [| done..].
    assert (Herr : error = PyBool false \/ Py.truthy error = true).
    { revert Hdl. unfold download_single_asset, bind at 1.
      destruct (os.makedirs (posixpath.dirname file_path) w) as [[[]| e |] w0]; [| done..].
      intros [-> | (msg & _ & Htrue)]%try_loop_returns; auto. }
    destruct Herr as [-> | Htrue]; [| by rewrite Htrue].
    cbn [Py.truthy].
    apply returned_false_in_place in Hdl as [data Hfile].
    by apply (Hthen w1 data).
Qed.

Lemma normal_end_leaves_every_file_witness :
  has_file "out"
    (fs (snd (download_assets true None "out" false [Sample.asset Sample.sha1_abc] false
                (Sample.fresh Scenes.sound))))
    (Sample.asset Sample.sha1_abc).
Proof.
  refine (Forall_inv
            (normal_end_leaves_every_file true None "out" false false
               [Sample.asset Sample.sha1_abc] (Sample.fresh Scenes.sound)
               (snd (download_assets true None "out" false [Sample.asset Sample.sha1_abc]
                       false (Sample.fresh Scenes.sound))) _)).
  vm_compute; reflexivity.
Defined.

Lemma bind_assoc {A B C} (c : M A) (k : A -> M B) (k' : B -> M C) w :
  bind (bind c k) k' w = bind c (fun a => bind (k a) k') w.
Proof. unfold bind. by destruct (c w) as [[a | e |] w0]. Qed.

Lemma bind_ext {A B} (c : M A) (k1 k2 : A -> M B) w :
  (forall a w', k1 a w' = k2 a w') -> bind c k1 w = bind c k2 w.
Proof. intros H. unfold bind. by destruct (c w) as [[a | e |] w0]. Qed.

(** X21.  The loop handles the assets one after the other, in the order of
    the listing, and carries nothing from one to the next but the world: the
    loop over a listing in two parts is the loop over the first part, then,
    if that one ends normally, the loop over the second part in the world it
    left; if the first ends otherwise, that is the end of the whole. *)
Theorem download_assets_app
    (quiet : bool) (auth : credentials) (output_dir : string) (no_verify mirror : bool)
    (l1 l2 : list pyobj) (w : world) :
  download_assets quiet auth output_dir no_verify (l1 ++ l2) mirror w
  = (download_assets quiet auth output_dir no_verify l1 mirror >>
     download_assets quiet auth output_dir no_verify l2 mirror) w.
Proof.
  revert w. induction l1 as [|asset l1 IH]; intros w; [done |].
  cbn [app download_assets].
  rewrite bind_assoc. apply bind_ext. intros path w0.
  rewrite bind_assoc. apply bind_ext. intros relative_path w1. cbv zeta.
  rewrite bind_assoc. apply bind_ext. intros [] w2; [apply IH |].
  rewrite bind_assoc. apply bind_ext. intros error w3.
  destruct (Py.truthy error); [| apply IH].
  unfold bind, print, emit, abort, raise, bind. done.
Qed.
